(** * Course lifecycle and content registry of the kore service (ananke-nbgrader)

    A shallow embedding of [kore/misc/utils.py], [kore/models/enums.py] and
    the PATCH and DELETE branches of [kore/routes/courses_route.py], with
    the properties of the course registry, the path resolver, the name
    deduplicator and the lifecycle transitions.

    Python text is modelled by [string]: a sequence of code points below
    256.  Python exceptions are values of [exn]; a call that may raise
    returns a [result]. *)

From Stdlib Require Import Bool Arith ZArith Lia List String Ascii.
From Stdlib Require Import Decimal DecimalString DecimalPos DecimalZ.
Import ListNotations.

Local Open Scope list_scope.
Local Open Scope string_scope.

(* ===================================================================== *)
(** ** Exceptions and the error monad *)

Inductive exn : Type :=
| FileNotFoundError
| PermissionError
| CalledProcessError
| AutogeneratedFileError
| InfoFileError
| CleanUpError
| TypeError
| AttributeError
| ValueError
| KeyError
| IndexError
| GradebookError      (* whatever the grading store raises when it cannot be opened *)
| ExecError.          (* [exec] raised, or the text leaves the fragment modelled by [exec_config] *)

Inductive result (A : Type) : Type :=
| Ok (a : A)
| Raise (e : exn).
Arguments Ok {A} a.
Arguments Raise {A} e.

Definition bind {A B} (r : result A) (k : A -> result B) : result B :=
  match r with
  | Ok a => k a
  | Raise e => Raise e
  end.

Declare Scope py_scope.
Delimit Scope py_scope with py.
Notation "x <- r ;; k" := (bind r (fun x => k))
  (at level 61, r at next level, right associativity) : py_scope.
Notation "' p <- r ;; k" := (bind r (fun p => k))
  (at level 61, p pattern, r at next level, right associativity) : py_scope.
Local Open Scope py_scope.

Fixpoint mapM {A B} (f : A -> result B) (l : list A) : result (list B) :=
  match l with
  | [] => Ok []
  | a :: l' => b <- f a ;; bs <- mapM f l' ;; Ok (b :: bs)
  end.

(* ===================================================================== *)
(** ** Python string methods *)

Module Str.

Definition nl : string := String (ascii_of_nat 10) "".

Fixpoint mem (c : ascii) (chars : string) : bool :=
  match chars with
  | "" => false
  | String d chars' => Ascii.eqb c d || mem c chars'
  end.

(** [s.startswith(p)] *)
Definition startswith (s p : string) : bool := String.prefix p s.

Fixpoint drop (n : nat) (s : string) : string :=
  match n, s with
  | 0, _ => s
  | S n', String _ s' => drop n' s'
  | S _, "" => ""
  end.

Definition take (n : nat) (s : string) : string := String.substring 0 n s.

(** [s.endswith(p)] *)
Definition endswith (s p : string) : bool :=
  Nat.leb (String.length p) (String.length s) &&
  String.eqb (drop (String.length s - String.length p) s) p.

(** [s.removesuffix(p)] *)
Definition removesuffix (s p : string) : string :=
  if endswith s p then take (String.length s - String.length p) s else s.

(** [s.removeprefix(p)] *)
Definition removeprefix (s p : string) : string :=
  if startswith s p then drop (String.length p) s else s.

(** [s.lstrip(chars)]: drops leading characters for as long as they
    belong to the set [chars]. *)
Fixpoint lstrip (s chars : string) : string :=
  match s with
  | "" => ""
  | String c s' => if mem c chars then lstrip s' chars else s
  end.

(** [s.rstrip(chars)] *)
Fixpoint rstrip (s chars : string) : string :=
  match s with
  | "" => ""
  | String c s' =>
      match rstrip s' chars with
      | "" => if mem c chars then "" else String c ""
      | r => String c r
      end
  end.

(** [s.strip(chars)] *)
Definition strip (s chars : string) : string := rstrip (lstrip s chars) chars.

(** [s.replace(old, new)] for a non-empty [old]: the occurrences of
    [old] are found from the left and do not overlap.  [skip] counts the
    characters of a match that are still to be passed over. *)
Fixpoint replace_from (skip : nat) (old new s : string) : string :=
  match s with
  | "" => ""
  | String c s' =>
      match skip with
      | S k => replace_from k old new s'
      | 0 =>
          if String.prefix old s
          then new ++ replace_from (String.length old - 1) old new s'
          else String c (replace_from 0 old new s')
      end
  end.

Definition replace (s old new : string) : string := replace_from 0 old new s.

(** [s.split(sep)] for a non-empty [sep]; [cur] is the piece being
    read, in reverse. *)
Fixpoint rev_string (acc s : string) : string :=
  match s with
  | "" => acc
  | String c s' => rev_string (String c acc) s'
  end.

Fixpoint split_from (skip : nat) (sep cur s : string) : list string :=
  match s with
  | "" => [rev_string "" cur]
  | String c s' =>
      match skip with
      | S k => split_from k sep cur s'
      | 0 =>
          if String.prefix sep s
          then rev_string "" cur :: split_from (String.length sep - 1) sep "" s'
          else split_from 0 sep (String c cur) s'
      end
  end.

Definition split (s sep : string) : list string := split_from 0 sep "" s.

(** [sep.join(l)] *)
Definition join (sep : string) (l : list string) : string := String.concat sep l.

(** [p in s] for strings. *)
Fixpoint occurs (p s : string) : bool :=
  String.prefix p s ||
  match s with
  | "" => false
  | String _ s' => occurs p s'
  end.

(** Sequence indexing [l[i]] with Python's negative indices. *)
Definition index {A} (l : list A) (i : Z) : result A :=
  let n := Z.of_nat (List.length l) in
  let j := if (i <? 0)%Z then (n + i)%Z else i in
  if ((0 <=? j) && (j <? n))%Z
  then match nth_error l (Z.to_nat j) with
       | Some a => Ok a
       | None => Raise IndexError
       end
  else Raise IndexError.

(** Insertion sort by code points: [sorted(l)] on a list of strings. *)
Fixpoint insert_sorted (x : string) (l : list string) : list string :=
  match l with
  | [] => [x]
  | y :: l' => if String.leb x y then x :: l else y :: insert_sorted x l'
  end.

Fixpoint sorted (l : list string) : list string :=
  match l with
  | [] => []
  | x :: l' => insert_sorted x (sorted l')
  end.

End Str.

(* ===================================================================== *)
(** ** Python values of the registry and of the launch snapshot

    The registry holds services and roles (dictionaries) and the group
    mapping; their fields are strings, integers, booleans, [None], lists
    and dictionaries with string keys.  A dictionary keeps its insertion
    order, which is the order in which [str] writes it. *)

#[local] Set Warnings "-register-all".

Inductive pyval : Type :=
| PNone
| PBool (b : bool)
| PInt (z : Z)
| PStr (s : string)
| PList (l : list pyval)
| PDict (d : list (string * pyval)).

Definition dict : Type := list (string * pyval).

Module Py.

Definition squote : ascii := "'"%char.
Definition dquote : ascii := "034"%char.
Definition backslash : ascii := "\"%char.

(** *** Dictionaries *)

(** [d.get(k)] *)
Fixpoint get (d : dict) (k : string) : option pyval :=
  match d with
  | [] => None
  | (k', v) :: d' => if String.eqb k k' then Some v else get d' k
  end.

(** [d[k] = v]: an existing key keeps its place. *)
Fixpoint set (d : dict) (k : string) (v : pyval) : dict :=
  match d with
  | [] => [(k, v)]
  | (k', v') :: d' =>
      if String.eqb k k' then (k, v) :: d' else (k', v') :: set d' k v
  end.

(** [del d[k]] *)
Fixpoint del (d : dict) (k : string) : dict :=
  match d with
  | [] => []
  | (k', v') :: d' => if String.eqb k k' then d' else (k', v') :: del d' k
  end.

(** [d.update(e)] *)
Definition update (d e : dict) : dict :=
  fold_left (fun acc kv => set acc (fst kv) (snd kv)) e d.

(** [d[k]] *)
Definition getitem (d : dict) (k : string) : result pyval :=
  match get d k with
  | Some v => Ok v
  | None => Raise KeyError
  end.

(** *** Truth value and equality *)

(** [bool(v)] *)
Definition truthy (v : pyval) : bool :=
  match v with
  | PNone => false
  | PBool b => b
  | PInt z => negb (Z.eqb z 0)
  | PStr s => negb (String.eqb s "")
  | PList l => match l with [] => false | _ => true end
  | PDict d => match d with [] => false | _ => true end
  end.

(** [a == b]: booleans compare as the integers 0 and 1, lists
    elementwise, dictionaries regardless of order. *)
Fixpoint eqb (a b : pyval) {struct a} : bool :=
  match a, b with
  | PNone, PNone => true
  | PBool x, PBool y => Bool.eqb x y
  | PBool x, PInt z => Z.eqb (if x then 1 else 0) z
  | PInt z, PBool x => Z.eqb z (if x then 1 else 0)
  | PInt x, PInt y => Z.eqb x y
  | PStr x, PStr y => String.eqb x y
  | PList l1, PList l2 =>
      (fix go (l1 l2 : list pyval) : bool :=
         match l1, l2 with
         | [], [] => true
         | x :: l1', y :: l2' => eqb x y && go l1' l2'
         | _, _ => false
         end) l1 l2
  | PDict d1, PDict d2 =>
      Nat.eqb (List.length d1) (List.length d2) &&
      (fix go (d1 : list (string * pyval)) : bool :=
         match d1 with
         | [] => true
         | (k, v) :: d1' =>
             match get d2 k with
             | Some v' => eqb v v'
             | None => false
             end && go d1'
         end) d1
  | _, _ => false
  end.

(** [x in v] *)
Definition contains (v x : pyval) : result bool :=
  match v with
  | PList l => Ok (existsb (fun y => eqb x y) l)
  | PDict d => match x with
               | PStr k => Ok (match get d k with Some _ => true | None => false end)
               | PList _ | PDict _ => Raise TypeError
               | _ => Ok false
               end
  | PStr s => match x with
              | PStr p => Ok (Str.occurs p s)
              | _ => Raise TypeError
              end
  | _ => Raise TypeError
  end.

(** [v.get(k)] on a value: only dictionaries have the method. *)
Definition vget (v : pyval) (k : string) : result pyval :=
  match v with
  | PDict d => Ok (match get d k with Some x => x | None => PNone end)
  | _ => Raise AttributeError
  end.

(** [l.index(x)]: position of the first element equal to [x]. *)
Fixpoint list_index (l : list pyval) (x : pyval) : option nat :=
  match l with
  | [] => None
  | y :: l' => if eqb y x then Some 0
               else match list_index l' x with
                    | Some n => Some (S n)
                    | None => None
                    end
  end.

Fixpoint remove_at {A} (n : nat) (l : list A) : list A :=
  match l, n with
  | [], _ => []
  | _ :: l', 0 => l'
  | a :: l', S n' => a :: remove_at n' l'
  end.

Fixpoint replace_at {A} (n : nat) (x : A) (l : list A) : list A :=
  match l, n with
  | [], _ => []
  | _ :: l', 0 => x :: l'
  | a :: l', S n' => a :: replace_at n' x l'
  end.

(** *** [repr] and [str] *)

Definition hex_digit (n : nat) : ascii :=
  match String.get n "0123456789abcdef" with
  | Some c => c
  | None => "0"%char
  end.

Definition hex_escape (c : ascii) : string :=
  let n := nat_of_ascii c in
  String backslash (String "x" (String (hex_digit (n / 16)) (String (hex_digit (n mod 16)) ""))).

(** Code points below 256 that [repr] leaves as they are. *)
Definition printable (c : ascii) : bool :=
  let n := nat_of_ascii c in
  (Nat.leb 32 n && Nat.ltb n 127) ||
  (Nat.leb 161 n && negb (Nat.eqb n 173)).

Definition escape_char (q c : ascii) : string :=
  let n := nat_of_ascii c in
  if Ascii.eqb c q || Ascii.eqb c backslash then String backslash (String c "")
  else if Nat.eqb n 9 then String backslash "t"
  else if Nat.eqb n 10 then String backslash "n"
  else if Nat.eqb n 13 then String backslash "r"
  else if printable c then String c ""
  else hex_escape c.

Fixpoint escape (q : ascii) (s : string) : string :=
  match s with
  | "" => ""
  | String c s' => escape_char q c ++ escape q s'
  end.

(** The quote [repr] chooses: double quotes exactly when the string
    has a single quote and no double quote. *)
Definition quote_of (s : string) : ascii :=
  if Str.mem squote s && negb (Str.mem dquote s) then dquote else squote.

Definition repr_str (s : string) : string :=
  let q := quote_of s in
  String q (escape q s ++ String q "").

Definition repr_int (z : Z) : string :=
  match Z.to_int z with
  | Pos d => DecimalString.NilEmpty.string_of_uint d
  | Neg d => String "-" (DecimalString.NilEmpty.string_of_uint d)
  end.

Definition repr_item (repr : pyval -> string) (kv : string * pyval) : string :=
  repr_str (fst kv) ++ ": " ++ repr (snd kv).

Fixpoint repr (v : pyval) : string :=
  match v with
  | PNone => "None"
  | PBool true => "True"
  | PBool false => "False"
  | PInt z => repr_int z
  | PStr s => repr_str s
  | PList l => "[" ++ String.concat ", " (map repr l) ++ "]"
  | PDict d => "{" ++ String.concat ", " (map (repr_item repr) d) ++ "}"
  end.

(** [str(v)]: a string is written as it is, anything else as [repr]. *)
Definition str (v : pyval) : string :=
  match v with
  | PStr s => s
  | _ => repr v
  end.

End Py.
(* ===================================================================== *)
(** ** Executing the registry file

    [read_autogenerated_config] hands the rewritten text of the registry
    file to Python's [exec].  The statements the registry file is made of
    are [services.append(e)], [roles.append(e)] and [groups.update(e)],
    one per line, between blank lines and comment lines, where [e] is a
    literal: [None], [True], [False], a decimal integer, a quoted string, a
    list display or a dictionary display with string keys.  [exec_config]
    runs exactly these; on any other text it answers [None], which stands
    for an exception of [exec] or for Python code that is not modelled. *)

Record registry : Type := mk_registry {
  services : list pyval;
  roles : list pyval;
  groups : dict
}.

Module Exec.

Definition is_nl (c : ascii) : bool := Ascii.eqb c (ascii_of_nat 10).

Fixpoint skip_spaces (s : string) : string :=
  match s with
  | String c s' => if Ascii.eqb c " " then skip_spaces s' else s
  | "" => ""
  end.

Definition digit_of_char (c : ascii) : option (uint -> uint) :=
  match nat_of_ascii c - 48, Nat.leb 48 (nat_of_ascii c) with
  | 0, true => Some D0
  | 1, _ => Some D1
  | 2, _ => Some D2
  | 3, _ => Some D3
  | 4, _ => Some D4
  | 5, _ => Some D5
  | 6, _ => Some D6
  | 7, _ => Some D7
  | 8, _ => Some D8
  | 9, _ => Some D9
  | _, _ => None
  end.

Definition is_digit (c : ascii) : bool :=
  match digit_of_char c with Some _ => true | None => false end.

(** The longest run of decimal digits at the head of [s]. *)
Fixpoint lex_digits (s : string) : uint * string :=
  match s with
  | "" => (Nil, "")
  | String c s' =>
      match digit_of_char c with
      | Some mk => let (d, r) := lex_digits s' in (mk d, r)
      | None => (Nil, s)
      end
  end.

(** An integer literal is [0] or starts with a digit other than 0. *)
Definition int_literal (d : uint) : bool :=
  match d with
  | Nil => false
  | D0 Nil => true
  | D0 _ => false
  | _ => true
  end.

Definition hex_value (c : ascii) : option nat :=
  let n := nat_of_ascii c in
  if Nat.leb 48 n && Nat.leb n 57 then Some (n - 48)
  else if Nat.leb 97 n && Nat.leb n 102 then Some (n - 87)
  else if Nat.leb 65 n && Nat.leb n 70 then Some (n - 55)
  else None.

Definition cons_char (c : ascii) (r : option (string * string)) : option (string * string) :=
  match r with
  | Some (s, rest) => Some (String c s, rest)
  | None => None
  end.

(** The body of a string literal opened by the quote [q], up to and
    including the closing quote.  The escapes are those [repr] writes:
    backslash, the two quotes, [\n], [\r], [\t] and [\xhh]. *)
Fixpoint lex_str (q : ascii) (s : string) : option (string * string) :=
  match s with
  | "" => None
  | String c s' =>
      if Ascii.eqb c q then Some ("", s')
      else if Ascii.eqb c Py.backslash then
        match s' with
        | "" => None
        | String e s'' =>
            if Ascii.eqb e Py.backslash || Ascii.eqb e Py.squote || Ascii.eqb e Py.dquote
            then cons_char e (lex_str q s'')
            else if Ascii.eqb e "n" then cons_char (ascii_of_nat 10) (lex_str q s'')
            else if Ascii.eqb e "r" then cons_char (ascii_of_nat 13) (lex_str q s'')
            else if Ascii.eqb e "t" then cons_char (ascii_of_nat 9) (lex_str q s'')
            else if Ascii.eqb e "x" then
              match s'' with
              | String h1 (String h2 s''') =>
                  match hex_value h1, hex_value h2 with
                  | Some a, Some b => cons_char (ascii_of_nat (16 * a + b)) (lex_str q s''')
                  | _, _ => None
                  end
              | _ => None
              end
            else None
        end
      else if Nat.ltb (nat_of_ascii c) 32 then None
      else cons_char c (lex_str q s')
  end.

Definition ret {A} (a : A) (r : string) : option (A * string) := Some (a, r).

(** The text after the token [c], if [c] is the next token. *)
Definition expect (c : ascii) (s : string) : option string :=
  match skip_spaces s with
  | "" => None
  | String c' r => if Ascii.eqb c' c then Some r else None
  end.

(** Literals.  [fuel] bounds the number of nested calls; the length
    of the text is always enough. *)
Fixpoint parse_value (fuel : nat) (s : string) {struct fuel} : option (pyval * string) :=
  match fuel with
  | 0 => None
  | S f =>
      match skip_spaces s with
      | "" => None
      | String c s' =>
          if Ascii.eqb c "[" then
            match expect "]" s' with
            | Some r => ret (PList []) r
            | None => match parse_items f s' with
                      | Some (l, r) => ret (PList l) r
                      | None => None
                      end
            end
          else if Ascii.eqb c "{" then
            match expect "}" s' with
            | Some r => ret (PDict []) r
            | None => match parse_pairs f s' with
                      | Some (d, r) => ret (PDict (Py.update [] d)) r
                      | None => None
                      end
            end
          else if Ascii.eqb c Py.squote || Ascii.eqb c Py.dquote then
            match lex_str c s' with
            | Some (x, r) => ret (PStr x) r
            | None => None
            end
          else if Ascii.eqb c "-" then
            let (d, r) := lex_digits s' in
            if int_literal d then ret (PInt (- Z.of_uint d)) r else None
          else if is_digit c then
            let (d, r) := lex_digits (String c s') in
            if int_literal d then ret (PInt (Z.of_uint d)) r else None
          else if String.prefix "None" (String c s') then ret PNone (Str.drop 4 (String c s'))
          else if String.prefix "True" (String c s') then ret (PBool true) (Str.drop 4 (String c s'))
          else if String.prefix "False" (String c s') then ret (PBool false) (Str.drop 5 (String c s'))
          else None
      end
  end

(** The items of a list display after the first token, up to and
    including the closing bracket; a comma may precede the bracket. *)
with parse_items (fuel : nat) (s : string) {struct fuel} : option (list pyval * string) :=
  match fuel with
  | 0 => None
  | S f =>
      match parse_value f s with
      | None => None
      | Some (v, r) =>
          match expect "]" r with
          | Some r' => ret [v] r'
          | None =>
              match expect "," r with
              | None => None
              | Some r' =>
                  match expect "]" r' with
                  | Some r'' => ret [v] r''
                  | None => match parse_items f r' with
                            | Some (l, r'') => ret (v :: l) r''
                            | None => None
                            end
                  end
              end
          end
      end
  end

(** The same for the [key: value] pairs of a dictionary display, in the
    order in which they are written. *)
with parse_pairs (fuel : nat) (s : string) {struct fuel} : option (dict * string) :=
  match fuel with
  | 0 => None
  | S f =>
      match parse_value f s with
      | Some (PStr k, r) =>
          match expect ":" r with
          | None => None
          | Some r0 =>
              match parse_value f r0 with
              | None => None
              | Some (v, r1) =>
                  match expect "}" r1 with
                  | Some r' => ret [(k, v)] r'
                  | None =>
                      match expect "," r1 with
                      | None => None
                      | Some r' =>
                          match expect "}" r' with
                          | Some r'' => ret [(k, v)] r''
                          | None => match parse_pairs f r' with
                                    | Some (d, r'') => ret ((k, v) :: d) r''
                                    | None => None
                                    end
                          end
                      end
                  end
              end
          end
      | _ => None
      end
  end.

(** The text after the next line break. *)
Fixpoint skip_line (s : string) : string :=
  match s with
  | "" => ""
  | String c s' => if is_nl c then s' else skip_line s'
  end.

(** After the argument of a call: the closing parenthesis and the end
    of the line. *)
Definition end_of_stmt (s : string) : option string :=
  match expect ")" s with
  | None => None
  | Some r =>
      match skip_spaces r with
      | "" => Some ""
      | String c r' => if is_nl c then Some r' else None
      end
  end.

(** The argument of the call [name(...)] that starts [code], and the
    text after its line. *)
Definition call_arg (name code : string) : option (pyval * string) :=
  if String.prefix name code then
    match parse_value (String.length code) (Str.drop (String.length name) code) with
    | Some (v, r) =>
        match end_of_stmt r with
        | Some r' => Some (v, r')
        | None => None
        end
    | None => None
    end
  else None.

Definition append_service (st : registry) (v : pyval) : registry :=
  mk_registry (services st ++ [v]) (roles st) (groups st).

Definition append_role (st : registry) (v : pyval) : registry :=
  mk_registry (services st) (roles st ++ [v]) (groups st).

Definition update_groups (st : registry) (d : dict) : registry :=
  mk_registry (services st) (roles st) (Py.update (groups st) d).

(** One line at a time: blank lines and comment lines are passed over,
    a statement at the start of a line updates one of the three
    collections. *)
Fixpoint exec_lines (fuel : nat) (code : string) (st : registry) {struct fuel} : option registry :=
  match fuel with
  | 0 => None
  | S f =>
      match code with
      | "" => Some st
      | String c rest =>
          if is_nl c then exec_lines f rest st
          else if Ascii.eqb c "#" then exec_lines f (skip_line rest) st
          else if Ascii.eqb c " " then
            match skip_spaces rest with
            | "" => Some st
            | String c' rest' =>
                if is_nl c' then exec_lines f rest' st
                else if Ascii.eqb c' "#" then exec_lines f (skip_line rest') st
                else None
            end
          else if String.prefix "services.append(" code then
            match call_arg "services.append(" code with
            | Some (v, r) => exec_lines f r (append_service st v)
            | None => None
            end
          else if String.prefix "roles.append(" code then
            match call_arg "roles.append(" code with
            | Some (v, r) => exec_lines f r (append_role st v)
            | None => None
            end
          else if String.prefix "groups.update(" code then
            match call_arg "groups.update(" code with
            | Some (PDict d, r) => exec_lines f r (update_groups st d)
            | _ => None
            end
          else None
      end
  end.

(** [services, roles, groups = [], [], {}; exec(code)] *)
Definition exec_config (code : string) : option registry :=
  exec_lines (S (String.length code)) code (mk_registry [] [] []).

End Exec.
(* ===================================================================== *)
(** ** The world of the service: files, subprocesses, grading store

    The registry file is the one file at [autogenerated_file_path].
    [run_ok] tells, for an argument vector, whether the subprocess exits
    with status 0; [trace] records the argument vectors that were run, in
    order.  A computation takes a world and returns a value or an
    exception together with the world it leaves behind, so that the
    effects made before an exception stay in place. *)

Record file : Type := mk_file {
  content : string;
  readable : bool;       (* [open(path, 'r')] is permitted *)
  writable : bool        (* [open(path, 'w')] is permitted *)
}.

Record world : Type := mk_world {
  reg_file : option file;            (* the registry file, [None] when absent *)
  reg_creatable : bool;              (* [open(path, 'w')] may create the registry file *)
  run_ok : list string -> bool;      (* exit status 0 of a subprocess *)
  trace : list (list string);        (* subprocesses run so far *)
  gradebook : option (list string);  (* enrolled student ids, [None] when the store cannot be opened *)
  titles_file : string               (* text of nbgrader_config.py *)
}.

Definition M (A : Type) : Type := world -> result A * world.

Definition mret {A} (a : A) : M A := fun w => (Ok a, w).
Definition mraise {A} (e : exn) : M A := fun w => (Raise e, w).
Definition mbind {A B} (m : M A) (k : A -> M B) : M B :=
  fun w => match m w with
           | (Ok a, w') => k a w'
           | (Raise e, w') => (Raise e, w')
           end.
Definition lift {A} (r : result A) : M A := fun w => (r, w).

Notation "x <~ m ;; k" := (mbind m (fun x => k))
  (at level 61, m at next level, right associativity) : py_scope.
Notation "m ;;; k" := (mbind m (fun _ => k))
  (at level 61, right associativity) : py_scope.

(** [try: body except ...]: [handler e] is the clause that catches [e],
    if there is one.  An exception raised inside a clause is not caught
    by the other clauses of the same statement. *)
Definition try_except {A} (body : M A) (handler : exn -> option (M A)) : M A :=
  fun w => match body w with
           | (Ok a, w') => (Ok a, w')
           | (Raise e, w') =>
               match handler e with
               | Some h => h w'
               | None => (Raise e, w')
               end
           end.

Definition set_reg_file (f : option file) (w : world) : world :=
  mk_world f (reg_creatable w) (run_ok w) (trace w) (gradebook w) (titles_file w).

Definition set_trace (t : list (list string)) (w : world) : world :=
  mk_world (reg_file w) (reg_creatable w) (run_ok w) t (gradebook w) (titles_file w).

Definition set_gradebook (g : option (list string)) (w : world) : world :=
  mk_world (reg_file w) (reg_creatable w) (run_ok w) (trace w) g (titles_file w).

Definition set_titles_file (t : string) (w : world) : world :=
  mk_world (reg_file w) (reg_creatable w) (run_ok w) (trace w) (gradebook w) t.

Definition chmod_600 (path : string) : list string := ["chmod"; "600"; path].

(** What a subprocess that succeeded did to the registry file:
    [chmod 600] gives the owner, which is the service, read and write
    access. *)
Definition effect_on_registry (path : string) (argv : list string) (f : option file) : option file :=
  if list_eq_dec string_dec argv (chmod_600 path)
  then match f with
       | Some x => Some (mk_file (content x) true true)
       | None => None
       end
  else f.

(** [subprocess.run(argv, check=check)] *)
Definition run (path : string) (check : bool) (argv : list string) : M unit :=
  fun w =>
    let w1 := set_trace (trace w ++ [argv]) w in
    if run_ok w argv
    then (Ok tt, set_reg_file (effect_on_registry path argv (reg_file w1)) w1)
    else if check then (Raise CalledProcessError, w1) else (Ok tt, w1).

(** [with open(path, 'r') as f: f.read()] *)
Definition open_read : M string :=
  fun w => match reg_file w with
           | None => (Raise FileNotFoundError, w)
           | Some f => if readable f then (Ok (content f), w) else (Raise PermissionError, w)
           end.

(** Whether [open(path, 'w')] is permitted. *)
Definition can_write (w : world) : bool :=
  match reg_file w with
  | Some f => writable f
  | None => reg_creatable w
  end.

(** [with open(path, 'w') as f: flock; f.write(text); flock] *)
Definition open_write (text : string) : M unit :=
  fun w => if can_write w
           then match reg_file w with
                | Some f => (Ok tt, set_reg_file (Some (mk_file text (readable f) true)) w)
                | None => (Ok tt, set_reg_file (Some (mk_file text true true)) w)
                end
           else (Raise PermissionError, w).

(* ===================================================================== *)
(** ** Registry store: [write_autogenerated_config], [read_autogenerated_config] *)

Definition header_line : string :=
  "# Autogenerated nbgrader course configuration (DO NOT MODIFY)".

Definition append_line (target : string) (v : pyval) : string :=
  target ++ ".append(" ++ Py.str v ++ ")" ++ Str.nl.

Fixpoint append_lines (target : string) (l : list pyval) : string :=
  match l with
  | [] => ""
  | v :: l' => append_line target v ++ append_lines target l'
  end.

(** The text composed by [write_autogenerated_config]. *)
Definition config_code (services roles : list pyval) (groups : dict) : string :=
  header_line ++ Str.nl ++ Str.nl
  ++ "c = get_config()" ++ Str.nl ++ Str.nl
  ++ "# Services" ++ Str.nl
  ++ append_lines "c.JupyterHub.services" services
  ++ Str.nl
  ++ "# Roles" ++ Str.nl
  ++ append_lines "c.JupyterHub.load_roles" roles
  ++ Str.nl
  ++ "# Groups" ++ Str.nl
  ++ "c.JupyterHub.load_groups.update(" ++ Py.str (PDict groups) ++ ")" ++ Str.nl.

Definition write_autogenerated_config (autogenerated_file_path : string)
    (services roles : list pyval) (groups : dict) : M unit :=
  try_except
    (open_write (config_code services roles groups) ;;;
     run autogenerated_file_path true (chmod_600 autogenerated_file_path))
    (fun e => match e with
              | CalledProcessError => Some (mraise AutogeneratedFileError)
              | PermissionError => Some (mret tt)
              | _ => None
              end).

(** The four textual rewrites applied before [exec]. *)
Definition rewrite_config (config_code : string) : string :=
  let config_code := Str.replace config_code "c = get_config()" "" in
  let config_code := Str.replace config_code "c.JupyterHub.services" "services" in
  let config_code := Str.replace config_code "c.JupyterHub.load_roles" "roles" in
  Str.replace config_code "c.JupyterHub.load_groups" "groups".

Definition read_autogenerated_config (autogenerated_file_path : string) : M registry :=
  config_code <~
    try_except open_read
      (fun e => match e with
                | FileNotFoundError =>
                    Some (write_autogenerated_config autogenerated_file_path [] [] [] ;;;
                          mret "")
                | PermissionError =>
                    Some (run autogenerated_file_path true (chmod_600 autogenerated_file_path) ;;;
                          open_read)
                | CalledProcessError => Some (mraise AutogeneratedFileError)
                | _ => None
                end) ;;
  match Exec.exec_config (rewrite_config config_code) with
  | Some r => mret r
  | None => mraise ExecError
  end.
(* ===================================================================== *)
(** ** [models/enums.py] *)

Inductive Subset : Type := ALL | ACTIVE | OTHER.

Inductive Content : Type := COURSES | ASSIGNMENTS | PROBLEMS.

Definition Subset_eqb (a b : Subset) : bool :=
  match a, b with
  | ALL, ALL | ACTIVE, ACTIVE | OTHER, OTHER => true
  | _, _ => false
  end.

Definition Content_eqb (a b : Content) : bool :=
  match a, b with
  | COURSES, COURSES | ASSIGNMENTS, ASSIGNMENTS | PROBLEMS, PROBLEMS => true
  | _, _ => false
  end.

(** The attribute access [Subset.<name>]: the members are the three
    names the class body binds; any other name raises [AttributeError]. *)
Definition Subset_member (name : string) : result Subset :=
  if String.eqb name "ALL" then Ok ALL
  else if String.eqb name "ACTIVE" then Ok ACTIVE
  else if String.eqb name "OTHER" then Ok OTHER
  else Raise AttributeError.

(** [Content.<member>.value] *)
Definition Content_value (c : Content) : string :=
  match c with
  | COURSES => "courses"
  | ASSIGNMENTS => "assignments"
  | PROBLEMS => "problems"
  end.

(* ===================================================================== *)
(** ** The directory tree seen by the path resolver *)

Inductive node : Type :=
| File
| Dir (entries : list (string * node)).

Record fs : Type := mk_fs {
  root : node;                              (* the tree below [/] *)
  group_owner : string -> string;           (* name of the group owning [/home/<name>] *)
  lti_snapshot : string -> option dict;     (* parsed JSON of the launch snapshot at a path, if it exists *)
  info_json : string -> option (list (string * string))
                                            (* parsed JSON of the [info.json] at a path, if it exists *)
}.

Module Path.

Local Open Scope list_scope.

(** A [pathlib.Path] is the list of its components below the root. *)
Definition t : Type := list string.

(** [Path(s)] for an absolute [s]: empty components and [.] vanish. *)
Definition of_string (s : string) : t :=
  filter (fun c => negb (String.eqb c "") && negb (String.eqb c ".")) (Str.split s "/").

(** [str(p)] *)
Definition to_string (p : t) : string :=
  match p with
  | [] => "/"
  | _ => String.concat "" (map (fun c => String.append "/" c) p)
  end.

(** [p.name] *)
Definition name (p : t) : string := List.last p "".

(** The names of [p.parents]. *)
Definition parent_names (p : t) : list string :=
  match p with
  | [] => []
  | _ => List.rev (removelast p) ++ [""]
  end.

Fixpoint find (es : list (string * node)) (c : string) : option node :=
  match es with
  | [] => None
  | (c', n) :: es' => if String.eqb c c' then Some n else find es' c
  end.

Fixpoint lookup (n : node) (p : t) : option node :=
  match p with
  | [] => Some n
  | c :: p' =>
      match n with
      | File => None
      | Dir es =>
          match find es c with
          | Some n' => lookup n' p'
          | None => None
          end
      end
  end.

Definition exists_ (f : fs) (p : t) : bool :=
  match lookup (root f) p with Some _ => true | None => false end.

Definition is_dir (f : fs) (p : t) : bool :=
  match lookup (root f) p with Some (Dir _) => true | _ => false end.

Definition is_file (f : fs) (p : t) : bool :=
  match lookup (root f) p with Some File => true | _ => false end.

(** [os.scandir(p)]: the entries of a directory. *)
Definition scandir (f : fs) (p : t) : result (list (string * node)) :=
  match lookup (root f) p with
  | Some (Dir es) => Ok es
  | _ => Raise FileNotFoundError
  end.

(** [p.glob('*/')]: the subdirectories of [p]; in [pathlib] the
    wildcard also matches names that start with a dot. *)
Definition glob_dirs (f : fs) (p : t) : list t :=
  match lookup (root f) p with
  | Some (Dir es) =>
      flat_map (fun e => match snd e with Dir _ => [p ++ [fst e]] | File => [] end) es
  | _ => []
  end.

(** [p.glob('*/source/')] *)
Definition glob_sources (f : fs) (p : t) : list t :=
  filter (is_dir f) (map (fun d => d ++ ["source"]) (glob_dirs f p)).

(** Everything below a node, with its path. *)
Fixpoint walk (n : node) (p : t) : list t :=
  match n with
  | File => []
  | Dir es =>
      (fix go (es : list (string * node)) : list t :=
         match es with
         | [] => []
         | (c, n') :: es' => (p ++ [c]) :: walk n' (p ++ [c]) ++ go es'
         end) es
  end.

(** [p.rglob('*.ipynb')] *)
Definition rglob_ipynb (f : fs) (p : t) : list t :=
  match lookup (root f) p with
  | Some n => filter (fun q => Str.endswith (name q) ".ipynb") (walk n p)
  | None => []
  end.

(** A component of the path starts with a dot. *)
Definition has_hidden_component (p : t) : bool :=
  existsb (fun c => Str.startswith c ".") p.

End Path.

(* ===================================================================== *)
(** ** Identity deriver: [make_course_id] *)

Section Resolver.

(** [hashlib.shake_256(text.encode()).hexdigest(8)] *)
Variable shake_256_hexdigest8 : string -> string.

Definition claim_deployment_id := "https://purl.imsglobal.org/spec/lti/claim/deployment_id".
Definition claim_resource_link := "https://purl.imsglobal.org/spec/lti/claim/resource_link".
Definition claim_context := "https://purl.imsglobal.org/spec/lti/claim/context".
Definition claim_target_link_uri := "https://purl.imsglobal.org/spec/lti/claim/target_link_uri".

(** [d.get(k, default)] *)
Definition get_default (d : dict) (k : string) (default : pyval) : pyval :=
  match Py.get d k with Some v => v | None => default end.

Definition make_course_id (lti_state : dict) : result (string * string * string * string) :=
  let deployment_id := get_default lti_state claim_deployment_id (PStr "0") in
  resource_link_id <- Py.vget (get_default lti_state claim_resource_link PNone) "id" ;;
  resource_link_title <- Py.vget (get_default lti_state claim_resource_link PNone) "title" ;;
  context_title <- Py.vget (get_default lti_state claim_context (PDict [])) "title" ;;
  let h := shake_256_hexdigest8 (Py.str deployment_id ++ "-" ++ Py.str resource_link_id) in
  let course_id := "c-" ++ h in
  let grader_user := Str.take 32 course_id in
  let course_title :=
    if Py.truthy resource_link_title && Py.truthy context_title
    then Py.str context_title ++ " - " ++ Py.str resource_link_title
    else if Py.truthy resource_link_title then Py.str resource_link_title
    else if Py.truthy context_title then Py.str context_title
    else "No title available" in
  let course_title_long := Str.replace (course_title ++ " (" ++ course_id ++ ")") "'" "" in
  let course_title_short := Str.replace course_title "'" "" in
  Ok (course_id, course_title_long, course_title_short, grader_user).

(* =================================================================== *)
(** ** Path resolver: [get_active_paths], [get_backed_up_paths] *)

(** [[group.lstrip('formgrade-') for group in groups
      if user_name in groups.get(group)]] *)
Fixpoint owned_groups (user_name : string) (groups : dict) : result (list string) :=
  match groups with
  | [] => Ok []
  | (group, members) :: groups' =>
      b <- Py.contains members (PStr user_name) ;;
      rest <- owned_groups user_name groups' ;;
      Ok (if b then Str.lstrip group "formgrade-" :: rest else rest)
  end.

(** [[item.path.removesuffix('/') for item in os.scandir('/home')
      if item.is_dir() and grp.getgrgid(...)[0] in owned_groups]] *)
Definition base_paths (f : fs) (owned : list string) : result (list string) :=
  items <- Path.scandir f ["home"] ;;
  Ok (flat_map
        (fun item =>
           match snd item with
           | Dir _ =>
               if existsb (String.eqb (group_owner f (fst item))) owned
               then [Str.removesuffix ("/home/" ++ fst item) "/"]
               else []
           | File => []
           end) items).

(** The candidates below one base path, before the filter. *)
Definition candidates (f : fs) (content : Content) (base_path : string) : list Path.t :=
  match content with
  | COURSES =>
      let specific_path := Path.of_string (base_path ++ "/course_data/") in
      if Path.exists_ f specific_path then [specific_path] else []
  | ASSIGNMENTS =>
      let specific_path := Path.of_string (base_path ++ "/course_data/source/") in
      if Path.exists_ f specific_path then Path.glob_dirs f specific_path else []
  | PROBLEMS =>
      let specific_path := Path.of_string (base_path ++ "/course_data/source/") in
      if Path.exists_ f specific_path then Path.rglob_ipynb f specific_path else []
  end.

(** The condition of the generator expression, with the precedence
    Python gives it: [A or (B and C and not D)]. *)
Definition keep_active (f : fs) (content : Content) (path : Path.t) : bool :=
  Path.is_dir f path
  || ((Content_eqb content PROBLEMS && Path.is_file f path)
      && negb (existsb (fun part => Str.startswith part ".") (Path.parent_names path))).

Definition get_active_paths (f : fs) (user_name : string) (groups : dict)
    (content : Content) (subset : Subset) : result (option (list string)) :=
  if Subset_eqb subset ALL || Subset_eqb subset ACTIVE then
    owned <- owned_groups user_name groups ;;
    bases <- base_paths f owned ;;
    let active_paths :=
      flat_map (fun base_path =>
                  map Path.to_string
                      (filter (keep_active f content) (candidates f content base_path)))
               bases in
    Ok (Some (Str.sorted active_paths))
  else if Content_eqb content COURSES then
    CURRENT <- Subset_member "CURRENT" ;;
    if Subset_eqb subset CURRENT then
      let lti_file_path := "/opt/kore/runtime/lti_" ++ user_name ++ ".json" in
      match lti_snapshot f lti_file_path with
      | None => Raise FileNotFoundError
      | Some lti_state =>
          '(_, _, _, grader_user) <- make_course_id lti_state ;;
          Ok (Some ["/home/" ++ grader_user ++ "/course_data"])
      end
    else Ok None
  else Ok None.

Definition get_backed_up_paths (f : fs) (user_name : string) (content : Content)
    : list string :=
  let base_dir := Path.of_string ("/var/lib/private/" ++ user_name) in
  let hidden_parent (p : Path.t) :=
    existsb (fun part => Str.startswith part ".") (Path.parent_names p) in
  let backed_up_paths :=
    match content with
    | COURSES =>
        map (fun path => Str.removesuffix (Path.to_string path) "/")
            (filter (fun path => Path.is_dir f path && negb (hidden_parent path)
                                 && negb (Str.startswith (Path.name path) "."))
                    (Path.glob_dirs f base_dir))
    | ASSIGNMENTS =>
        flat_map (fun source_path =>
                    map Path.to_string
                        (filter (fun assignment_path =>
                                   Path.is_dir f assignment_path
                                   && negb (Str.startswith (Path.name assignment_path) "."))
                                (Path.glob_dirs f source_path)))
                 (filter (Path.is_dir f) (Path.glob_sources f base_dir))
    | PROBLEMS =>
        flat_map (fun source_path =>
                    map Path.to_string
                        (filter (fun problem_path =>
                                   Path.is_file f problem_path
                                   && negb (hidden_parent problem_path))
                                (Path.rglob_ipynb f source_path)))
                 (filter (Path.is_dir f) (Path.glob_sources f base_dir))
    end in
  Str.sorted backed_up_paths.

End Resolver.
(* ===================================================================== *)
(** ** Name deduplicator: [load_info], [generate_unique_names] *)

Fixpoint assoc (l : list (string * string)) (k : string) : option string :=
  match l with
  | [] => None
  | (k', v) :: l' => if String.eqb k k' then Some v else assoc l' k
  end.

(** [load_info(path)]: a file that cannot be opened is an [InfoFileError]. *)
Definition load_info (f : fs) (path : string) : result (list (string * string)) :=
  match info_json f path with
  | Some info => Ok info
  | None => Raise InfoFileError
  end.

Module Np.

Fixpoint count (x : string) (l : list string) : nat :=
  match l with
  | [] => 0
  | y :: l' => (if String.eqb x y then 1 else 0) + count x l'
  end.

(** Removes repetitions from a sorted list. *)
Fixpoint squeeze (l : list string) : list string :=
  match l with
  | [] => []
  | x :: l' =>
      match l' with
      | y :: _ => if String.eqb x y then squeeze l' else x :: squeeze l'
      | [] => [x]
      end
  end.

(** [np.unique(l, return_counts=True)]: the distinct names in
    ascending order and how often each occurs. *)
Definition unique (l : list string) : list string * list nat :=
  let unique_array := squeeze (Str.sorted l) in
  (unique_array, map (fun x => count x l) unique_array).

(** [np.all(counts == 1)] *)
Definition all_one (counts : list nat) : bool := forallb (Nat.eqb 1) counts.

End Np.

(** [Counter[content_names]]: the module imports [Counter] from
    [typing], and the expression subscripts it instead of calling it;
    building a [dict] from the outcome raises [TypeError]. *)
Definition dict_of_typing_Counter_subscript (content_names : list string)
    : result (list (string * nat)) :=
  Raise TypeError.

Fixpoint range (n : nat) : list nat :=
  match n with
  | 0 => []
  | S n' => (range n' ++ [n'])%list
  end.

Definition nat_str (n : nat) : string := Py.repr_int (Z.of_nat n).

Fixpoint count_of (counts : list (string * nat)) (key : string) : result nat :=
  match counts with
  | [] => Raise KeyError
  | (k, n) :: counts' => if String.eqb key k then Ok n else count_of counts' key
  end.

(** One pass of the loop over [[active_names, backed_up_names]]. *)
Definition unique_pass (content_names : list string) : result (list string) :=
  let '(unique_array, unique_count) := Np.unique content_names in
  content_names <-
    (if negb (Np.all_one unique_count) then
       counts <- dict_of_typing_Counter_subscript content_names ;;
       groups <- mapM (fun key =>
                         n <- count_of counts key ;;
                         Ok (map (fun i => if Nat.eqb i 0 then key
                                           else key ++ " (" ++ nat_str i ++ ")")
                                 (range n)))
                      unique_array ;;
       Ok (List.concat groups)
     else Ok content_names) ;;
  Ok (map (fun name => Str.replace name "_" " ") content_names).

Definition active_name (f : fs) (content : Content) (active_path : string) : result string :=
  user_name <- Str.index (Str.split active_path "/") 2 ;;
  let info_file_path := "/home/" ++ user_name ++ "/course_data/info.json" in
  info <- load_info f info_file_path ;;
  title_short <- match assoc info "title_short" with
                 | Some t => Ok t
                 | None => Raise KeyError
                 end ;;
  match content with
  | COURSES => Ok title_short
  | ASSIGNMENTS =>
      a <- Str.index (Str.split (Str.removesuffix active_path "/") "/") (-1) ;;
      Ok (a ++ " (" ++ title_short ++ ")")
  | PROBLEMS =>
      p <- Str.index (Str.split (Str.removesuffix active_path ".ipynb") "/") (-1) ;;
      a <- Str.index (Str.split (Str.removesuffix active_path "/") "/") (-2) ;;
      Ok (p ++ " (" ++ title_short ++ ", " ++ a ++ ")")
  end.

Definition backed_up_name (content : Content) (path : string) : result string :=
  match content with
  | COURSES =>
      c <- Str.index (Str.split path "/") (-1) ;;
      Ok (c ++ " (Backup)")
  | ASSIGNMENTS =>
      a <- Str.index (Str.split path "/") (-1) ;;
      c <- Str.index (Str.split path "/") (-3) ;;
      Ok (a ++ " (Backup, " ++ c ++ ")")
  | PROBLEMS =>
      p <- Str.index (Str.split (Str.removesuffix path ".ipynb") "/") (-1) ;;
      c <- Str.index (Str.split path "/") (-4) ;;
      a <- Str.index (Str.split path "/") (-2) ;;
      Ok (p ++ " (Backup, " ++ c ++ ", " ++ a ++ ")")
  end.

(** [if backed_up_paths:] holds for a list that is given and not empty. *)
Definition given (backed_up_paths : option (list string)) : bool :=
  match backed_up_paths with
  | Some (_ :: _) => true
  | _ => false
  end.

Definition generate_unique_names (f : fs) (content : Content) (active_paths : list string)
    (backed_up_paths : option (list string)) : result (list string) :=
  active_names <- mapM (active_name f content) active_paths ;;
  backed_up_names <-
    (if given backed_up_paths
     then mapM (backed_up_name content)
               (match backed_up_paths with Some l => l | None => [] end)
     else Ok []) ;;
  passes <- mapM unique_pass
                 (if given backed_up_paths then [active_names; backed_up_names]
                  else [active_names]) ;;
  Ok (List.concat passes).
(* ===================================================================== *)
(** ** Lifecycle orchestrator: [handle_clean_up] and the [/courses] route *)

(** [Response(response=json.dumps({'message': m}), status=s)] *)
Record response : Type := mk_response {
  message : string;
  status : nat
}.

(** What the route takes from the [LTIFileReader] of
    [models/lti_file_reader.py] after [read_file()] and
    [extract_values()]. *)
Record lti_file_reader : Type := mk_lti_file_reader {
  read_success : bool;
  parse_success : bool;
  lti_state : dict;
  course_id : string;
  course_title : string;
  grader_user : string;
  error_response : response
}.

Module Json.

Definition hex4 (c : ascii) : string :=
  let n := nat_of_ascii c in
  "\u00" ++ String (Py.hex_digit (n / 16)) (String (Py.hex_digit (n mod 16)) "").

Definition escape_char (c : ascii) : string :=
  let n := nat_of_ascii c in
  if Ascii.eqb c Py.dquote || Ascii.eqb c Py.backslash then String Py.backslash (String c "")
  else if Nat.eqb n 10 then "\n"
  else if Nat.eqb n 13 then "\r"
  else if Nat.eqb n 9 then "\t"
  else if Nat.eqb n 8 then "\b"
  else if Nat.eqb n 12 then "\f"
  else if Nat.leb 32 n && Nat.leb n 126 then String c ""
  else hex4 c.

Fixpoint escape (s : string) : string :=
  match s with
  | "" => ""
  | String c s' => escape_char c ++ escape s'
  end.

(** [json.dumps(l)] for a list of strings. *)
Definition dumps (l : list string) : string :=
  "[" ++ String.concat ", "
           (map (fun s => String Py.dquote (escape s ++ String Py.dquote "")) l)
  ++ "]".

End Json.

(** [get_hub_base_url(lti_state)] *)
Definition get_hub_base_url (lti_state : dict) : result string :=
  base_url <- Py.getitem lti_state claim_target_link_uri ;;
  match base_url with
  | PStr base_url =>
      last <- Str.index (Str.split (Str.strip base_url "/") "://") (-1) ;;
      let base_url := Str.join "/" (List.tl (Str.split last "/")) ++ "/" in
      Ok (if String.eqb base_url "/" then "" else base_url)
  | _ => Raise AttributeError
  end.

(** [with Gradebook(url) as gb: usernames = [...]; gb.remove_student(...)] *)
Definition remove_students : M (list string) :=
  fun w => match gradebook w with
           | Some usernames => (Ok usernames, set_gradebook (Some []) w)
           | None => (Raise GradebookError, w)
           end.

Section Routes.

Variable autogenerated_file_path : string.
Variable kore_token : string.

Definition run_ (check : bool) (argv : list string) : M unit :=
  run autogenerated_file_path check argv.

Definition curl_remove_members (base_url course_id : string) (usernames : list string)
    : list string :=
  ["systemd-run"; "curl";
   "-H"; "Content-Type: application/json";
   "-H"; "Accept: application/json";
   "-H"; "Authorization: token " ++ kore_token;
   "-X"; "DELETE";
   "-d"; "{" ++ String Py.dquote ("users" ++ String Py.dquote (":" ++ Json.dumps usernames ++ "}"));
   "http://127.0.0.1:8081/" ++ base_url ++ "hub/api/groups/nbgrader-" ++ course_id ++ "/users"].

Definition working_directories : list string :=
  ["autograded"; "feedback"; "release"; "submitted"].

Fixpoint for_each {A} (l : list A) (body : A -> M unit) : M unit :=
  match l with
  | [] => mret tt
  | a :: l' => body a ;;; for_each l' body
  end.

(** [handle_clean_up]: the [except] clause names a list, not a tuple
    of classes, so matching any exception against it raises
    [TypeError]. *)
Definition handle_clean_up (path base_url course_id : string) : M unit :=
  try_except
    (usernames <~ remove_students ;;
     run_ true (curl_remove_members base_url course_id usernames) ;;;
     run_ true ["rm"; "-rf"; "/opt/nbgrader_exchange/" ++ course_id ++ "/"] ;;;
     run_ true ["rm"; path ++ "/gradebook.db"] ;;;
     for_each working_directories
              (fun directory => run_ true ["rm"; "-rf"; path ++ "/" ++ directory ++ "/"]))
    (fun _ => Some (mraise TypeError)).

(** A guarded step of a route: [try: run(..., check=True)
    except CalledProcessError: return Response(...)].  [inl] is the
    response the route returns at once. *)
Definition guarded (argvs : list (list string)) : M (response + unit) :=
  try_except
    (for_each argvs (run_ true) ;;; mret (inr tt))
    (fun e => match e with
              | CalledProcessError => Some (mret (inl (mk_response "CalledProcessError" 500)))
              | _ => None
              end).

(** Sequencing of steps that may return from the route. *)
Definition andthen {A} (m : M (response + A)) (k : A -> M response) : M response :=
  r <~ m ;;
  match r with
  | inl resp => mret resp
  | inr a => k a
  end.

Fixpoint guarded_each (l : list (list string)) (k : M response) : M response :=
  match l with
  | [] => k
  | argv :: l' => andthen (guarded [argv]) (fun _ => guarded_each l' k)
  end.

(** [flask_request.json['user']] with its [except KeyError]. *)
Definition request_user (json : dict) : M (response + pyval) :=
  match Py.get json "user" with
  | Some user_name => mret (inr user_name)
  | None => mret (inl (mk_response "KeyError" 500))
  end.

Definition read_lti (lti : lti_file_reader) : M (response + lti_file_reader) :=
  if read_success lti && parse_success lti
  then mret (inr lti)
  else mret (inl (error_response lti)).

(** *** [courses()], method PATCH: reset of the current course *)

Definition courses_PATCH (json : dict) (reader : pyval -> string -> lti_file_reader)
    : M response :=
  andthen (request_user json) (fun user_name =>
  andthen (read_lti (reader user_name ("runtime/lti_" ++ Py.str user_name ++ ".json")))
          (fun lti =>
  usernames <~ remove_students ;;
  base_url <~ lift (get_hub_base_url (lti_state lti)) ;;
  run_ false (curl_remove_members base_url (course_id lti) usernames) ;;;
  andthen (guarded [["rm"; "-rf"; "/opt/nbgrader_exchange/" ++ course_id lti ++ "/"]])
          (fun _ =>
  andthen (guarded [["rm"; "/home/" ++ grader_user lti ++ "/course_data/gradebook.db"]])
          (fun _ =>
  guarded_each
    (map (fun directory =>
            ["rm"; "-rf"; "/home/" ++ grader_user lti ++ "/course_data/" ++ directory ++ "/"])
         working_directories)
    (mret (mk_response "Selected course reset successfully!" 200)))))).

(** *** [courses()], method DELETE: removal of the current course *)

(** [for role in roles:] with the deletions made inside the loop: the
    iterator holds an index into the list being changed.  [pos] is
    where the object bound to [role] stands after the first deletion,
    if it is still in the list. *)
Definition drop_service (role : pyval) (course_id : string) : result pyval :=
  match role with
  | PDict d =>
      svcs <- Py.getitem d "services" ;;
      match svcs with
      | PList l =>
          match Py.list_index l (PStr course_id) with
          | Some j => Ok (PDict (Py.set d "services" (PList (Py.remove_at j l))))
          | None => Raise ValueError
          end
      | PStr s => if Str.occurs course_id s then Raise TypeError else Raise ValueError
      | _ => Raise AttributeError
      end
  | _ => Raise TypeError
  end.

Fixpoint roles_loop (fuel i : nat) (course_id : string) (roles : list pyval)
    : result (list pyval) :=
  match fuel with
  | 0 => Ok roles
  | S fuel' =>
      match nth_error roles i with
      | None => Ok roles
      | Some role =>
          name <- Py.vget role "name" ;;
          let '(roles1, pos) :=
            if Py.eqb name (PStr ("formgrader-" ++ course_id ++ "-role"))
            then match Py.list_index roles role with
                 | Some j => (Py.remove_at j roles,
                              if Nat.eqb j i then None else Some (i - 1))
                 | None => (roles, Some i)
                 end
            else (roles, Some i) in
          roles2 <-
            (if Py.eqb name (PStr "formgrader-service-role")
             then role' <- drop_service role course_id ;;
                  Ok (match pos with
                      | Some k => Py.replace_at k role' roles1
                      | None => roles1
                      end)
             else Ok roles1) ;;
          roles_loop fuel' (S i) course_id roles2
      end
  end.

(** [service['name']] *)
Definition service_name (service : pyval) : result pyval :=
  match service with
  | PDict d => Py.getitem d "name"
  | _ => Raise TypeError
  end.

Fixpoint services_loop (services rest : list pyval) (course_id : string)
    : result (list pyval) :=
  match rest with
  | [] => Ok services
  | service :: rest' =>
      name <- service_name service ;;
      if Py.eqb name (PStr course_id)
      then Ok (match Py.list_index services service with
               | Some j => Py.remove_at j services
               | None => services
               end)
      else services_loop services rest' course_id
  end.

(** [s.find(sub, start)] for [start >= 0], as an offset into [s]. *)
Fixpoint find_from (s sub : string) (start : nat) : option nat :=
  match start with
  | 0 => (fix go (s : string) (i : nat) : option nat :=
            if String.prefix sub s then Some i
            else match s with
                 | "" => None
                 | String _ s' => go s' (S i)
                 end) s 0
  | S start' =>
      match s with
      | "" => None
      | String _ s' =>
          match find_from s' sub start' with
          | Some i => Some (S i)
          | None => None
          end
      end
  end.

(** The rewrite of the title mapping in nbgrader_config.py, for a file
    in which the mapping and its closing brace are found; any other
    text is outside this model ([ExecError]). *)
Definition patch_titles (course_id : string) : M unit :=
  fun w =>
    let content := titles_file w in
    match find_from content "c.NbGrader.course_titles" 0 with
    | None => (Raise ExecError, w)
    | Some start =>
        match find_from content "}" start with
        | None => (Raise ExecError, w)
        | Some end_ =>
            let pre := Str.take start content in
            let code := Str.take (end_ + 1 - start) (Str.drop start content) in
            let post := Str.drop (end_ + 1) content in
            let code := Str.replace code "c.NbGrader.course_titles = " "mapping.update(" in
            let code := Str.replace code "}" "})" in
            match Exec.call_arg "mapping.update(" (code ++ Str.nl) with
            | Some (PDict d, "") =>
                let mapping := Py.update [] d in
                let mapping :=
                  match Py.get mapping course_id with
                  | Some _ => Py.del mapping course_id
                  | None => mapping
                  end in
                (Ok tt,
                 set_titles_file
                   (pre ++ "c.NbGrader.course_titles = " ++ Py.str (PDict mapping) ++ post) w)
            | _ => (Raise ExecError, w)
            end
        end
    end.

Definition courses_DELETE (json : dict) (reader : pyval -> string -> lti_file_reader)
    : M response :=
  andthen (request_user json) (fun user_name =>
  andthen (read_lti (reader user_name ("runtime/lti_" ++ Py.str user_name ++ ".json")))
          (fun lti =>
  let course_id := course_id lti in
  let grader_user := grader_user lti in
  andthen
    (try_except
       (r <~ read_autogenerated_config autogenerated_file_path ;; mret (inr r))
       (fun e => match e with
                 | AutogeneratedFileError =>
                     Some (mret (inl (mk_response "AutogeneratedFileError" 500)))
                 | _ => None
                 end))
    (fun reg =>
  let group := match Py.get (groups reg) ("formgrade-" ++ course_id) with
               | Some g => g
               | None => PNone
               end in
  if negb (Py.truthy group)
  then mret (mk_response "GroupNotFoundError" 500)
  else
    let groups := Py.del (groups reg) ("formgrade-" ++ course_id) in
    roles <~ lift (roles_loop (S (List.length (roles reg))) 0 course_id (roles reg)) ;;
    services <~ lift (services_loop (services reg) (services reg) course_id) ;;
    andthen
      (try_except
         (write_autogenerated_config autogenerated_file_path services roles groups ;;;
          mret (inr tt))
         (fun e => match e with
                   | AutogeneratedFileError =>
                       Some (mret (inl (mk_response "AutogeneratedFileError" 500)))
                   | _ => None
                   end))
      (fun _ =>
    andthen (guarded [["rm"; "-rf"; "/opt/nbgrader_exchange/" ++ course_id ++ "/"]])
            (fun _ =>
    andthen (guarded [["userdel"; grader_user];
                      ["rm"; "-rf"; "/home/" ++ grader_user ++ "/"]])
            (fun _ =>
    patch_titles course_id ;;;
    run_ false ["systemd-run"; "--on-active=3"; "systemctl"; "restart"; "jupyterhub"] ;;;
    mret (mk_response "Selected course deleted successfully! JupyterHub will restart soon!"
                      200))))))).

End Routes.
(* ===================================================================== *)
(** ** The values the registry round trip is stated for *)

Module Grammar.

Fixpoint nodupb (l : list string) : bool :=
  match l with
  | [] => true
  | x :: l' => negb (existsb (String.eqb x) l') && nodupb l'
  end.

(** A value as Python can hold it: the keys of a dictionary are
    distinct. *)
Fixpoint wf (v : pyval) : bool :=
  match v with
  | PList l => forallb wf l
  | PDict d => nodupb (map fst d) && forallb (fun kv => wf (snd kv)) d
  | _ => true
  end.

(** A service or role as [str] writes it back as a literal: any value
    but a bare string, which [str] writes without quotes. *)
Definition literal (v : pyval) : bool :=
  match v with
  | PStr _ => false
  | _ => wf v
  end.

(** The four texts [read_autogenerated_config] rewrites. *)
Definition pat (k : nat) : string :=
  match k with
  | 0 => "c = get_config()"
  | 1 => "c.JupyterHub.services"
  | 2 => "c.JupyterHub.load_roles"
  | _ => "c.JupyterHub.load_groups"
  end.

Definition repl (k : nat) : string :=
  match k with
  | 0 => ""
  | 1 => "services"
  | 2 => "roles"
  | _ => "groups"
  end.

(** None of the four texts occurs in [s]. *)
Definition untouched (s : string) : bool :=
  forallb (fun k => negb (Str.occurs (pat k) s)) [0; 1; 2; 3].

(** The triples of the registry's grammar: services and roles that are
    literals, and a group mapping with distinct keys. *)
Definition in_grammar (services roles : list pyval) (groups : dict) : bool :=
  forallb literal services && forallb literal roles && wf (PDict groups).

(** The triples of the round trip: those of the grammar in whose
    written text none of the four rewritten texts occurs. *)
Definition expressible (services roles : list pyval) (groups : dict) : bool :=
  in_grammar services roles groups
  && forallb (fun v => untouched (Py.str v)) services
  && forallb (fun v => untouched (Py.str v)) roles
  && untouched (Py.str (PDict groups)).

(** Fuel that [Exec.parse_value] needs for the text of a value. *)
Fixpoint size (v : pyval) : nat :=
  match v with
  | PList l => S (fold_right (fun x n => S (size x + n)) 0 l)
  | PDict d => S (fold_right (fun kv n => S (S (size (snd kv) + n))) 0 d)
  | _ => 1
  end.

(** The registry text cut into pieces: fixed text, one of the four
    rewritten texts, and the text of a value. *)
Inductive seg : Type :=
| Lit (s : string)
| Pat (k : nat)
| Data (d : string).

(** The text before the rewrite number [n]: the rewrites below [n]
    have been made. *)
Definition render_seg (n : nat) (x : seg) : string :=
  match x with
  | Lit s => s
  | Pat k => if Nat.ltb k n then repl k else pat k
  | Data d => d
  end.

Fixpoint render (n : nat) (l : list seg) : string :=
  match l with
  | [] => ""
  | x :: l' => render_seg n x ++ render n l'
  end.

Definition line (k : nat) (v : pyval) : list seg :=
  [Pat k; Lit ".append("; Data (Py.str v); Lit (")" ++ Str.nl)].

Definition template (services roles : list pyval) (groups : dict) : list seg :=
  ([Lit (header_line ++ Str.nl ++ Str.nl); Pat 0; Lit (Str.nl ++ Str.nl ++ "# Services" ++ Str.nl)]
   ++ flat_map (line 1) services
   ++ [Lit (Str.nl ++ "# Roles" ++ Str.nl)]
   ++ flat_map (line 2) roles
   ++ [Lit (Str.nl ++ "# Groups" ++ Str.nl); Pat 3; Lit ".update(";
       Data (Py.str (PDict groups)); Lit (")" ++ Str.nl)])%list.

(** Two texts differ at a position both have. *)
Fixpoint clash (p t : string) : bool :=
  match p, t with
  | String x p', String y t' => if Ascii.eqb x y then clash p' t' else true
  | _, _ => false
  end.

(** No occurrence of [p] can start inside [s], whatever follows [s]. *)
Fixpoint all_clash (p s : string) : bool :=
  match s with
  | "" => true
  | String _ s' => clash p s && all_clash p s'
  end.

Fixpoint last_char (s : string) : option ascii :=
  match s with
  | "" => None
  | String c s' => match s' with "" => Some c | _ => last_char s' end
  end.

(** Wherever a closing parenthesis stands in [p] after the first
    character, an opening one stands before it. *)
Fixpoint cuts (prev : ascii) (p : string) : bool :=
  match p with
  | "" => true
  | String c p' =>
      (if Ascii.eqb c ")" then Ascii.eqb prev "(" else true) && cuts c p'
  end.

(** What the rewrite number [k] needs of the pieces: no occurrence
    starts inside fixed text, the text of a value does not hold the
    rewritten text, does not end with an opening parenthesis and is
    followed by a closing one. *)
Fixpoint segs_ok (k : nat) (l : list seg) : Prop :=
  match l with
  | [] => True
  | Lit s :: l' => all_clash (pat k) s = true /\ segs_ok k l'
  | Pat i :: l' =>
      (i = k \/ all_clash (pat k) (render_seg k (Pat i)) = true) /\ segs_ok k l'
  | Data d :: l' =>
      Str.occurs (pat k) d = false
      /\ last_char d <> Some "("%char
      /\ (exists b, render k l' = String ")" b)
      /\ segs_ok k l'
  end.

(** The first character of a value: not a blank and not a closing
    bracket. *)
Definition starts_value (s : string) : bool :=
  match s with
  | "" => false
  | String c _ =>
      negb (Ascii.eqb c " ") && negb (Ascii.eqb c "]") && negb (Ascii.eqb c "}")
  end.

(** The text behind a number does not go on with a digit. *)
Definition no_digit_head (s : string) : bool :=
  match s with
  | "" => true
  | String c _ => negb (Exec.is_digit c)
  end.

Definition items_size (l : list pyval) : nat :=
  fold_right (fun x n => S (size x + n)) 0 l.

Definition pairs_size (d : dict) : nat :=
  fold_right (fun kv n => S (S (size (snd kv) + n))) 0 d.

(** [v] is read back from the text [repr] writes for it. *)
Definition reads_back (v : pyval) : Prop :=
  wf v = true ->
  forall fuel rest, size v <= fuel -> no_digit_head rest = true ->
  Exec.parse_value fuel (Py.repr v ++ rest) = Some (v, rest).

(** The rewritten text, line by line. *)
Definition clean_code (services roles : list pyval) (groups : dict) : string :=
  String "#" (" Autogenerated nbgrader course configuration (DO NOT MODIFY)" ++ Str.nl ++
  Str.nl ++ Str.nl ++ Str.nl ++
  String "#" (" Services" ++ Str.nl ++
  append_lines "services" services ++
  Str.nl ++
  String "#" (" Roles" ++ Str.nl ++
  append_lines "roles" roles ++
  Str.nl ++
  String "#" (" Groups" ++ Str.nl ++
  "groups.update(" ++ Py.repr (PDict groups) ++ String ")" (Str.nl ++ ""))))).

End Grammar.
(* ===================================================================== *)
(** ** Worlds, trees and registries on which the code is run below *)

(** A registry as the service writes it: one course with its service,
    its two roles and its two groups. *)
Definition services_c1 : list pyval :=
  [PDict [("name", PStr "c-1");
          ("url", PStr "http://127.0.0.1:9001");
          ("command", PList [PStr "jupyterhub-singleuser"; PStr "--group=formgrade-c-1"]);
          ("user", PStr "c-1");
          ("api_token", PStr "0a1b2c");
          ("oauth_no_confirm", PBool true);
          ("port", PInt 9001)]].

Definition roles_c1 : list pyval :=
  [PDict [("name", PStr "formgrader-c-1-role");
          ("groups", PList [PStr "formgrade-c-1"]);
          ("scopes", PList [PStr "access:services!service=c-1"])];
   PDict [("name", PStr "formgrader-service-role");
          ("scopes", PList [PStr "read:users:groups"; PStr "list:services"]);
          ("services", PList [PStr "c-1"])]].

Definition groups_c1 : dict :=
  [("formgrade-c-1", PList [PStr "alice"; PStr "it's bob"]);
   ("nbgrader-c-1", PList [])].

(** A world without a registry file, in which it may be created and
    every subprocess succeeds. *)
Definition world_fresh : world :=
  mk_world None true (fun _ => true) [] (Some []) "".

Definition launch_c1 : lti_file_reader :=
  mk_lti_file_reader true true
    [(claim_target_link_uri, PStr "https://hub.example.org/jhub/hub/lti13/launch")]
    "c-1" "Course 1" "c-1" (mk_response "LTIFileError" 500).

Definition request_alice : dict := [("user", PStr "alice")].

Definition is_curl (argv : list string) : bool := String.eqb (nth 1 argv "") "curl".

(** Two students are enrolled; every subprocess succeeds except the
    membership call. *)
Definition world_curl_fails : world :=
  mk_world (Some (mk_file "" true true)) true (fun argv => negb (is_curl argv)) []
           (Some ["s1"; "s2"]) "".

Definition curl_c1 : list string :=
  curl_remove_members "secret" "jhub/hub/lti13/launch/" "c-1" ["s1"; "s2"].

(** A home directory of a grader account with a hidden assignment
    directory and a hidden notebook, and a hidden backup of [alice]. *)
Definition tree_hidden : node :=
  Dir [("home",
        Dir [("c-1",
              Dir [("course_data",
                    Dir [("source",
                          Dir [(".hidden", Dir [("x.ipynb", File)]);
                               ("a1", Dir [("p.ipynb", File); (".q.ipynb", File)])])])])]);
       ("var",
        Dir [("lib",
              Dir [("private",
                    Dir [("alice",
                          Dir [(".old",
                                Dir [("source", Dir [("a1", Dir [("p.ipynb", File)])])])])])])])].

Definition fs_hidden : fs :=
  mk_fs tree_hidden (fun name => name) (fun _ => None) (fun _ => None).

Definition groups_alice : dict := [("formgrade-c-1", PList [PStr "alice"])].

(** [p] has a component that starts with a dot. *)
Definition hidden (p : string) : bool := Path.has_hidden_component (Path.of_string p).

Definition fs_titles : fs :=
  mk_fs (Dir []) (fun name => name) (fun _ => None)
        (fun path =>
           if String.eqb path "/home/c-1/course_data/info.json" then Some [("title_short", "Foo")]
           else if String.eqb path "/home/c-2/course_data/info.json" then Some [("title_short", "Foo")]
           else if String.eqb path "/home/c-3/course_data/info.json" then Some [("title_short", "Bar_1")]
           else None).

(** A world in which the registry file exists, cannot be read, and
    every subprocess fails. *)
Definition world_unreadable : world :=
  mk_world (Some (mk_file "# old" false true)) true (fun _ => false) [] (Some []) "".

(** A world in which the registry file can be written and every
    subprocess fails. *)
Definition world_chmod_fails : world :=
  mk_world (Some (mk_file "# old" true true)) true (fun _ => false) [] (Some []) "".

(** A world in which the registry file exists and cannot be written. *)
Definition world_readonly : world :=
  mk_world (Some (mk_file "# old" true false)) true (fun _ => true) [] (Some []) "".

Definition reg_path : string := "/opt/kore/autogenerated.py".

(* ===================================================================== *)
(** ** The listing [get_list] and the routes that call it

    [get_list] reads the user from the query string, the groups from the
    registry, the active paths from the path resolver and the names from
    the name deduplicator. *)

(** A response of [get_list]: a failure response, or the status 200
    response with the message, the names and the paths.  [get_list]
    returns [None] when it reaches its end without a [return]. *)
Inductive listing : Type :=
| Failure (r : response)
| Listing (message : string) (names paths : list string).

(** [flask_request.args.get('user')] is a string or [None]; in an
    f-string [None] is written [None], in a membership test it is the
    value [None]. *)
Definition user_value (user : option string) : pyval :=
  match user with
  | Some u => PStr u
  | None => PNone
  end.

Definition user_text (user : option string) : string := Py.str (user_value user).

(** The comprehension of [get_active_paths] for a user that may be
    [None]. *)
Fixpoint owned_groups_of (user : pyval) (groups : dict) : result (list string) :=
  match groups with
  | [] => Ok []
  | (group, members) :: groups' =>
      b <- Py.contains members user ;;
      rest <- owned_groups_of user groups' ;;
      Ok (if b then Str.lstrip group "formgrade-" :: rest else rest)
  end.

Section Listing.

Variable shake_256_hexdigest8 : string -> string.

(** Whether the class [InfoFileError] of the module [exceptions] derives
    from [OSError]. *)
Variable InfoFileError_is_OSError : bool.

(** [get_active_paths] called with the user of the request. *)
Definition get_active_paths_of (f : fs) (user : option string) (groups : dict)
    (content : Content) (subset : Subset) : result (option (list string)) :=
  if Subset_eqb subset ALL || Subset_eqb subset ACTIVE then
    owned <- owned_groups_of (user_value user) groups ;;
    bases <- base_paths f owned ;;
    let active_paths :=
      flat_map (fun base_path =>
                  map Path.to_string
                      (filter (keep_active f content) (candidates f content base_path)))
               bases in
    Ok (Some (Str.sorted active_paths))
  else get_active_paths shake_256_hexdigest8 f (user_text user) groups content subset.

(** [except (FileNotFoundError, PermissionError, CalledProcessError,
    OSError)] around [generate_unique_names]. *)
Definition names_or_failure (r : result (list string)) : result (listing + list string) :=
  match r with
  | Ok names => Ok (inr names)
  | Raise e =>
      let caught :=
        match e with
        | FileNotFoundError | PermissionError | CalledProcessError => true
        | InfoFileError => InfoFileError_is_OSError
        | _ => false
        end in
      if caught then Ok (inl (Failure (mk_response "UniqueNamesError" 500)))
      else Raise e
  end.

(** [not active_paths] *)
Definition no_paths (active_paths : option (list string)) : bool :=
  match active_paths with
  | Some (_ :: _) => false
  | _ => true
  end.

Definition paths_of (active_paths : option (list string)) : list string :=
  match active_paths with
  | Some l => l
  | None => []
  end.

Definition get_list (f : fs) (autogenerated_file_path : string) (user_name : option string)
    (content : Content) (subset : Subset) : M (option listing) :=
  r <~ try_except
         (reg <~ read_autogenerated_config autogenerated_file_path ;; mret (inr (groups reg)))
         (fun e => match e with
                   | AutogeneratedFileError =>
                       Some (mret (inl (Failure (mk_response "AutogeneratedFileError" 500))))
                   | _ => None
                   end) ;;
  match r with
  | inl failure => mret (Some failure)
  | inr groups =>
      active_paths <~ lift (get_active_paths_of f user_name groups content subset) ;;
      if no_paths active_paths
      then mret (Some (Failure (mk_response "NoActiveCoursesFoundError" 500)))
      else
        let active_paths := paths_of active_paths in
        active_or_current <~
          lift (if Subset_eqb subset ACTIVE then Ok true
                else CURRENT <- Subset_member "CURRENT" ;; Ok (Subset_eqb subset CURRENT)) ;;
        if active_or_current : bool then
          r <~ lift (names_or_failure (generate_unique_names f content active_paths None)) ;;
          match r with
          | inl failure => mret (Some failure)
          | inr unique_names =>
              mret (Some (Listing ("List of " ++ Content_value content
                                   ++ " successfully retrieved.")
                                  unique_names active_paths))
          end
        else if Subset_eqb subset ALL then
          let backed_up_paths := get_backed_up_paths f (user_text user_name) content in
          r <~ lift (names_or_failure
                       (generate_unique_names f content active_paths (Some backed_up_paths))) ;;
          match r with
          | inl failure => mret (Some failure)
          | inr unique_names =>
              mret (Some (Listing ("List of " ++ Content_value content
                                   ++ " successfully retrieved.")
                                  unique_names (active_paths ++ backed_up_paths)%list))
          end
        else mret None
  end.

(** [assignments()], method GET *)
Definition assignments_GET (f : fs) (autogenerated_file_path : string)
    (user_name : option string) : M (option listing) :=
  try_except
    (get_list f autogenerated_file_path user_name ASSIGNMENTS ALL)
    (fun e => match e with
              | ValueError => Some (mret (Some (Failure (mk_response "ValueError" 500))))
              | _ => None
              end).

End Listing.

(* ===================================================================== *)
(** ** [courses()], method PUT: backup of a course *)

Section Backup.

Variable autogenerated_file_path : string.

(** [time.strftime(date_time_format)] at the time of the request. *)
Variable actual_date_time : string.

(** [json[key].removesuffix('/')] *)
Definition removesuffix_slash (v : pyval) : result string :=
  match v with
  | PStr s => Ok (Str.removesuffix s "/")
  | _ => Raise AttributeError
  end.

Definition backup_dst (user_name name : pyval) : string :=
  "/var/lib/private/" ++ Py.str user_name ++ "/" ++ Py.str name ++ "_" ++ actual_date_time ++ "/".

Definition courses_PUT (json : dict) : M response :=
  match Py.get json "user", Py.get json "path" with
  | Some user_name, Some path =>
      src <~ lift (removesuffix_slash path) ;;
      match Py.get json "name" with
      | Some name =>
          let dst := backup_dst user_name name in
          andthen
            (guarded autogenerated_file_path
               [["cp"; "-r"; src; dst];
                ["chown"; "-R"; Py.str user_name ++ ":" ++ Py.str user_name; dst]])
            (fun _ => mret (mk_response "Selected course backed up successfully!" 200))
      | None => mret (mk_response "KeyError" 500)
      end
  | _, _ => mret (mk_response "KeyError" 500)
  end.

End Backup.

(* ===================================================================== *)
(** ** [assignments()], method POST: copy of an assignment *)

Section Copy.

Variable autogenerated_file_path : string.

(** [time.strftime(date_time_format)] at the time of the request. *)
Variable actual_date_time : string.

(** The paths [Path.of_string] stands for: one leading slash. *)
Definition absolute (s : string) : bool :=
  String.prefix "/" s && negb (String.prefix "//" s).

(** [p.parents[1]] *)
Definition parents_1 (p : Path.t) : result Path.t :=
  match List.rev p with
  | _ :: _ :: q => Ok (List.rev q)
  | _ => Raise IndexError
  end.

Definition copy_commands (src dst grader_user : string) : list (list string) :=
  let tmp := src ++ "_" ++ actual_date_time in
  [["cp"; "-r"; src; tmp];
   ["mkdir"; "-p"; dst];
   ["mv"; tmp; dst];
   ["chown"; "-R"; grader_user ++ ":" ++ grader_user; dst]].

(** The route for a request whose [fromPath], without its trailing
    slash, is an absolute path or is not a string; [None] for the
    relative paths, which [Path.t] does not cover. *)
Definition assignments_POST (f : fs) (json : dict) : option (M response) :=
  match Py.get json "fromPath" with
  | None => Some (mret (mk_response "KeyError" 500))
  | Some (PStr from_path) =>
      let src := Str.removesuffix from_path "/" in
      match Py.get json "toPath" with
      | None => Some (mret (mk_response "KeyError" 500))
      | Some (PStr to_path) =>
          let dst := Str.removesuffix to_path "/" ++ "/source/" in
          if absolute src then
            Some (parent <~ lift (parents_1 (Path.of_string src)) ;;
                  info <~ lift (load_info f (Path.to_string parent ++ "/info.json")) ;;
                  grader_user <~ lift (match assoc info "grader_user" with
                                       | Some g => Ok g
                                       | None => Raise KeyError
                                       end) ;;
                  andthen
                    (guarded autogenerated_file_path (copy_commands src dst grader_user))
                    (fun _ =>
                       mret (mk_response
                               ("Selected assignment copied successfully! " ++ Str.nl
                                ++ "Please refresh the webpage (Formgrader) to see the imported assignment.")
                               200)))
          else None
      | Some _ => Some (mraise AttributeError)
      end
  | Some _ => Some (mraise AttributeError)
  end.

End Copy.

(** The paths [generate_unique_names] takes the backup names from. *)
Definition backups (backed_up_paths : option (list string)) : list string :=
  match backed_up_paths with
  | Some l => l
  | None => []
  end.
(* ===================================================================== *)
(** ** Further launch snapshots, worlds and requests *)

Definition launch_two_titles : dict :=
  [(claim_deployment_id, PStr "d1");
   (claim_resource_link, PDict [("id", PStr "r1"); ("title", PStr "Tom's A1")]);
   (claim_context, PDict [("title", PStr "C")])].

Definition digest_zero (text : string) : string := "0000000000000000".


(** A world without a registry file in which it can be made, and in
    which every subprocess fails. *)
Definition world_fresh_chmod_fails : world :=
  mk_world None true (fun _ => false) [] (Some []) "".

(** The world in which the registry file holds the group of [alice]. *)
Definition world_alice : world :=
  set_reg_file (Some (mk_file (config_code [] [] groups_alice) true true)) world_fresh.

(** The tree of [fs_hidden] with the course titles of [fs_titles]. *)
Definition fs_course : fs :=
  mk_fs tree_hidden (fun name => name) (fun _ => None) (info_json fs_titles).

(** The request of [alice] for a backup of the course [c-1]. *)
Definition backup_request : dict :=
  [("user", PStr "alice"); ("path", PStr "/home/c-1/course_data/"); ("name", PStr "Course 1")].

(** A world in which every subprocess fails. *)
Definition world_failing : world :=
  mk_world (Some (mk_file "" true true)) true (fun _ => false) [] (Some ["s1"; "s2"]) "".

(** Two services that carry the same name. *)
Definition services_twice : list pyval :=
  [PDict [("name", PStr "c-1"); ("port", PInt 9001)];
   PDict [("name", PStr "c-2"); ("port", PInt 9002)];
   PDict [("name", PStr "c-1"); ("port", PInt 9003)]].

(** A launch snapshot that could be read but not parsed. *)
Definition launch_unparsed : lti_file_reader :=
  mk_lti_file_reader true false [] "" "" "" (mk_response "LTIFileError" 500).

(** A world whose registry holds the course [c-1] with an empty
    group. *)
Definition world_empty_group : world :=
  mk_world (Some (mk_file (config_code services_c1 roles_c1 [("formgrade-c-1", PList [])])
                          true true))
           true (fun _ => true) [] (Some []) "".


(** The request for a copy of the assignment [a1] of the course [c-9]
    into the course [c-1]. *)
Definition copy_request : dict :=
  [("fromPath", PStr "/home/c-9/course_data/source/a1/");
   ("toPath", PStr "/home/c-1/course_data/")].

(** The courses of [fs_titles] with their grader accounts. *)
Definition fs_graders : fs :=
  mk_fs (Dir []) (fun name => name) (fun _ => None)
        (fun path =>
           if String.eqb path "/home/c-9/course_data/info.json"
           then Some [("title_short", "Nine"); ("grader_user", "c-9")]
           else None).

(** A world in which every subprocess succeeds except [mv]. *)
Definition world_mv_fails : world :=
  mk_world None true (fun argv => negb (String.eqb (hd "" argv) "mv")) [] (Some []) "".
(* ===================================================================== *)
(** * Properties *)

(** ** String methods on small inputs *)

Example lstrip_course : Str.lstrip "formgrade-c-0123abcd" "formgrade-" = "c-0123abcd".
Proof. reflexivity. Qed.

Example replace_ex : Str.replace "a_b__c" "_" " " = "a b  c".
Proof. reflexivity. Qed.

Example split_ex : Str.split "/home/u/x" "/" = [""; "home"; "u"; "x"].
Proof. reflexivity. Qed.

Example removesuffix_ex : Str.removesuffix "/home/u/" "/" = "/home/u".
Proof. reflexivity. Qed.

Example repr_ex :
  Py.repr (PDict [("name", PStr "c-1"); ("n", PInt (-12)); ("l", PList [PBool true; PNone; PStr "it's"])])
  = "{'name': 'c-1', 'n': -12, 'l': [True, None, " ++ String Py.dquote ("it's" ++ String Py.dquote "]}").
Proof. reflexivity. Qed.

Example exec_ex :
  Exec.exec_config ("# x" ++ Str.nl ++ Str.nl ++ "services.append({'a': [1, 'b\n\x41']})" ++ Str.nl
                    ++ "groups.update({'g': ['u'], 'h': []})" ++ Str.nl)
  = Some (mk_registry [PDict [("a", PList [PInt 1; PStr ("b" ++ Str.nl ++ "A")])]] []
                      [("g", PList [PStr "u"]); ("h", PList [])]).
Proof. reflexivity. Qed.

(* ===================================================================== *)
(** ** Registry store: permissions *)

#[local] Arguments Exec.exec_config : simpl never.
#[local] Arguments rewrite_config : simpl never.
#[local] Arguments config_code : simpl never.

Lemma open_write_denied (text : string) (w : world) :
  can_write w = false -> open_write text w = (Raise PermissionError, w).
Proof. unfold open_write. intros ->. reflexivity. Qed.

Lemma open_write_content (text : string) (w : world) :
  can_write w = true ->
  exists f, open_write text w = (Ok tt, set_reg_file (Some f) w) /\ content f = text.
Proof.
  unfold open_write. intros ->.
  destruct (reg_file w) as [f|]; eexists; split; reflexivity.
Qed.

(** C10: when opening the registry file for writing raises a permission
    error, [write_autogenerated_config] returns normally and leaves the
    world, and so the file with its previous content, as it was: no text
    is written and no subprocess is run. *)
Theorem write_swallows_permission_error
    (path : string) (services roles : list pyval) (groups : dict) (w : world) :
  can_write w = false ->
  write_autogenerated_config path services roles groups w = (Ok tt, w).
Proof.
  intros H. unfold write_autogenerated_config, try_except, mbind.
  rewrite (open_write_denied _ w H). reflexivity.
Qed.

Lemma write_swallows_permission_error_witness :
  can_write world_readonly = false /\
  write_autogenerated_config reg_path [] [] [("formgrade-c-1", PList [PStr "alice"])]
                             world_readonly
  = (Ok tt, world_readonly).
Proof.
  split; [reflexivity | apply write_swallows_permission_error; reflexivity].
Defined.

(** C6, as stated, fails: with the file written and [chmod 600]
    failing, the save does not return normally. *)
Lemma write_chmod_failure_is_raised :
  ~ (forall path services roles groups w,
        can_write w = true ->
        run_ok w (chmod_600 path) = false ->
        fst (write_autogenerated_config path services roles groups w) = Ok tt).
Proof.
  intros H.
  specialize (H reg_path [] [] [] world_chmod_fails eq_refl eq_refl).
  vm_compute in H. discriminate H.
Qed.

(** C6, amended: when the file is written and [chmod 600] then fails,
    [write_autogenerated_config] raises [AutogeneratedFileError]; the
    registry file holds the text composed for the three collections. *)
Theorem write_chmod_failure
    (path : string) (services roles : list pyval) (groups : dict) (w : world) :
  can_write w = true ->
  run_ok w (chmod_600 path) = false ->
  fst (write_autogenerated_config path services roles groups w) = Raise AutogeneratedFileError
  /\ option_map content (reg_file (snd (write_autogenerated_config path services roles groups w)))
     = Some (config_code services roles groups).
Proof.
  intros Hw Hc.
  destruct (open_write_content (config_code services roles groups) w Hw) as (f & Ho & Hf).
  unfold write_autogenerated_config, try_except, mbind. rewrite Ho.
  unfold run. cbn [run_ok set_reg_file set_trace]. rewrite Hc. cbn.
  rewrite Hf. split; reflexivity.
Qed.

Lemma write_chmod_failure_witness :
  can_write world_chmod_fails = true /\
  run_ok world_chmod_fails (chmod_600 reg_path) = false /\
  fst (write_autogenerated_config reg_path [] [] [] world_chmod_fails)
  = Raise AutogeneratedFileError.
Proof.
  split; [reflexivity | split; [reflexivity |]].
  apply (write_chmod_failure reg_path [] [] [] world_chmod_fails); reflexivity.
Defined.

Lemma effect_chmod (path : string) (f : file) :
  effect_on_registry path (chmod_600 path) (Some f) = Some (mk_file (content f) true true).
Proof.
  unfold effect_on_registry.
  destruct (list_eq_dec string_dec (chmod_600 path) (chmod_600 path)) as [_|n];
    [reflexivity | exfalso; apply n; reflexivity].
Qed.

(** The repair itself: an unreadable registry file is made readable by
    a successful [chmod 600] and is then read, once. *)
Lemma read_repairs_permissions (path : string) (w : world) (f : file) :
  reg_file w = Some f -> readable f = false ->
  run_ok w (chmod_600 path) = true ->
  read_autogenerated_config path w
  = (match Exec.exec_config (rewrite_config (content f)) with
     | Some r => Ok r
     | None => Raise ExecError
     end,
     set_reg_file (Some (mk_file (content f) true true))
                  (set_trace (trace w ++ [chmod_600 path])%list w)).
Proof.
  intros Hf Hr Hc.
  unfold read_autogenerated_config, mbind, try_except.
  unfold open_read at 1. rewrite Hf, Hr.
  unfold run. rewrite Hc.
  unfold open_read. cbn [reg_file set_reg_file set_trace]. rewrite Hf, effect_chmod.
  cbn [readable content].
  destruct (Exec.exec_config (rewrite_config (content f))); reflexivity.
Qed.

(** C7: the registry file exists and is unreadable, and [chmod 600]
    fails.  The exception raised inside the [except PermissionError]
    clause is not seen by the [except CalledProcessError] clause of the
    same statement: the load ends with [CalledProcessError], not with
    [AutogeneratedFileError]. *)
Theorem read_chmod_failure_escapes :
  fst (read_autogenerated_config reg_path world_unreadable) = Raise CalledProcessError
  /\ trace (snd (read_autogenerated_config reg_path world_unreadable)) = [chmod_600 reg_path].
Proof. split; reflexivity. Qed.

(* ===================================================================== *)
(** ** Path resolver *)

(** On the group names the service itself creates, [formgrade-] followed
    by a course id that starts with [c], stripping by character set
    removes the prefix and nothing more. *)
Lemma lstrip_course_group (rest : string) :
  Str.lstrip ("formgrade-c" ++ rest) "formgrade-" = "c" ++ rest.
Proof. reflexivity. Qed.

(** C8: [lstrip('formgrade-')] removes every leading character that
    occurs in the prefix, not the prefix: for the group [formgrade-admin]
    of which [alice] is a member the owned group is [in], while removing
    the literal prefix leaves [admin]. *)
Theorem owned_groups_strips_characters :
  owned_groups "alice" [("formgrade-admin", PList [PStr "alice"])] = Ok ["in"]
  /\ Str.removeprefix "formgrade-admin" "formgrade-" = "admin".
Proof. split; reflexivity. Qed.

(** C2: hidden paths are returned.  Among the active assignments there
    is the hidden directory (a directory passes the filter before the
    test on hidden parents is reached), among the active problems the
    hidden notebook (only the parents are tested, not the name), and
    among the backed-up assignments the one below a hidden backup (only
    the name is tested, not the parents). *)
Theorem hidden_paths_are_returned (shake : string -> string) :
  get_active_paths shake fs_hidden "alice" groups_alice ASSIGNMENTS ACTIVE
  = Ok (Some ["/home/c-1/course_data/source/.hidden"; "/home/c-1/course_data/source/a1"])
  /\ hidden "/home/c-1/course_data/source/.hidden" = true
  /\ get_active_paths shake fs_hidden "alice" groups_alice PROBLEMS ALL
     = Ok (Some ["/home/c-1/course_data/source/a1/.q.ipynb";
                 "/home/c-1/course_data/source/a1/p.ipynb"])
  /\ hidden "/home/c-1/course_data/source/a1/.q.ipynb" = true
  /\ get_backed_up_paths fs_hidden "alice" ASSIGNMENTS
     = ["/var/lib/private/alice/.old/source/a1"]
  /\ hidden "/var/lib/private/alice/.old/source/a1" = true.
Proof. repeat split; reflexivity. Qed.

(** C9: [Subset] has the members [ALL], [ACTIVE] and [OTHER].  The
    branch for the current course is reached only with [OTHER], and for
    courses it then looks up [Subset.CURRENT], which raises
    [AttributeError]: no snapshot is read and no path is returned. *)
Theorem current_course_branch_raises
    (shake : string -> string) (f : fs) (user_name : string) (groups : dict) :
  get_active_paths shake f user_name groups COURSES OTHER = Raise AttributeError.
Proof. reflexivity. Qed.

Lemma no_current_member (s : Subset) : Subset_member "CURRENT" <> Ok s.
Proof. discriminate. Qed.

(* ===================================================================== *)
(** ** Name deduplicator *)

Example labels_of_three_courses :
  mapM (active_name fs_titles COURSES)
       ["/home/c-1/course_data"; "/home/c-2/course_data"; "/home/c-3/course_data"]
  = Ok ["Foo"; "Foo"; "Bar_1"].
Proof. reflexivity. Qed.

Example names_without_repetition :
  generate_unique_names fs_titles COURSES
    ["/home/c-1/course_data"; "/home/c-3/course_data"]
    (Some ["/var/lib/private/alice/c_2024"])
  = Ok ["Foo"; "Bar 1"; "c 2024 (Backup)"].
Proof. reflexivity. Qed.

(** Without a repeated label the names are the labels, in their order,
    with spaces for underscores. *)

Lemma in_insert_sorted (x y : string) (l : list string) :
  In y (Str.insert_sorted x l) -> y = x \/ In y l.
Proof.
  induction l as [|z l IH]; simpl.
  - intros [H | []]; auto.
  - destruct (String.leb x z); simpl; intros [H | H]; auto.
    destruct (IH H); auto.
Qed.

Lemma in_sorted (y : string) (l : list string) : In y (Str.sorted l) -> In y l.
Proof.
  induction l as [|x l IH]; simpl; [auto |].
  intros H. apply in_insert_sorted in H as [H | H]; auto.
Qed.

Lemma in_squeeze (y : string) (l : list string) : In y (Np.squeeze l) -> In y l.
Proof.
  induction l as [|x l IH]; [auto |].
  cbn [Np.squeeze]. destruct l as [|z l]; [auto |].
  destruct (String.eqb x z); intros H.
  - right. now apply IH.
  - destruct H as [H | H]; [now left | right; now apply IH].
Qed.

Lemma count_absent (x : string) (l : list string) : ~ In x l -> Np.count x l = 0.
Proof.
  induction l as [|y l IH]; [reflexivity |]. simpl. intros H.
  destruct (String.eqb_spec x y) as [-> | _]; [exfalso; apply H; now left |].
  apply IH. intros Hin. apply H. now right.
Qed.

Lemma count_distinct (x : string) (l : list string) :
  NoDup l -> In x l -> Np.count x l = 1.
Proof.
  induction 1 as [|y l Hy Hl IH]; [intros [] |]. simpl. intros [-> | H].
  - rewrite String.eqb_refl, count_absent; auto.
  - destruct (String.eqb_spec x y) as [-> | _]; [contradiction |]. now apply IH.
Qed.

Lemma unique_pass_distinct (names : list string) :
  NoDup names ->
  unique_pass names = Ok (map (fun name => Str.replace name "_" " ") names).
Proof.
  intros H. unfold unique_pass, Np.unique.
  assert (E : Np.all_one (map (fun x => Np.count x names) (Np.squeeze (Str.sorted names)))
              = true).
  { unfold Np.all_one. apply forallb_forall. intros n Hn.
    apply in_map_iff in Hn as (x & <- & Hx).
    rewrite (count_distinct x names H); [reflexivity |].
    now apply in_sorted, in_squeeze. }
  rewrite E. reflexivity.
Qed.

Lemma names_distinct (f : fs) (content : Content) (active_paths names : list string) :
  mapM (active_name f content) active_paths = Ok names ->
  NoDup names ->
  generate_unique_names f content active_paths None
  = Ok (map (fun name => Str.replace name "_" " ") names).
Proof.
  intros E H. unfold generate_unique_names. rewrite E. cbn [bind given mapM].
  rewrite (unique_pass_distinct names H). cbn [bind List.concat].
  now rewrite app_nil_r.
Qed.

(** C3: for active paths with the labels [Foo], [Foo], [Bar_1] the
    call ends with [TypeError] instead of the names [Foo], [Foo (1)],
    [Bar 1]: the counts are taken by subscripting [typing.Counter]. *)
Theorem repeated_label_raises :
  generate_unique_names fs_titles COURSES
    ["/home/c-1/course_data"; "/home/c-2/course_data"; "/home/c-3/course_data"] None
  = Raise TypeError
  /\ unique_pass ["Foo"; "Foo"; "Bar"] = Raise TypeError.
Proof. split; reflexivity. Qed.

(* ===================================================================== *)
(** ** Lifecycle orchestrator *)

(** C4: in the reset, the membership call is run without [check=True]
    and outside any [try]: when it fails, the sequence goes on to remove
    the exchange directory, the gradebook file and the four working
    directories, and the route answers 200. *)
Theorem reset_ignores_membership_failure :
  run_ok world_curl_fails curl_c1 = false
  /\ fst (courses_PATCH reg_path "secret" request_alice (fun _ _ => launch_c1) world_curl_fails)
     = Ok (mk_response "Selected course reset successfully!" 200)
  /\ trace (snd (courses_PATCH reg_path "secret" request_alice (fun _ _ => launch_c1)
                               world_curl_fails))
     = [curl_c1;
        ["rm"; "-rf"; "/opt/nbgrader_exchange/c-1/"];
        ["rm"; "/home/c-1/course_data/gradebook.db"];
        ["rm"; "-rf"; "/home/c-1/course_data/autograded/"];
        ["rm"; "-rf"; "/home/c-1/course_data/feedback/"];
        ["rm"; "-rf"; "/home/c-1/course_data/release/"];
        ["rm"; "-rf"; "/home/c-1/course_data/submitted/"]].
Proof. repeat split; reflexivity. Qed.

(** The sibling [handle_clean_up] does check the membership call and
    stops there, but what it raises is [TypeError], not [CleanUpError]. *)
Example clean_up_stops_at_membership_failure :
  fst (handle_clean_up reg_path "secret" "/home/c-1/course_data" "jhub/hub/lti13/launch/" "c-1"
                       world_curl_fails)
  = Raise TypeError
  /\ trace (snd (handle_clean_up reg_path "secret" "/home/c-1/course_data"
                                 "jhub/hub/lti13/launch/" "c-1" world_curl_fails))
     = [curl_c1].
Proof. split; reflexivity. Qed.

(** A guarded step that fails ends the reset with the response of that
    step. *)
Example reset_stops_at_guarded_step :
  let w := mk_world (Some (mk_file "" true true)) true
                    (fun argv => negb (String.eqb (nth 1 argv "")
                                                  "/home/c-1/course_data/gradebook.db"))
                    [] (Some ["s1"]) "" in
  fst (courses_PATCH reg_path "secret" request_alice (fun _ _ => launch_c1) w)
  = Ok (mk_response "CalledProcessError" 500)
  /\ List.length (trace (snd (courses_PATCH reg_path "secret" request_alice
                                            (fun _ _ => launch_c1) w))) = 3.
Proof. split; reflexivity. Qed.

(** C5, as stated, fails: the load preceding the group test creates the
    registry file when there is none, so the world is not left as it was
    although the answer is [GroupNotFoundError]. *)
Lemma delete_unknown_group_may_write :
  ~ (forall path json reader w user_name reg w1,
        Py.get json "user" = Some user_name ->
        read_success (reader user_name ("runtime/lti_" ++ Py.str user_name ++ ".json"))
        && parse_success (reader user_name ("runtime/lti_" ++ Py.str user_name ++ ".json"))
        = true ->
        read_autogenerated_config path w = (Ok reg, w1) ->
        Py.get (groups reg)
               ("formgrade-"
                ++ course_id (reader user_name ("runtime/lti_" ++ Py.str user_name ++ ".json")))
        = None ->
        fst (courses_DELETE path json reader w) = Ok (mk_response "GroupNotFoundError" 500)
        /\ reg_file (snd (courses_DELETE path json reader w)) = reg_file w
        /\ trace (snd (courses_DELETE path json reader w)) = trace w).
Proof.
  intros H.
  destruct (H reg_path request_alice (fun _ _ => launch_c1) world_fresh
              (PStr "alice")
              (mk_registry [] [] [])
              (snd (read_autogenerated_config reg_path world_fresh))
              eq_refl eq_refl eq_refl eq_refl) as (_ & Hf & _).
  vm_compute in Hf. discriminate Hf.
Qed.

(** C5, amended: when the group [formgrade-<course_id>] is not in the
    loaded registry, the route answers [GroupNotFoundError] with status
    500 and the world is the one the load left: nothing is run, written
    or removed after the load.  When the registry file exists and is
    readable the load changes nothing either. *)
Theorem delete_unknown_group
    (path : string) (json : dict) (reader : pyval -> string -> lti_file_reader)
    (w w1 : world) (user_name : pyval) (reg : registry) :
  Py.get json "user" = Some user_name ->
  read_success (reader user_name ("runtime/lti_" ++ Py.str user_name ++ ".json"))
  && parse_success (reader user_name ("runtime/lti_" ++ Py.str user_name ++ ".json")) = true ->
  read_autogenerated_config path w = (Ok reg, w1) ->
  Py.get (groups reg)
         ("formgrade-"
          ++ course_id (reader user_name ("runtime/lti_" ++ Py.str user_name ++ ".json")))
  = None ->
  courses_DELETE path json reader w = (Ok (mk_response "GroupNotFoundError" 500), w1)
  /\ (forall f, reg_file w = Some f -> readable f = true -> w1 = w).
Proof.
  intros Hu Hl Hr Hg. split.
  - unfold courses_DELETE, andthen, request_user, read_lti, mbind, try_except.
    rewrite Hu. cbn [mret]. rewrite Hl. cbn [mret]. rewrite Hr. cbn [mret].
    rewrite Hg. reflexivity.
  - intros f Hf Hrd.
    unfold read_autogenerated_config, mbind, try_except, open_read in Hr.
    rewrite Hf, Hrd in Hr.
    destruct (Exec.exec_config (rewrite_config (content f)));
      cbn in Hr; inversion Hr; reflexivity.
Qed.

Lemma delete_unknown_group_witness :
  courses_DELETE reg_path request_alice (fun _ _ => launch_c1) world_fresh
  = (Ok (mk_response "GroupNotFoundError" 500),
     snd (read_autogenerated_config reg_path world_fresh)).
Proof.
  apply (delete_unknown_group reg_path request_alice (fun _ _ => launch_c1)
           world_fresh (snd (read_autogenerated_config reg_path world_fresh))
           (PStr "alice") (mk_registry [] [] [])); reflexivity.
Defined.
(* ===================================================================== *)
(** ** Registry round trip *)

Import Grammar.

#[local] Arguments Exec.exec_config : simpl never.

(** *** Text *)

Lemma append_assoc (a b c : string) : (a ++ b) ++ c = a ++ (b ++ c).
Proof. induction a as [|x a IH]; simpl; [reflexivity | now rewrite IH]. Qed.

Lemma append_nil_r (a : string) : a ++ "" = a.
Proof. induction a as [|x a IH]; simpl; [reflexivity | now rewrite IH]. Qed.

Lemma length_append (a b : string) :
  String.length (a ++ b) = String.length a + String.length b.
Proof. induction a as [|x a IH]; simpl; [reflexivity | now rewrite IH]. Qed.

Lemma prefix_nil (s : string) : String.prefix "" s = true.
Proof. destruct s; reflexivity. Qed.

Lemma prefix_cons (x : ascii) (p : string) (y : ascii) (s : string) :
  String.prefix (String x p) (String y s) = Ascii.eqb x y && String.prefix p s.
Proof.
  simpl. destruct (ascii_dec x y) as [->|n].
  - now rewrite Ascii.eqb_refl.
  - apply Ascii.eqb_neq in n. now rewrite n.
Qed.

Lemma prefix_app (p b : string) : String.prefix p (p ++ b) = true.
Proof.
  induction p as [|x p IH]; [apply prefix_nil |].
  change (String x p ++ b) with (String x (p ++ b)).
  now rewrite prefix_cons, Ascii.eqb_refl, IH.
Qed.

(** *** [str.replace] on a text made of pieces *)

Lemma clash_prefix (p t b : string) :
  clash p t = true -> String.prefix p (t ++ b) = false.
Proof.
  revert t. induction p as [|x p IH]; intros [|y t] H; simpl in H; try discriminate.
  change (String y t ++ b) with (String y (t ++ b)). rewrite prefix_cons.
  destruct (Ascii.eqb x y); [rewrite (IH _ H) | ]; reflexivity.
Qed.

Lemma replace_from_skip (p r a b : string) :
  Str.replace_from (String.length a) p r (a ++ b) = Str.replace_from 0 p r b.
Proof.
  induction a as [|x a IH]; [reflexivity |]. simpl. exact IH.
Qed.

Lemma replace_from_cons (p r : string) (c : ascii) (s : string) :
  Str.replace_from 0 p r (String c s)
  = if String.prefix p (String c s)
    then r ++ Str.replace_from (String.length p - 1) p r s
    else String c (Str.replace_from 0 p r s).
Proof. reflexivity. Qed.

(** A piece inside which no occurrence starts is copied. *)
Lemma replace_lit (p r s b : string) :
  all_clash p s = true ->
  Str.replace_from 0 p r (s ++ b) = s ++ Str.replace_from 0 p r b.
Proof.
  induction s as [|x s IH]; intros H; [reflexivity |].
  simpl in H. apply andb_prop in H as [H1 H2].
  change (String x s ++ b) with (String x (s ++ b)).
  rewrite replace_from_cons.
  change (String x (s ++ b)) with (String x s ++ b).
  rewrite (clash_prefix _ _ b H1).
  now rewrite (IH H2).
Qed.

(** An occurrence is replaced, and the search goes on behind it. *)
Lemma replace_hit (p r b : string) :
  p <> "" ->
  Str.replace_from 0 p r (p ++ b) = r ++ Str.replace_from 0 p r b.
Proof.
  intros Hp. destruct p as [|x p]; [congruence |].
  change (String x p ++ b) with (String x (p ++ b)).
  rewrite replace_from_cons.
  change (String x (p ++ b)) with (String x p ++ b).
  rewrite prefix_app.
  replace (String.length (String x p) - 1) with (String.length p) by (simpl; lia).
  now rewrite replace_from_skip.
Qed.

(** If [p] starts at the head of [t] followed by a closing
    parenthesis, then [p] starts [t], or [t] is a part of [p] that a
    closing parenthesis follows. *)
Lemma prefix_across (p t b : string) :
  String.prefix p (t ++ String ")" b) = true ->
  String.prefix p t = true \/ exists p2, p = t ++ String ")" p2.
Proof.
  revert p. induction t as [|y t IH]; intros [|x p] H.
  - left. reflexivity.
  - simpl in H. right. destruct (ascii_dec x ")") as [->|]; [|discriminate].
    exists p. reflexivity.
  - left. reflexivity.
  - change (String y t ++ String ")" b) with (String y (t ++ String ")" b)) in H.
    rewrite prefix_cons in H. apply andb_prop in H as [H1 H2].
    apply Ascii.eqb_eq in H1. subst y.
    destruct (IH _ H2) as [H | [p2 ->]].
    + left. now rewrite prefix_cons, Ascii.eqb_refl.
    + right. exists p2. reflexivity.
Qed.

Lemma last_char_cons (c : ascii) (s : string) :
  s <> "" -> last_char (String c s) = last_char s.
Proof. destruct s; [congruence | reflexivity]. Qed.

Lemma last_char_app (a : string) (c : ascii) : last_char (a ++ String c "") = Some c.
Proof.
  induction a as [|x a IH]; [reflexivity |].
  change (String x a ++ String c "") with (String x (a ++ String c "")).
  rewrite last_char_cons; [exact IH |]. destruct a; discriminate.
Qed.

Lemma last_char_none (s : string) : last_char s = None -> s = "".
Proof.
  induction s as [|x s IH]; [reflexivity |]. intros H.
  destruct s as [|y s]; [discriminate |].
  rewrite last_char_cons in H by discriminate. specialize (IH H). discriminate.
Qed.

Lemma cuts_split (p2 t : string) (prev : ascii) :
  cuts prev (t ++ String ")" p2) = true ->
  match last_char t with Some c => c = "("%char | None => prev = "("%char end.
Proof.
  revert prev. induction t as [|y t IH]; intros prev H.
  - simpl in H. apply andb_prop in H as [H _]. now apply Ascii.eqb_eq in H.
  - change (String y t ++ String ")" p2) with (String y (t ++ String ")" p2)) in H.
    simpl in H. apply andb_prop in H as [_ H]. specialize (IH _ H).
    destruct t as [|z t]; [exact IH |].
    rewrite last_char_cons by discriminate.
    destruct (last_char (String z t)) eqn:E; [exact IH |].
    apply last_char_none in E. discriminate.
Qed.

(** The text of a value is copied when the rewritten text does not
    occur in it and it does not end with an opening parenthesis. *)
Lemma replace_data (p r d b : string) :
  cuts ")" p = true ->
  Str.occurs p d = false ->
  last_char d <> Some "("%char ->
  Str.replace_from 0 p r (d ++ String ")" b) = d ++ Str.replace_from 0 p r (String ")" b).
Proof.
  intros Hc. induction d as [|x d IH]; intros Ho Hl; [reflexivity |].
  simpl in Ho. apply orb_false_elim in Ho as [Ho1 Ho2].
  assert (Hp : String.prefix p (String x d ++ String ")" b) = false).
  { destruct (String.prefix p (String x d ++ String ")" b)) eqn:E; [|reflexivity].
    destruct (prefix_across _ _ _ E) as [H | [p2 ->]].
    - simpl in H. simpl in Ho1. congruence.
    - apply cuts_split in Hc. destruct (last_char (String x d)); [subst; congruence | discriminate]. }
  change (String x d ++ String ")" b) with (String x (d ++ String ")" b)) in *.
  rewrite replace_from_cons, Hp.
  change (String x d ++ ?z) with (String x (d ++ z)).
  f_equal. apply IH; [exact Ho2 |].
  destruct d as [|y d]; [discriminate |].
  rewrite last_char_cons in Hl by discriminate. exact Hl.
Qed.

Lemma render_app (n : nat) (l1 l2 : list seg) :
  render n (l1 ++ l2) = render n l1 ++ render n l2.
Proof.
  induction l1 as [|x l1 IH]; [reflexivity |].
  simpl. now rewrite IH, append_assoc.
Qed.

Lemma pat_cuts (k : nat) : cuts ")" (pat k) = true.
Proof. destruct k as [|[|[|k]]]; reflexivity. Qed.

Lemma pat_nonempty (k : nat) : pat k <> "".
Proof. destruct k as [|[|[|k]]]; discriminate. Qed.

Lemma render_seg_other (k i : nat) :
  i <> k -> render_seg (S k) (Pat i) = render_seg k (Pat i).
Proof.
  intros H. simpl.
  destruct (Nat.ltb_spec i (S k)), (Nat.ltb_spec i k); try reflexivity; lia.
Qed.

(** One rewrite of [read_autogenerated_config] on a text in pieces. *)
Lemma replace_render (k : nat) (l : list seg) :
  segs_ok k l ->
  Str.replace (render k l) (pat k) (repl k) = render (S k) l.
Proof.
  unfold Str.replace.
  induction l as [|x l IH]; intros H; [reflexivity |].
  destruct x as [s | i | d]; simpl in H.
  - destruct H as [H1 H2]. simpl render.
    now rewrite replace_lit, IH.
  - destruct H as [H1 H2].
    destruct (Nat.eq_dec i k) as [-> | Hne].
    + simpl render. rewrite Nat.ltb_irrefl.
      assert (E : Nat.ltb k (S k) = true) by (apply Nat.ltb_lt; lia). rewrite E.
      rewrite replace_hit by apply pat_nonempty. now rewrite IH.
    + destruct H1 as [H1 | H1]; [contradiction |].
      change (render (S k) (Pat i :: l)) with (render_seg (S k) (Pat i) ++ render (S k) l).
      rewrite (render_seg_other k i Hne).
      change (render k (Pat i :: l)) with (render_seg k (Pat i) ++ render k l).
      now rewrite replace_lit, IH.
  - destruct H as (H1 & H2 & [b Hb] & H3). simpl render.
    rewrite Hb, replace_data; [| apply pat_cuts | exact H1 | exact H2].
    rewrite <- Hb. now rewrite IH.
Qed.

Lemma segs_ok_app (k : nat) (l1 l2 : list seg) :
  segs_ok k l1 -> segs_ok k l2 -> segs_ok k (l1 ++ l2).
Proof.
  induction l1 as [|x l1 IH]; intros H1 H2; [exact H2 |].
  destruct x as [s | i | d]; simpl in *.
  - destruct H1; split; auto.
  - destruct H1; split; auto.
  - destruct H1 as (A & B & [b C] & D). repeat split; auto.
    exists (b ++ render k l2). rewrite render_app, C. reflexivity.
Qed.

(** *** The last character of what [repr] writes *)

Lemma last_char_digits (d : uint) :
  last_char (NilEmpty.string_of_uint d) <> Some "("%char.
Proof.
  induction d; simpl NilEmpty.string_of_uint; try discriminate;
    (destruct (NilEmpty.string_of_uint d) eqn:E;
     [discriminate | rewrite last_char_cons by discriminate; exact IHd]).
Qed.

Lemma last_char_repr (v : pyval) : last_char (Py.repr v) <> Some "("%char.
Proof.
  destruct v as [| [|] | z | s | l | d]; try discriminate.
  - unfold Py.repr, Py.repr_int. destruct (Z.to_int z) as [u | u].
    + apply last_char_digits.
    + destruct (NilEmpty.string_of_uint u) eqn:E; [discriminate |].
      rewrite last_char_cons by discriminate. rewrite <- E. apply last_char_digits.
  - unfold Py.repr, Py.repr_str.
    rewrite last_char_cons by (destruct (Py.escape (Py.quote_of s) s); discriminate).
    rewrite last_char_app. unfold Py.quote_of.
    destruct (Str.mem Py.squote s && negb (Str.mem Py.dquote s)); discriminate.
  - simpl Py.repr. change ("[" ++ ?x) with (String "[" x).
    rewrite last_char_cons by (destruct (String.concat ", " (map Py.repr l)); discriminate).
    rewrite last_char_app. discriminate.
  - simpl Py.repr. change ("{" ++ ?x) with (String "{" x).
    rewrite last_char_cons
      by (destruct (String.concat ", " (map (Py.repr_item Py.repr) d)); discriminate).
    rewrite last_char_app. discriminate.
Qed.

Lemma literal_str (v : pyval) : literal v = true -> Py.str v = Py.repr v.
Proof. destruct v; try reflexivity. discriminate. Qed.

Lemma literal_wf (v : pyval) : literal v = true -> wf v = true.
Proof. destruct v; simpl; intros H; (reflexivity || exact H). Qed.

Lemma untouched_occurs (s : string) (k : nat) :
  untouched s = true -> Str.occurs (pat k) s = false.
Proof.
  unfold untouched. simpl. rewrite !andb_true_iff, !negb_true_iff.
  intros (H0 & H1 & H2 & H3 & _).
  destruct k as [|[|[|k]]]; assumption.
Qed.

(** The pieces of the registry text meet what each of the four
    rewrites needs. *)
Lemma line_ok (k i : nat) (v : pyval) :
  k < 4 -> (i = 1 \/ i = 2) ->
  literal v = true -> untouched (Py.str v) = true ->
  segs_ok k (line i v).
Proof.
  intros Hk Hi Hl Hu. unfold line.
  cbn [segs_ok]. repeat split.
  - destruct (Nat.eq_dec i k); [now left | right].
    destruct Hi as [-> | ->];
      destruct k as [|[|[|[|k]]]]; try lia; try reflexivity; congruence.
  - destruct k as [|[|[|[|k]]]]; try lia; reflexivity.
  - now apply untouched_occurs.
  - rewrite literal_str by assumption. apply last_char_repr.
  - eexists. reflexivity.
  - destruct k as [|[|[|[|k]]]]; try lia; reflexivity.
Qed.

Lemma lines_ok (k i : nat) (vs : list pyval) :
  k < 4 -> (i = 1 \/ i = 2) ->
  forallb literal vs = true -> forallb (fun v => untouched (Py.str v)) vs = true ->
  segs_ok k (flat_map (line i) vs).
Proof.
  intros Hk Hi. induction vs as [|v vs IH]; intros Hl Hu; [exact I |].
  simpl in Hl, Hu. apply andb_prop in Hl as [Hl1 Hl2]. apply andb_prop in Hu as [Hu1 Hu2].
  cbn [flat_map]. apply segs_ok_app; [now apply line_ok | now apply IH].
Qed.

Lemma template_ok (k : nat) (services roles : list pyval) (groups : dict) :
  k < 4 -> expressible services roles groups = true ->
  segs_ok k (template services roles groups).
Proof.
  intros Hk H. unfold expressible, in_grammar in H. rewrite !andb_true_iff in H.
  destruct H as (((((H1 & H2) & H3) & H4) & H5) & H6).
  unfold template.
  repeat apply segs_ok_app.
  - cbn [segs_ok]. repeat split.
    + destruct k as [|[|[|[|k]]]]; try lia; reflexivity.
    + destruct k as [|[|[|[|k]]]]; try lia; auto; right; reflexivity.
    + destruct k as [|[|[|[|k]]]]; try lia; reflexivity.
  - apply lines_ok; auto.
  - cbn [segs_ok]. repeat split. destruct k as [|[|[|[|k]]]]; try lia; reflexivity.
  - apply lines_ok; auto.
  - cbn [segs_ok]. repeat split.
    + destruct k as [|[|[|[|k]]]]; try lia; reflexivity.
    + destruct k as [|[|[|[|k]]]]; try lia; auto; right; reflexivity.
    + destruct k as [|[|[|[|k]]]]; try lia; reflexivity.
    + now apply untouched_occurs.
    + apply (last_char_repr (PDict groups)).
    + eexists. reflexivity.
    + destruct k as [|[|[|[|k]]]]; try lia; reflexivity.
Qed.

(** The text composed by the writer is the text of the pieces, and the
    four rewrites turn it into the text of the pieces with the four
    names rewritten. *)
Lemma append_lines_render (i : nat) (vs : list pyval) (n : nat) :
  render n (flat_map (line i) vs)
  = append_lines (render_seg n (Pat i)) vs.
Proof.
  induction vs as [|v vs IH]; [reflexivity |].
  cbn [flat_map]. rewrite render_app, IH.
  cbn [append_lines]. unfold append_line, line. cbn [render].
  rewrite ?append_assoc, ?append_nil_r. reflexivity.
Qed.

Lemma config_code_render (services roles : list pyval) (groups : dict) :
  config_code services roles groups = render 0 (template services roles groups).
Proof.
  unfold config_code, template.
  rewrite !render_app, !append_lines_render. cbn [render render_seg Nat.ltb Nat.leb pat].
  rewrite !append_assoc, ?append_nil_r. reflexivity.
Qed.

Lemma rewrite_config_render (services roles : list pyval) (groups : dict) :
  expressible services roles groups = true ->
  rewrite_config (config_code services roles groups)
  = render 4 (template services roles groups).
Proof.
  intros H. unfold rewrite_config. rewrite config_code_render.
  rewrite (replace_render 0) by (apply template_ok; [lia | exact H]).
  rewrite (replace_render 1) by (apply template_ok; [lia | exact H]).
  rewrite (replace_render 2) by (apply template_ok; [lia | exact H]).
  rewrite (replace_render 3) by (apply template_ok; [lia | exact H]).
  reflexivity.
Qed.

(** *** Reading back what [repr] writes *)

Lemma skip_spaces_value (s : string) :
  starts_value s = true -> Exec.skip_spaces s = s.
Proof.
  destruct s as [|c s]; [discriminate |]. simpl.
  destruct (Ascii.eqb c " "); [discriminate | reflexivity].
Qed.

Lemma expect_value (c : ascii) (s : string) :
  starts_value s = true -> (c = "]"%char \/ c = "}"%char) -> Exec.expect c s = None.
Proof.
  intros H Hc. unfold Exec.expect. rewrite (skip_spaces_value s H).
  destruct s as [|x s]; [reflexivity |]. simpl in H.
  rewrite !andb_true_iff, !negb_true_iff in H. destruct H as [[_ H1] H2].
  destruct Hc as [-> | ->]; [rewrite H1 | rewrite H2]; reflexivity.
Qed.

Lemma expect_here (c : ascii) (s : string) :
  Ascii.eqb c " " = false -> Exec.expect c (String c s) = Some s.
Proof. intros H. unfold Exec.expect. simpl. now rewrite H, Ascii.eqb_refl. Qed.

Lemma expect_other (c x : ascii) (s : string) :
  Ascii.eqb x " " = false -> Ascii.eqb x c = false -> Exec.expect c (String x s) = None.
Proof. intros H1 H2. unfold Exec.expect. simpl. now rewrite H1, H2. Qed.

Lemma parse_value_blank (fuel : nat) (s : string) :
  Exec.parse_value fuel (String " " s) = Exec.parse_value fuel s.
Proof. destruct fuel; reflexivity. Qed.

Lemma parse_items_blank (fuel : nat) (s : string) :
  Exec.parse_items fuel (String " " s) = Exec.parse_items fuel s.
Proof. destruct fuel as [|f]; [reflexivity |]. simpl. now rewrite parse_value_blank. Qed.

Lemma parse_pairs_blank (fuel : nat) (s : string) :
  Exec.parse_pairs fuel (String " " s) = Exec.parse_pairs fuel s.
Proof. destruct fuel as [|f]; [reflexivity |]. simpl. now rewrite parse_value_blank. Qed.

(** Strings. *)

Lemma lex_str_escape_char (q c : ascii) (t : string) :
  q = Py.squote \/ q = Py.dquote ->
  Exec.lex_str q (Py.escape_char q c ++ t) = Exec.cons_char c (Exec.lex_str q t).
Proof.
  intros [-> | ->];
    destruct c as [[] [] [] [] [] [] [] []]; reflexivity.
Qed.

Lemma lex_str_escape (q : ascii) (s rest : string) :
  q = Py.squote \/ q = Py.dquote ->
  Exec.lex_str q (Py.escape q s ++ String q rest) = Some (s, rest).
Proof.
  intros Hq. induction s as [|c s IH].
  - simpl. now rewrite Ascii.eqb_refl.
  - simpl Py.escape. rewrite append_assoc, lex_str_escape_char, IH by exact Hq.
    reflexivity.
Qed.

Lemma quote_of_cases (s : string) : Py.quote_of s = Py.squote \/ Py.quote_of s = Py.dquote.
Proof.
  unfold Py.quote_of.
  destruct (Str.mem Py.squote s && negb (Str.mem Py.dquote s)); auto.
Qed.

Lemma parse_str (f : nat) (s rest : string) :
  Exec.parse_value (S f) (Py.repr_str s ++ rest) = Some (PStr s, rest).
Proof.
  unfold Py.repr_str.
  change (String ?q ?x ++ rest) with (String q (x ++ rest)).
  rewrite append_assoc. change (String ?q "" ++ rest) with (String q rest).
  destruct (quote_of_cases s) as [E | E]; rewrite E;
    cbn [Exec.parse_value Exec.skip_spaces]; simpl Ascii.eqb; cbn [orb];
    rewrite lex_str_escape by auto; reflexivity.
Qed.

(** Integers. *)

Lemma lex_digits_uint (d : uint) (rest : string) :
  no_digit_head rest = true ->
  Exec.lex_digits (NilEmpty.string_of_uint d ++ rest) = (d, rest).
Proof.
  intros H. induction d; simpl NilEmpty.string_of_uint;
    try (change (String ?c ?x ++ rest) with (String c (x ++ rest));
         cbn [Exec.lex_digits]; simpl Exec.digit_of_char; rewrite IHd; reflexivity).
  simpl. destruct rest as [|c rest]; [reflexivity |].
  simpl in H. unfold Exec.is_digit in H. simpl.
  destruct (Exec.digit_of_char c); [discriminate | reflexivity].
Qed.

Lemma unorm_D0 (x y : uint) : unorm x = D0 y -> y = Nil.
Proof.
  induction x; simpl; intros H; try discriminate; auto.
  now injection H as <-.
Qed.

Lemma to_uint_literal (p : positive) : Exec.int_literal (Pos.to_uint p) = true.
Proof.
  pose proof (DecimalPos.Unsigned.to_of (Pos.to_uint p)) as H.
  rewrite DecimalPos.Unsigned.of_to in H. simpl N.to_uint in H.
  pose proof (DecimalPos.Unsigned.to_uint_nonzero p) as Hz.
  pose proof (DecimalPos.Unsigned.to_uint_nonnil p) as Hn.
  destruct (Pos.to_uint p) as [|u|u|u|u|u|u|u|u|u|u]; try reflexivity; [congruence |].
  symmetry in H. apply unorm_D0 in H. subst u. exfalso. apply Hz. reflexivity.
Qed.

Lemma of_to_uint (p : positive) : Z.of_uint (Pos.to_uint p) = Zpos p.
Proof. unfold Z.of_uint. now rewrite DecimalPos.Unsigned.of_to. Qed.

(** The text of a number that is not [Nil] starts with a digit. *)
Lemma parse_digits (f : nat) (d : uint) (rest : string) :
  d <> Nil -> Exec.int_literal d = true -> no_digit_head rest = true ->
  Exec.parse_value (S f) (NilEmpty.string_of_uint d ++ rest) = Some (PInt (Z.of_uint d), rest).
Proof.
  intros Hn Hl Hr.
  pose proof (lex_digits_uint d rest Hr) as E.
  destruct d; try congruence; simpl NilEmpty.string_of_uint in *;
    change (String ?c ?x ++ rest) with (String c (x ++ rest)) in *;
    cbn [Exec.parse_value Exec.skip_spaces]; simpl Ascii.eqb; cbn [orb];
    unfold Exec.is_digit; simpl Exec.digit_of_char; cbv iota;
    rewrite E, Hl; reflexivity.
Qed.

Lemma parse_neg_digits (f : nat) (d : uint) (rest : string) :
  Exec.int_literal d = true -> no_digit_head rest = true ->
  Exec.parse_value (S f) (String "-" (NilEmpty.string_of_uint d ++ rest))
  = Some (PInt (- Z.of_uint d), rest).
Proof.
  intros Hl Hr.
  cbn [Exec.parse_value Exec.skip_spaces]; simpl Ascii.eqb; cbn [orb].
  now rewrite (lex_digits_uint d rest Hr), Hl.
Qed.

Lemma parse_int (f : nat) (z : Z) (rest : string) :
  no_digit_head rest = true ->
  Exec.parse_value (S f) (Py.repr_int z ++ rest) = Some (PInt z, rest).
Proof.
  intros Hr. unfold Py.repr_int. destruct z as [|p|p].
  - apply (parse_digits f (D0 Nil) rest); [discriminate | reflexivity | exact Hr].
  - change (Z.to_int (Zpos p)) with (Pos (Pos.to_uint p)). cbv iota.
    rewrite parse_digits; auto using to_uint_literal, DecimalPos.Unsigned.to_uint_nonnil.
    now rewrite of_to_uint.
  - change (Z.to_int (Zneg p)) with (Neg (Pos.to_uint p)). cbv iota.
    change (String ?c ?x ++ rest) with (String c (x ++ rest)).
    rewrite parse_neg_digits; auto using to_uint_literal.
    now rewrite of_to_uint.
Qed.

(** Dictionaries: writing the pairs one after the other into an empty
    dictionary gives the pairs back when the keys are distinct. *)

Lemma set_fresh (acc : dict) (k : string) (v : pyval) :
  ~ In k (map fst acc) -> Py.set acc k v = (acc ++ [(k, v)])%list.
Proof.
  induction acc as [|[k' v'] acc IH]; intros H; [reflexivity |].
  simpl in *. destruct (String.eqb_spec k k') as [-> | Hne].
  - exfalso. apply H. now left.
  - rewrite IH; [reflexivity |]. intros Hin. apply H. now right.
Qed.

Lemma nodupb_cons (x : string) (l : list string) :
  nodupb (x :: l) = true -> ~ In x l /\ nodupb l = true.
Proof.
  simpl. rewrite andb_true_iff, negb_true_iff. intros [H1 H2]. split; [|exact H2].
  intros Hin. assert (E : existsb (String.eqb x) l = true).
  { apply existsb_exists. exists x. split; [exact Hin | apply String.eqb_refl]. }
  congruence.
Qed.

Lemma update_fresh (d acc : dict) :
  nodupb (map fst d) = true ->
  (forall k, In k (map fst d) -> ~ In k (map fst acc)) ->
  Py.update acc d = (acc ++ d)%list.
Proof.
  unfold Py.update. revert acc.
  induction d as [|[k v] d IH]; intros acc Hn Hd; simpl.
  - now rewrite app_nil_r.
  - simpl in Hn. apply nodupb_cons in Hn as [Hk Hn].
    rewrite set_fresh by (apply Hd; now left).
    rewrite IH; [now rewrite <- app_assoc | exact Hn |].
    intros k' Hin. rewrite map_app, in_app_iff. simpl. intros [H | [H | []]].
    + apply (Hd k'); [now right | exact H].
    + subst k'. contradiction.
Qed.

Lemma update_nil (d : dict) : nodupb (map fst d) = true -> Py.update [] d = d.
Proof. intros H. rewrite update_fresh; auto. Qed.

(** Induction on values, through the lists they hold. *)
Lemma pyval_induction (P : pyval -> Prop) :
  P PNone -> (forall b, P (PBool b)) -> (forall z, P (PInt z)) -> (forall s, P (PStr s)) ->
  (forall l, Forall P l -> P (PList l)) ->
  (forall d, Forall (fun kv => P (snd kv)) d -> P (PDict d)) ->
  forall v, P v.
Proof.
  intros HN HB HI HS HL HD.
  fix IH 1. intros [| b | z | s | l | d].
  - exact HN.
  - apply HB.
  - apply HI.
  - apply HS.
  - apply HL. induction l as [|x l IHl]; constructor; [apply IH | exact IHl].
  - apply HD. induction d as [|[k x] d IHd]; constructor; [apply IH | exact IHd].
Qed.

Lemma starts_value_digits (d : uint) (rest : string) :
  d <> Nil -> starts_value (NilEmpty.string_of_uint d ++ rest) = true.
Proof. destruct d; intros H; try reflexivity. congruence. Qed.

Lemma starts_value_repr (v : pyval) (rest : string) :
  starts_value (Py.repr v ++ rest) = true.
Proof.
  destruct v as [| [|] | z | s | l | d]; try reflexivity.
  - unfold Py.repr, Py.repr_int. destruct z as [|p|p]; try reflexivity.
    change (Z.to_int (Zpos p)) with (Pos (Pos.to_uint p)). cbv iota.
    apply starts_value_digits, DecimalPos.Unsigned.to_uint_nonnil.
  - unfold Py.repr, Py.repr_str.
    destruct (quote_of_cases s) as [E | E]; rewrite E; reflexivity.
Qed.

Lemma concat_cons2 (sep x y : string) (l : list string) :
  String.concat sep (x :: y :: l) = x ++ sep ++ String.concat sep (y :: l).
Proof. reflexivity. Qed.

Lemma parse_items_repr (v : pyval) (l : list pyval) :
  Forall reads_back (v :: l) -> forallb wf (v :: l) = true ->
  forall fuel rest, items_size (v :: l) <= fuel ->
  Exec.parse_items fuel (String.concat ", " (map Py.repr (v :: l)) ++ String "]" rest)
  = Some (v :: l, rest).
Proof.
  revert v. induction l as [|v2 l IH]; intros v HP Hw fuel rest Hf.
  - inversion HP as [|? ? Hv _]; subst. simpl in Hw. rewrite andb_true_r in Hw.
    unfold items_size in Hf; simpl in Hf.
    destruct fuel as [|f]; [lia |].
    cbn [map String.concat Exec.parse_items].
    rewrite (Hv Hw) by (try reflexivity; lia).
    rewrite expect_here by reflexivity. reflexivity.
  - inversion HP as [|? ? Hv HP']; subst.
    change (forallb wf (v :: v2 :: l)) with (wf v && forallb wf (v2 :: l)) in Hw.
    apply andb_prop in Hw as [Hw Hw'].
    change (items_size (v :: v2 :: l)) with (S (size v + items_size (v2 :: l))) in Hf.
    destruct fuel as [|f]; [lia |].
    change (map Py.repr (v :: v2 :: l)) with (Py.repr v :: Py.repr v2 :: map Py.repr l).
    rewrite concat_cons2, !append_assoc.
    change (", " ++ ?x) with (String "," (String " " x)).
    cbn [Exec.parse_items].
    rewrite (Hv Hw) by (try reflexivity; lia).
    rewrite expect_other by reflexivity.
    rewrite expect_here by reflexivity.
    change (Py.repr v2 :: map Py.repr l) with (map Py.repr (v2 :: l)).
    assert (Hs : starts_value (String.concat ", " (map Py.repr (v2 :: l)) ++ String "]" rest) = true).
    { destruct l; cbn [map String.concat]; rewrite ?append_assoc; apply starts_value_repr. }
    unfold Exec.expect at 1. cbn [Exec.skip_spaces]. simpl Ascii.eqb. cbv iota.
    fold (Exec.expect "]" (String.concat ", " (map Py.repr (v2 :: l)) ++ String "]" rest)).
    rewrite expect_value by auto.
    rewrite parse_items_blank, (IH v2 HP' Hw') by lia.
    reflexivity.
Qed.

Lemma parse_pairs_step (f : nat) (s : string) :
  Exec.parse_pairs (S f) s
  = match Exec.parse_value f s with
    | Some (PStr k, r) =>
        match Exec.expect ":" r with
        | None => None
        | Some r0 =>
            match Exec.parse_value f r0 with
            | None => None
            | Some (v, r1) =>
                match Exec.expect "}" r1 with
                | Some r' => Exec.ret [(k, v)] r'
                | None =>
                    match Exec.expect "," r1 with
                    | None => None
                    | Some r' =>
                        match Exec.expect "}" r' with
                        | Some r'' => Exec.ret [(k, v)] r''
                        | None => match Exec.parse_pairs f r' with
                                  | Some (d, r'') => Exec.ret ((k, v) :: d) r''
                                  | None => None
                                  end
                        end
                    end
                end
            end
        end
    | _ => None
    end.
Proof. reflexivity. Qed.

Lemma parse_pairs_repr (kv : string * pyval) (d : dict) :
  Forall (fun kv => reads_back (snd kv)) (kv :: d) ->
  forallb (fun kv => wf (snd kv)) (kv :: d) = true ->
  forall fuel rest, pairs_size (kv :: d) <= fuel ->
  Exec.parse_pairs fuel
    (String.concat ", " (map (Py.repr_item Py.repr) (kv :: d)) ++ String "}" rest)
  = Some (kv :: d, rest).
Proof.
  revert kv. induction d as [|kv2 d IH]; intros [k v] HP Hw fuel rest Hf.
  - inversion HP as [|? ? Hv _]; subst. simpl in Hw, Hv. rewrite andb_true_r in Hw.
    unfold pairs_size in Hf; simpl in Hf.
    destruct fuel as [|[|f]]; try lia.
    cbn [map String.concat]. unfold Py.repr_item at 1. cbn [fst snd].
    rewrite !append_assoc. change (": " ++ ?x) with (String ":" (String " " x)).
    cbn [Exec.parse_pairs]. rewrite parse_str.
    rewrite expect_here by reflexivity.
    rewrite parse_value_blank, (Hv Hw) by (try reflexivity; lia).
    rewrite expect_here by reflexivity. reflexivity.
  - inversion HP as [|? ? Hv HP']; subst. simpl in Hv.
    change (forallb (fun kv => wf (snd kv)) ((k, v) :: kv2 :: d))
      with (wf v && forallb (fun kv => wf (snd kv)) (kv2 :: d)) in Hw.
    apply andb_prop in Hw as [Hw Hw'].
    change (pairs_size ((k, v) :: kv2 :: d)) with (S (S (size v + pairs_size (kv2 :: d)))) in Hf.
    destruct fuel as [|[|f]]; try lia.
    change (map (Py.repr_item Py.repr) ((k, v) :: kv2 :: d))
      with (Py.repr_item Py.repr (k, v) :: Py.repr_item Py.repr kv2 :: map (Py.repr_item Py.repr) d).
    rewrite concat_cons2. unfold Py.repr_item at 1. cbn [fst snd].
    rewrite !append_assoc.
    change (": " ++ ?x) with (String ":" (String " " x)).
    change (", " ++ ?x) with (String "," (String " " x)).
    rewrite parse_pairs_step, parse_str.
    rewrite expect_here by reflexivity.
    rewrite parse_value_blank, (Hv Hw) by (try reflexivity; lia).
    rewrite expect_other by reflexivity.
    rewrite expect_here by reflexivity.
    change (Py.repr_item Py.repr kv2 :: map (Py.repr_item Py.repr) d)
      with (map (Py.repr_item Py.repr) (kv2 :: d)).
    assert (Hs : starts_value
                   (String.concat ", " (map (Py.repr_item Py.repr) (kv2 :: d)) ++ String "}" rest)
                 = true).
    { destruct kv2 as [k2 v2]. unfold Py.repr_item.
      destruct d; cbn [map String.concat fst snd]; rewrite ?append_assoc;
        apply (starts_value_repr (PStr k2)). }
    unfold Exec.expect at 1. cbn [Exec.skip_spaces]. simpl Ascii.eqb. cbv iota.
    fold (Exec.expect "}"
            (String.concat ", " (map (Py.repr_item Py.repr) (kv2 :: d)) ++ String "}" rest)).
    rewrite expect_value by auto.
    rewrite parse_pairs_blank, (IH kv2 HP' Hw') by lia.
    reflexivity.
Qed.

Ltac dispatch_head :=
  cbn [Exec.parse_value Exec.skip_spaces append]; simpl Ascii.eqb; cbv iota; cbn [orb];
  unfold Exec.is_digit; simpl Exec.digit_of_char; cbv iota.

Lemma parse_None (f : nat) (rest : string) :
  Exec.parse_value (S f) ("None" ++ rest) = Some (PNone, rest).
Proof.
  dispatch_head.
  change (String "N" (String "o" (String "n" (String "e" rest)))) with ("None" ++ rest).
  now rewrite prefix_app.
Qed.

Lemma parse_True (f : nat) (rest : string) :
  Exec.parse_value (S f) ("True" ++ rest) = Some (PBool true, rest).
Proof.
  dispatch_head.
  change (String "T" (String "r" (String "u" (String "e" rest)))) with ("True" ++ rest).
  rewrite (prefix_app "True"). reflexivity.
Qed.

Lemma parse_False (f : nat) (rest : string) :
  Exec.parse_value (S f) ("False" ++ rest) = Some (PBool false, rest).
Proof.
  dispatch_head.
  change (String "F" (String "a" (String "l" (String "s" (String "e" rest)))))
    with ("False" ++ rest).
  rewrite (prefix_app "False"). reflexivity.
Qed.

(** What [repr] writes for a value is read back as that value, and the
    text behind it is left. *)
Lemma repr_reads_back (v : pyval) : reads_back v.
Proof.
  induction v using pyval_induction; unfold reads_back; intros Hw fuel rest Hf Hr;
    (destruct fuel as [|f]; [simpl in Hf; lia |]).
  - apply parse_None.
  - destruct b; [apply parse_True | apply parse_False].
  - now apply parse_int.
  - apply parse_str.
  - destruct l as [|v l]; [reflexivity |].
    cbn [Py.repr]. change ("[" ++ ?x) with (String "[" x).
    change (String "[" ?x ++ rest) with (String "[" (x ++ rest)).
    rewrite append_assoc. change ("]" ++ rest) with (String "]" rest).
    cbn [Exec.parse_value Exec.skip_spaces]. simpl Ascii.eqb. cbv iota.
    rewrite (expect_value "]"); auto.
    + rewrite parse_items_repr; auto. simpl in Hf. unfold items_size. simpl. lia.
    + destruct l; cbn [map String.concat]; rewrite ?append_assoc; apply starts_value_repr.
  - destruct d as [|kv d]; [reflexivity |].
    change (wf (PDict (kv :: d)))
      with (nodupb (map fst (kv :: d)) && forallb (fun kv => wf (snd kv)) (kv :: d)) in Hw.
    apply andb_prop in Hw as [Hn Hw].
    cbn [Py.repr]. change ("{" ++ ?x) with (String "{" x).
    change (String "{" ?x ++ rest) with (String "{" (x ++ rest)).
    rewrite append_assoc. change ("}" ++ rest) with (String "}" rest).
    cbn [Exec.parse_value Exec.skip_spaces]. simpl Ascii.eqb. cbv iota.
    rewrite (expect_value "}"); auto.
    + rewrite parse_pairs_repr; auto.
      * unfold Exec.ret. rewrite (update_nil _ Hn). reflexivity.
      * simpl in Hf. unfold pairs_size. simpl. lia.
    + destruct kv as [k2 v2]. unfold Py.repr_item.
      destruct d; cbn [map String.concat fst snd]; rewrite ?append_assoc;
        apply (starts_value_repr (PStr k2)).
Qed.

(** The length of the text of a value is fuel enough to read it. *)

Lemma length_digits (d : uint) : d <> Nil -> 1 <= String.length (NilEmpty.string_of_uint d).
Proof. destruct d; intros H; simpl; try lia. congruence. Qed.

Lemma length_repr_str (s : string) : 2 <= String.length (Py.repr_str s).
Proof. unfold Py.repr_str. simpl. rewrite length_append. simpl. lia. Qed.

Lemma size_le_length (v : pyval) : size v <= String.length (Py.repr v).
Proof.
  induction v using pyval_induction.
  - simpl; lia.
  - destruct b; simpl; lia.
  - simpl size. unfold Py.repr, Py.repr_int. destruct z as [|p|p].
    + simpl; lia.
    + change (Z.to_int (Zpos p)) with (Pos (Pos.to_uint p)). cbv iota.
      apply length_digits, DecimalPos.Unsigned.to_uint_nonnil.
    + change (Z.to_int (Zneg p)) with (Neg (Pos.to_uint p)). cbv iota. simpl. lia.
  - simpl size. pose proof (length_repr_str s). simpl Py.repr. lia.
  - cbn [Py.repr]. rewrite !length_append.
    change (String.length "[") with 1. change (String.length "]") with 1.
    change (size (PList l)) with (S (items_size l)).
    enough (items_size l <= String.length (String.concat ", " (map Py.repr l)) + 1) by lia.
    induction l as [|v l IHl]; [simpl; lia |].
    inversion H as [|? ? Hv Hl]; subst. specialize (IHl Hl).
    change (items_size (v :: l)) with (S (size v + items_size l)).
    destruct l as [|v2 l].
    + cbn [map String.concat]. unfold items_size. simpl. lia.
    + change (map Py.repr (v :: v2 :: l)) with (Py.repr v :: Py.repr v2 :: map Py.repr l).
      rewrite concat_cons2, !length_append. change (String.length ", ") with 2.
      change (Py.repr v2 :: map Py.repr l) with (map Py.repr (v2 :: l)). lia.
  - cbn [Py.repr]. rewrite !length_append.
    change (String.length "{") with 1. change (String.length "}") with 1.
    change (size (PDict d)) with (S (pairs_size d)).
    enough (pairs_size d <= String.length (String.concat ", " (map (Py.repr_item Py.repr) d)))
      by lia.
    induction d as [|[k v] d IHd]; [simpl; lia |].
    inversion H as [|? ? Hv Hd]; subst. specialize (IHd Hd). simpl in Hv.
    change (pairs_size ((k, v) :: d)) with (S (S (size v + pairs_size d))).
    pose proof (length_repr_str k) as Hk.
    destruct d as [|kv2 d].
    + cbn [map String.concat]. unfold Py.repr_item. cbn [fst snd].
      rewrite !length_append. change (String.length ": ") with 2.
      unfold pairs_size. cbn [fold_right snd]. lia.
    + change (map (Py.repr_item Py.repr) ((k, v) :: kv2 :: d))
        with (Py.repr_item Py.repr (k, v) :: Py.repr_item Py.repr kv2
                :: map (Py.repr_item Py.repr) d).
      rewrite concat_cons2. unfold Py.repr_item at 1. cbn [fst snd].
      rewrite !length_append.
      change (String.length ", ") with 2. change (String.length ": ") with 2.
      change (Py.repr_item Py.repr kv2 :: map (Py.repr_item Py.repr) d)
        with (map (Py.repr_item Py.repr) (kv2 :: d)). lia.
Qed.

(** *** Executing the rewritten text *)

Lemma drop_app (a b : string) : Str.drop (String.length a) (a ++ b) = b.
Proof. induction a as [|x a IH]; [reflexivity | exact IH]. Qed.

Lemma end_of_stmt_line (rest : string) :
  Exec.end_of_stmt (String ")" (Str.nl ++ rest)) = Some rest.
Proof. reflexivity. Qed.

(** A call written by the writer gives its argument back. *)
Lemma call_arg_repr (name : string) (v : pyval) (rest : string) :
  wf v = true ->
  Exec.call_arg name (name ++ Py.repr v ++ String ")" (Str.nl ++ rest)) = Some (v, rest).
Proof.
  intros Hw. unfold Exec.call_arg. rewrite prefix_app, drop_app.
  rewrite (repr_reads_back v Hw).
  - now rewrite end_of_stmt_line.
  - pose proof (size_le_length v). rewrite !length_append. lia.
  - reflexivity.
Qed.

Lemma exec_lines_step (f : nat) (c : ascii) (rest : string) (st : registry) :
  Exec.exec_lines (S f) (String c rest) st
  = if Exec.is_nl c then Exec.exec_lines f rest st
    else if Ascii.eqb c "#" then Exec.exec_lines f (Exec.skip_line rest) st
    else if Ascii.eqb c " " then
      match Exec.skip_spaces rest with
      | "" => Some st
      | String c' rest' =>
          if Exec.is_nl c' then Exec.exec_lines f rest' st
          else if Ascii.eqb c' "#" then Exec.exec_lines f (Exec.skip_line rest') st
          else None
      end
    else if String.prefix "services.append(" (String c rest) then
      match Exec.call_arg "services.append(" (String c rest) with
      | Some (v, r) => Exec.exec_lines f r (Exec.append_service st v)
      | None => None
      end
    else if String.prefix "roles.append(" (String c rest) then
      match Exec.call_arg "roles.append(" (String c rest) with
      | Some (v, r) => Exec.exec_lines f r (Exec.append_role st v)
      | None => None
      end
    else if String.prefix "groups.update(" (String c rest) then
      match Exec.call_arg "groups.update(" (String c rest) with
      | Some (PDict d, r) => Exec.exec_lines f r (Exec.update_groups st d)
      | _ => None
      end
    else None.
Proof. reflexivity. Qed.

Lemma exec_blank (f : nat) (rest : string) (st : registry) :
  Exec.exec_lines (S f) (Str.nl ++ rest) st = Exec.exec_lines f rest st.
Proof. reflexivity. Qed.

Lemma exec_services_line (f : nat) (v : pyval) (rest : string) (st : registry) :
  wf v = true ->
  Exec.exec_lines (S f) ("services.append(" ++ Py.repr v ++ String ")" (Str.nl ++ rest)) st
  = Exec.exec_lines f rest (Exec.append_service st v).
Proof.
  intros Hw.
  change ("services.append(" ++ ?x) with (String "s" ("ervices.append(" ++ x)).
  rewrite exec_lines_step.
  change (String "s" ("ervices.append(" ++ ?x)) with ("services.append(" ++ x).
  change (Exec.is_nl "s") with false. change (Ascii.eqb "s" "#") with false.
  change (Ascii.eqb "s" " ") with false. cbv iota.
  now rewrite prefix_app, call_arg_repr.
Qed.

Lemma exec_roles_line (f : nat) (v : pyval) (rest : string) (st : registry) :
  wf v = true ->
  Exec.exec_lines (S f) ("roles.append(" ++ Py.repr v ++ String ")" (Str.nl ++ rest)) st
  = Exec.exec_lines f rest (Exec.append_role st v).
Proof.
  intros Hw.
  change ("roles.append(" ++ ?x) with (String "r" ("oles.append(" ++ x)).
  rewrite exec_lines_step.
  change (String "r" ("oles.append(" ++ ?x)) with ("roles.append(" ++ x).
  change (Exec.is_nl "r") with false. change (Ascii.eqb "r" "#") with false.
  change (Ascii.eqb "r" " ") with false. cbv iota.
  rewrite (clash_prefix "services.append(" "roles.append(") by reflexivity.
  now rewrite prefix_app, call_arg_repr.
Qed.

Lemma exec_groups_line (f : nat) (d : dict) (rest : string) (st : registry) :
  wf (PDict d) = true ->
  Exec.exec_lines (S f) ("groups.update(" ++ Py.repr (PDict d) ++ String ")" (Str.nl ++ rest)) st
  = Exec.exec_lines f rest (Exec.update_groups st d).
Proof.
  intros Hw.
  change ("groups.update(" ++ ?x) with (String "g" ("roups.update(" ++ x)).
  rewrite exec_lines_step.
  change (String "g" ("roups.update(" ++ ?x)) with ("groups.update(" ++ x).
  change (Exec.is_nl "g") with false. change (Ascii.eqb "g" "#") with false.
  change (Ascii.eqb "g" " ") with false. cbv iota.
  rewrite (clash_prefix "services.append(" "groups.update(") by reflexivity.
  rewrite (clash_prefix "roles.append(" "groups.update(") by reflexivity.
  now rewrite prefix_app, call_arg_repr.
Qed.

Lemma append_line_repr (target : string) (v : pyval) (rest : string) :
  literal v = true ->
  append_line target v ++ rest
  = (target ++ ".append(") ++ Py.repr v ++ String ")" (Str.nl ++ rest).
Proof.
  intros H. unfold append_line. rewrite (literal_str v H), !append_assoc. reflexivity.
Qed.

Lemma exec_services (vs : list pyval) (f : nat) (rest : string) (st : registry) :
  forallb literal vs = true ->
  Exec.exec_lines (List.length vs + f) (append_lines "services" vs ++ rest) st
  = Exec.exec_lines f rest (mk_registry (services st ++ vs) (roles st) (groups st)).
Proof.
  revert st. induction vs as [|v vs IH]; intros st H.
  - simpl. rewrite app_nil_r. now destruct st.
  - simpl in H. apply andb_prop in H as [Hv H].
    cbn [append_lines List.length Nat.add]. rewrite append_assoc, append_line_repr by exact Hv.
    change ("services" ++ ".append(") with "services.append(".
    rewrite exec_services_line by now apply literal_wf.
    rewrite IH by exact H. unfold Exec.append_service. cbn [services roles groups].
    now rewrite <- app_assoc.
Qed.

Lemma exec_roles (vs : list pyval) (f : nat) (rest : string) (st : registry) :
  forallb literal vs = true ->
  Exec.exec_lines (List.length vs + f) (append_lines "roles" vs ++ rest) st
  = Exec.exec_lines f rest (mk_registry (services st) (roles st ++ vs) (groups st)).
Proof.
  revert st. induction vs as [|v vs IH]; intros st H.
  - simpl. rewrite app_nil_r. now destruct st.
  - simpl in H. apply andb_prop in H as [Hv H].
    cbn [append_lines List.length Nat.add]. rewrite append_assoc, append_line_repr by exact Hv.
    change ("roles" ++ ".append(") with "roles.append(".
    rewrite exec_roles_line by now apply literal_wf.
    rewrite IH by exact H. unfold Exec.append_role. cbn [services roles groups].
    now rewrite <- app_assoc.
Qed.

Lemma skip_line_app (a rest : string) :
  Str.mem (ascii_of_nat 10) a = false ->
  Exec.skip_line (a ++ Str.nl ++ rest) = rest.
Proof.
  induction a as [|x a IH]; intros H; [reflexivity |].
  change (Str.mem (ascii_of_nat 10) (String x a))
    with (Ascii.eqb (ascii_of_nat 10) x || Str.mem (ascii_of_nat 10) a) in H.
  apply orb_false_elim in H as [H1 H2].
  change (String x a ++ ?y) with (String x (a ++ y)). cbn [Exec.skip_line].
  unfold Exec.is_nl. rewrite Ascii.eqb_sym, H1. now apply IH.
Qed.

Lemma exec_comment (f : nat) (a rest : string) (st : registry) :
  Str.mem (ascii_of_nat 10) a = false ->
  Exec.exec_lines (S f) (String "#" (a ++ Str.nl ++ rest)) st = Exec.exec_lines f rest st.
Proof.
  intros H. rewrite exec_lines_step.
  change (Exec.is_nl "#") with false. change (Ascii.eqb "#" "#") with true. cbv iota.
  now rewrite skip_line_app.
Qed.

Lemma render_clean (services roles : list pyval) (groups : dict) :
  render 4 (template services roles groups) = clean_code services roles groups.
Proof.
  unfold template, clean_code.
  rewrite !render_app, !append_lines_render.
  cbn [render render_seg Nat.ltb Nat.leb repl Py.str header_line].
  rewrite !append_assoc, ?append_nil_r. reflexivity.
Qed.

Lemma exec_clean (ss rs : list pyval) (gs : dict) (f : nat) :
  forallb literal ss = true -> forallb literal rs = true ->
  wf (PDict gs) = true ->
  Exec.exec_lines (5 + (List.length ss + (2 + (List.length rs + (3 + S f)))))
                  (clean_code ss rs gs) (mk_registry [] [] [])
  = Some (mk_registry ss rs gs).
Proof.
  intros Hs Hr Hg. unfold clean_code.
  cbn [Nat.add].
  rewrite exec_comment by reflexivity.
  rewrite !exec_blank.
  rewrite exec_comment by reflexivity.
  rewrite exec_services by exact Hs.
  cbn [Nat.add]. rewrite exec_blank, exec_comment by reflexivity.
  rewrite exec_roles by exact Hr.
  cbn [Nat.add]. rewrite exec_blank, exec_comment by reflexivity.
  rewrite exec_groups_line by exact Hg.
  cbn [Exec.exec_lines Exec.update_groups services roles groups app].
  change (wf (PDict gs)) with (nodupb (map fst gs) && forallb (fun kv => wf (snd kv)) gs) in Hg.
  apply andb_prop in Hg as [Hg _].
  unfold Exec.update_groups. cbn [services roles groups app].
  now rewrite (update_nil gs Hg).
Qed.

Lemma length_append_lines (target : string) (vs : list pyval) :
  List.length vs <= String.length (append_lines target vs).
Proof.
  induction vs as [|v vs IH]; [simpl; lia |].
  cbn [append_lines List.length]. unfold append_line. rewrite !length_append.
  change (String.length ".append(") with 8. lia.
Qed.

Lemma exec_config_clean (services roles : list pyval) (groups : dict) :
  forallb literal services = true -> forallb literal roles = true ->
  wf (PDict groups) = true ->
  Exec.exec_config (clean_code services roles groups)
  = Some (mk_registry services roles groups).
Proof.
  intros Hs Hr Hg. unfold Exec.exec_config.
  assert (Hl : 10 + List.length services + List.length roles
               <= String.length (clean_code services roles groups)).
  { unfold clean_code. cbn [String.length]. rewrite !length_append. cbn [String.length].
    rewrite !length_append.  cbn [String.length]. rewrite !length_append.  cbn [String.length].
    rewrite !length_append.
    pose proof (length_append_lines "services" services).
    pose proof (length_append_lines "roles" roles).
    change (String.length Str.nl) with 1. lia. }
  replace (S (String.length (clean_code services roles groups)))
    with (5 + (List.length services + (2 + (List.length roles +
            (3 + S (String.length (clean_code services roles groups)
                    - (10 + List.length services + List.length roles)))))))
    by lia.
  now apply exec_clean.
Qed.

(** *** The round trip *)

Lemma expressible_parts (services roles : list pyval) (groups : dict) :
  expressible services roles groups = true ->
  forallb literal services = true /\ forallb literal roles = true /\ wf (PDict groups) = true.
Proof.
  unfold expressible, in_grammar. rewrite !andb_true_iff. tauto.
Qed.

Lemma read_written_text (services roles : list pyval) (groups : dict) :
  expressible services roles groups = true ->
  Exec.exec_config (rewrite_config (config_code services roles groups))
  = Some (mk_registry services roles groups).
Proof.
  intros H. rewrite rewrite_config_render, render_clean by exact H.
  destruct (expressible_parts _ _ _ H) as (Hs & Hr & Hg).
  now apply exec_config_clean.
Qed.

Lemma write_then_file (path : string) (ss rs : list pyval) (gs : dict) (w : world) :
  can_write w = true ->
  run_ok w (chmod_600 path) = true ->
  exists w',
    write_autogenerated_config path ss rs gs w = (Ok tt, w')
    /\ reg_file w' = Some (mk_file (config_code ss rs gs) true true).
Proof.
  intros Hw Hc.
  destruct (open_write_content (config_code ss rs gs) w Hw) as (f & Ho & Hf).
  unfold write_autogenerated_config, try_except, mbind. rewrite Ho.
  unfold run. cbn [run_ok set_reg_file set_trace reg_file]. rewrite Hc.
  rewrite effect_chmod, Hf. eexists. split; reflexivity.
Qed.

(** C1, as stated, fails: a group whose name is one of the texts the
    reader rewrites is written as it is and read back under another
    name. *)
Lemma round_trip_fails_on_rewritten_text :
  ~ (forall path ss rs gs w,
        in_grammar ss rs gs = true ->
        can_write w = true ->
        run_ok w (chmod_600 path) = true ->
        fst (read_autogenerated_config path
               (snd (write_autogenerated_config path ss rs gs w)))
        = Ok (mk_registry ss rs gs)).
Proof.
  intros H.
  specialize (H reg_path [] [] [("c.JupyterHub.services", PList [PStr "alice"])] world_fresh
                eq_refl eq_refl eq_refl).
  vm_compute in H. discriminate H.
Qed.

Example rewritten_group_name :
  fst (read_autogenerated_config reg_path
         (snd (write_autogenerated_config reg_path [] []
                 [("c.JupyterHub.services", PList [PStr "alice"])] world_fresh)))
  = Ok (mk_registry [] [] [("services", PList [PStr "alice"])]).
Proof. vm_compute. reflexivity. Qed.

(** C1, amended: for services and roles that are literals and a group
    mapping with distinct keys, in whose written text none of the four
    texts rewritten by the reader occurs, and in a world where the file
    can be written and [chmod 600] succeeds, the save returns normally and
    the load of the file it leaves gives back the same services, roles
    and groups. *)
Theorem registry_round_trip
    (path : string) (ss rs : list pyval) (gs : dict) (w : world) :
  expressible ss rs gs = true ->
  can_write w = true ->
  run_ok w (chmod_600 path) = true ->
  fst (write_autogenerated_config path ss rs gs w) = Ok tt
  /\ fst (read_autogenerated_config path (snd (write_autogenerated_config path ss rs gs w)))
     = Ok (mk_registry ss rs gs).
Proof.
  intros He Hw Hc.
  destruct (write_then_file path ss rs gs w Hw Hc) as (w' & E & Hf).
  rewrite E. cbn [fst snd]. split; [reflexivity |].
  unfold read_autogenerated_config, mbind, try_except, open_read.
  rewrite Hf. cbn [readable content].
  now rewrite (read_written_text ss rs gs He).
Qed.

Lemma registry_round_trip_witness :
  fst (write_autogenerated_config reg_path services_c1 roles_c1 groups_c1 world_fresh) = Ok tt
  /\ fst (read_autogenerated_config reg_path
            (snd (write_autogenerated_config reg_path services_c1 roles_c1 groups_c1
                    world_fresh)))
     = Ok (mk_registry services_c1 roles_c1 groups_c1).
Proof.
  apply (registry_round_trip reg_path services_c1 roles_c1 groups_c1 world_fresh);
    vm_compute; reflexivity.
Defined.
(* ===================================================================== *)
(** * Further properties of the code *)

(** ** Identity deriver *)

Lemma mem_app (c : ascii) (a b : string) :
  Str.mem c (a ++ b) = Str.mem c a || Str.mem c b.
Proof.
  induction a as [|x a IH]; [reflexivity |].
  change (String x a ++ b) with (String x (a ++ b)).
  change (Str.mem c (String x ?z)) with (Ascii.eqb c x || Str.mem c z).
  now rewrite IH, orb_assoc.
Qed.

Lemma replace_char_absent (c : ascii) (r s : string) :
  Str.mem c r = false ->
  Str.mem c (Str.replace s (String c "") r) = false.
Proof.
  intros Hr. unfold Str.replace. induction s as [|x s IH]; [reflexivity |].
  rewrite replace_from_cons.
  change (String.length (String c "") - 1) with 0.
  rewrite prefix_cons, prefix_nil, andb_true_r.
  destruct (Ascii.eqb c x) eqn:E.
  - now rewrite mem_app, Hr, IH.
  - change (Str.mem c (String x ?z)) with (Ascii.eqb c x || Str.mem c z).
    now rewrite E, IH.
Qed.

(** X1: the two titles [make_course_id] returns hold no apostrophe. *)
Theorem make_course_id_titles_without_apostrophe
    (shake : string -> string) (lti_state : dict)
    (course_id title_long title_short grader : string) :
  make_course_id shake lti_state = Ok (course_id, title_long, title_short, grader) ->
  Str.mem "'" title_long = false /\ Str.mem "'" title_short = false.
Proof.
  unfold make_course_id.
  destruct (Py.vget (get_default lti_state claim_resource_link PNone) "id"); [|discriminate].
  destruct (Py.vget (get_default lti_state claim_resource_link PNone) "title"); [|discriminate].
  destruct (Py.vget (get_default lti_state claim_context (PDict [])) "title"); [|discriminate].
  cbn [bind]. intros H. injection H as _ <- <- _.
  split; apply replace_char_absent; reflexivity.
Qed.

Lemma make_course_id_titles_without_apostrophe_witness :
  Str.mem "'" "C - Toms A1 (c-0000000000000000)" = false
  /\ Str.mem "'" "C - Toms A1" = false.
Proof.
  apply (make_course_id_titles_without_apostrophe digest_zero launch_two_titles
           "c-0000000000000000" "C - Toms A1 (c-0000000000000000)" "C - Toms A1"
           "c-0000000000000000").
  reflexivity.
Defined.

(** X2: without a resource-link claim that is a dictionary (the claim
    is absent, or is another kind of value) the derivation raises
    [AttributeError]. *)
Theorem make_course_id_needs_resource_link (shake : string -> string) (lti_state : dict) :
  (forall d, Py.get lti_state claim_resource_link <> Some (PDict d)) ->
  make_course_id shake lti_state = Raise AttributeError.
Proof.
  intros H. unfold make_course_id, get_default.
  destruct (Py.get lti_state claim_resource_link) as [[| | | | |d]|]; try reflexivity.
  exfalso. now apply (H d).
Qed.

Lemma make_course_id_needs_resource_link_witness :
  make_course_id digest_zero [(claim_deployment_id, PStr "d1")] = Raise AttributeError.
Proof.
  apply make_course_id_needs_resource_link. intros d. vm_compute. discriminate.
Defined.

Lemma take_all (n : nat) (s : string) : String.length s <= n -> Str.take n s = s.
Proof.
  unfold Str.take. revert n. induction s as [|x s IH]; intros n H.
  - destruct n; reflexivity.
  - destruct n as [|n]; [simpl in H; lia |]. simpl in *. rewrite IH; [reflexivity | lia].
Qed.

(** X3: when the digest has at most 30 characters (the 16 hexadecimal
    digits of [hexdigest(8)]), the slice [course_id[0:32]] cuts nothing:
    the grader account is named as the course, [c-] followed by the
    digest. *)
Theorem grader_user_is_course_id
    (shake : string -> string) (lti_state : dict)
    (course_id title_long title_short grader : string) :
  (forall text, String.length (shake text) <= 30) ->
  make_course_id shake lti_state = Ok (course_id, title_long, title_short, grader) ->
  grader = course_id /\ String.prefix "c-" course_id = true.
Proof.
  intros Hs. unfold make_course_id.
  destruct (Py.vget (get_default lti_state claim_resource_link PNone) "id"); [|discriminate].
  destruct (Py.vget (get_default lti_state claim_resource_link PNone) "title"); [|discriminate].
  destruct (Py.vget (get_default lti_state claim_context (PDict [])) "title"); [|discriminate].
  cbn [bind]. intros H. injection H as <- _ _ <-. split.
  - apply take_all.
    match goal with |- context [shake ?t] => specialize (Hs t) end.
    cbn [String.length append]. lia.
  - apply (prefix_app "c-").
Qed.

Lemma grader_user_is_course_id_witness :
  "c-0000000000000000" = "c-0000000000000000"
  /\ String.prefix "c-" "c-0000000000000000" = true.
Proof.
  apply (grader_user_is_course_id digest_zero launch_two_titles
           "c-0000000000000000" "C - Toms A1 (c-0000000000000000)" "C - Toms A1"
           "c-0000000000000000").
  - intros text. vm_compute. lia.
  - reflexivity.
Defined.

(** ** Base URL of the hub *)

Lemma split_from_nonempty (skip : nat) (sep cur s : string) :
  Str.split_from skip sep cur s <> [].
Proof.
  revert skip cur. induction s as [|x s IH]; intros skip cur; cbn [Str.split_from];
    [discriminate |].
  destruct skip as [|k]; [| apply IH].
  destruct (String.prefix sep (String x s)); [discriminate | apply IH].
Qed.

Lemma index_last {A} (l : list A) : l <> [] -> exists a, Str.index l (-1) = Ok a.
Proof.
  intros H. unfold Str.index. cbn [Z.ltb Z.compare].
  assert (Hn : 0 < List.length l) by (destruct l; [congruence | simpl; lia]).
  replace ((0 <=? Z.of_nat (List.length l) + -1)%Z) with true
    by (symmetry; apply Z.leb_le; lia).
  replace ((Z.of_nat (List.length l) + -1 <? Z.of_nat (List.length l))%Z) with true
    by (symmetry; apply Z.ltb_lt; lia).
  cbn [andb].
  destruct (nth_error l (Z.to_nat (Z.of_nat (List.length l) + -1))) eqn:E; [eauto |].
  apply nth_error_None in E. lia.
Qed.

Lemma endswith_app (a b : string) : Str.endswith (a ++ b) b = true.
Proof.
  unfold Str.endswith. rewrite length_append.
  replace (String.length a + String.length b - String.length b) with (String.length a) by lia.
  rewrite drop_app, String.eqb_refl, andb_true_r. apply Nat.leb_le. lia.
Qed.

(** X4: for every target link URI that is a string, the base URL is
    found, and it is empty or ends with a slash, so that the paths the
    routes put behind it stay well formed. *)
Theorem hub_base_url_shape (lti_state : dict) (uri : string) :
  Py.get lti_state claim_target_link_uri = Some (PStr uri) ->
  exists base_url,
    get_hub_base_url lti_state = Ok base_url
    /\ (base_url = "" \/ Str.endswith base_url "/" = true).
Proof.
  intros H. unfold get_hub_base_url, Py.getitem. rewrite H. cbn [bind].
  destruct (index_last (Str.split (Str.strip uri "/") "://")) as [last E].
  { apply split_from_nonempty. }
  rewrite E. cbn [bind]. eexists. split; [reflexivity |].
  destruct (String.eqb _ "/"); [now left | right]. apply endswith_app.
Qed.

Lemma hub_base_url_shape_witness :
  exists base_url,
    get_hub_base_url [(claim_target_link_uri, PStr "https://hub.example.org/jhub/hub/lti13/launch")]
    = Ok base_url
    /\ (base_url = "" \/ Str.endswith base_url "/" = true).
Proof.
  apply (hub_base_url_shape _ "https://hub.example.org/jhub/hub/lti13/launch"). reflexivity.
Defined.

(** X5: a launch snapshot without the target link URI makes
    [get_hub_base_url] raise [KeyError]. *)
Theorem hub_base_url_missing_claim (lti_state : dict) :
  Py.get lti_state claim_target_link_uri = None ->
  get_hub_base_url lti_state = Raise KeyError.
Proof. intros H. unfold get_hub_base_url, Py.getitem. now rewrite H. Qed.

Lemma hub_base_url_missing_claim_witness :
  get_hub_base_url [(claim_deployment_id, PStr "d1")] = Raise KeyError.
Proof. apply hub_base_url_missing_claim. reflexivity. Defined.

(** ** Registry store: loading *)

Lemma exec_empty_text : Exec.exec_config (rewrite_config "") = Some (mk_registry [] [] []).
Proof. reflexivity. Qed.

(** X6: when there is no registry file and one can be made, the load
    writes the text of the empty registry, runs [chmod 600] on it and
    returns the empty registry. *)
Theorem load_creates_empty_registry (path : string) (w : world) :
  reg_file w = None -> reg_creatable w = true -> run_ok w (chmod_600 path) = true ->
  read_autogenerated_config path w
  = (Ok (mk_registry [] [] []),
     set_reg_file (Some (mk_file (config_code [] [] []) true true))
                  (set_trace (trace w ++ [chmod_600 path])%list w)).
Proof.
  intros Hf Hc Hr.
  unfold read_autogenerated_config, mbind, try_except, open_read. rewrite Hf.
  unfold write_autogenerated_config, try_except, mbind, open_write, can_write.
  rewrite Hf, Hc. unfold run. cbn [run_ok set_reg_file set_trace reg_file trace].
  rewrite Hr, effect_chmod. cbn [mret content]. rewrite exec_empty_text. reflexivity.
Qed.

Lemma load_creates_empty_registry_witness :
  fst (read_autogenerated_config reg_path world_fresh) = Ok (mk_registry [] [] []).
Proof.
  rewrite (load_creates_empty_registry reg_path world_fresh); reflexivity.
Defined.





(** X9: when the load makes the missing registry file and [chmod 600]
    on it fails, the load raises [AutogeneratedFileError]; the file with
    the text of the empty registry stays. *)
Theorem load_creation_chmod_failure (path : string) (w : world) :
  reg_file w = None -> reg_creatable w = true -> run_ok w (chmod_600 path) = false ->
  read_autogenerated_config path w
  = (Raise AutogeneratedFileError,
     set_trace (trace w ++ [chmod_600 path])%list
               (set_reg_file (Some (mk_file (config_code [] [] []) true true)) w)).
Proof.
  intros Hf Hc Hr.
  unfold read_autogenerated_config, mbind, try_except, open_read. rewrite Hf.
  unfold write_autogenerated_config, try_except, mbind, open_write, can_write.
  rewrite Hf, Hc. unfold run. cbn [run_ok set_reg_file set_trace reg_file trace].
  rewrite Hr. reflexivity.
Qed.

Lemma load_creation_chmod_failure_witness :
  fst (read_autogenerated_config reg_path world_fresh_chmod_fails)
  = Raise AutogeneratedFileError.
Proof.
  rewrite (load_creation_chmod_failure reg_path world_fresh_chmod_fails); reflexivity.
Defined.

(** ** Name deduplicator *)

Lemma mapM_length {A B} (f : A -> result B) (l : list A) (bs : list B) :
  mapM f l = Ok bs -> List.length bs = List.length l.
Proof.
  revert bs. induction l as [|a l IH]; intros bs; cbn [mapM].
  - intros H. injection H as <-. reflexivity.
  - destruct (f a); [|discriminate]. cbn [bind].
    destruct (mapM f l) as [bs'|]; [|discriminate]. cbn [bind].
    intros H. injection H as <-. cbn [List.length]. now rewrite (IH bs').
Qed.

(** A pass of the loop that returns has changed nothing but the
    underscores: the branch for repeated names never returns. *)
Lemma unique_pass_inv (content_names out : list string) :
  unique_pass content_names = Ok out ->
  out = map (fun name => Str.replace name "_" " ") content_names.
Proof.
  unfold unique_pass, Np.unique.
  destruct (Np.all_one _); cbn [negb bind dict_of_typing_Counter_subscript].
  - intros H. now injection H as <-.
  - discriminate.
Qed.

Lemma generate_unique_names_inv (f : fs) (content : Content) (active_paths : list string)
    (backed_up_paths : option (list string)) (names : list string) :
  generate_unique_names f content active_paths backed_up_paths = Ok names ->
  exists active_names backed_up_names,
    mapM (active_name f content) active_paths = Ok active_names
    /\ mapM (backed_up_name content) (backups backed_up_paths) = Ok backed_up_names
    /\ names = map (fun name => Str.replace name "_" " ") (active_names ++ backed_up_names)%list.
Proof.
  unfold generate_unique_names.
  destruct (mapM (active_name f content) active_paths) as [an|]; [|discriminate].
  cbn [bind]. destruct backed_up_paths as [[|p l]|]; cbn [given backups bind mapM].
  - destruct (unique_pass an) as [o|] eqn:E; [|discriminate]. cbn [bind List.concat].
    intros H. injection H as <-. exists an, []. rewrite !app_nil_r.
    now rewrite (unique_pass_inv _ _ E).
  - fold (mapM (backed_up_name content) l).
    destruct (backed_up_name content p) as [b|]; [|discriminate]. cbn [bind].
    destruct (mapM (backed_up_name content) l) as [bs|]; [|discriminate]. cbn [bind].
    destruct (unique_pass an) as [o|] eqn:E; [|discriminate]. cbn [bind].
    destruct (unique_pass (b :: bs)) as [o'|] eqn:E'; [|discriminate]. cbn [bind List.concat].
    intros H. injection H as <-. exists an, (b :: bs). rewrite app_nil_r, map_app.
    now rewrite (unique_pass_inv _ _ E), (unique_pass_inv _ _ E').
  - destruct (unique_pass an) as [o|] eqn:E; [|discriminate]. cbn [bind List.concat].
    intros H. injection H as <-. exists an, []. rewrite !app_nil_r.
    now rewrite (unique_pass_inv _ _ E).
Qed.

Lemma generate_unique_names_length (f : fs) (content : Content)
    (active_paths : list string) (backed_up_paths : option (list string))
    (names : list string) :
  generate_unique_names f content active_paths backed_up_paths = Ok names ->
  List.length names = List.length active_paths + List.length (backups backed_up_paths).
Proof.
  intros H. destruct (generate_unique_names_inv _ _ _ _ _ H) as (an & bn & Ha & Hb & ->).
  pose proof (mapM_length _ _ _ Ha) as La. pose proof (mapM_length _ _ _ Hb) as Lb.
  rewrite length_map, length_app. lia.
Qed.

(** X10: when [generate_unique_names] returns, it returns one name for
    each path, the names of the active paths first and in the order of
    the paths: each is the label of its path with the underscores turned
    into spaces.  The names are not sorted and carry no counter. *)
Theorem unique_names_follow_paths (f : fs) (content : Content) (active_paths : list string)
    (backed_up_paths : option (list string)) (names : list string) :
  generate_unique_names f content active_paths backed_up_paths = Ok names ->
  List.length names = List.length active_paths + List.length (backups backed_up_paths)
  /\ exists active_names,
       mapM (active_name f content) active_paths = Ok active_names
       /\ firstn (List.length active_paths) names
          = map (fun name => Str.replace name "_" " ") active_names.
Proof.
  intros H. split; [now apply (generate_unique_names_length f content) |].
  destruct (generate_unique_names_inv _ _ _ _ _ H) as (an & bn & Ha & Hb & ->).
  pose proof (mapM_length _ _ _ Ha) as La.
  { exists an. split; [assumption |].
    rewrite map_app, <- La, <- (length_map (fun name => Str.replace name "_" " ") an).
    rewrite firstn_app, firstn_all, Nat.sub_diag. cbn [firstn]. now rewrite app_nil_r. }
Qed.

Lemma unique_names_follow_paths_witness :
  List.length ["Foo"; "Bar 1"] = 2 + 0
  /\ exists active_names,
       mapM (active_name fs_titles COURSES) ["/home/c-1/course_data"; "/home/c-3/course_data"]
       = Ok active_names
       /\ firstn 2 ["Foo"; "Bar 1"]
          = map (fun name => Str.replace name "_" " ") active_names.
Proof.
  apply (unique_names_follow_paths fs_titles COURSES
           ["/home/c-1/course_data"; "/home/c-3/course_data"] None ["Foo"; "Bar 1"]).
  reflexivity.
Defined.

(** X11: no name that [generate_unique_names] returns holds an
    underscore. *)
Theorem unique_names_without_underscore (f : fs) (content : Content)
    (active_paths : list string) (backed_up_paths : option (list string))
    (names : list string) (name : string) :
  generate_unique_names f content active_paths backed_up_paths = Ok names ->
  In name names ->
  Str.mem "_" name = false.
Proof.
  intros H Hin. destruct (generate_unique_names_inv _ _ _ _ _ H) as (an & bn & _ & _ & ->).
  apply in_map_iff in Hin as (x & <- & _).
  now apply replace_char_absent.
Qed.

Lemma unique_names_without_underscore_witness : Str.mem "_" "Bar 1" = false.
Proof.
  apply (unique_names_without_underscore fs_titles COURSES
           ["/home/c-1/course_data"; "/home/c-3/course_data"] None ["Foo"; "Bar 1"] "Bar 1").
  - reflexivity.
  - simpl. auto.
Defined.

(** X12: when the [info.json] of the first active path cannot be
    opened, [generate_unique_names] raises [InfoFileError], whatever
    the other paths are. *)
Theorem unique_names_need_info_file (f : fs) (content : Content) (active_path : string)
    (active_paths : list string) (backed_up_paths : option (list string)) (user_name : string) :
  Str.index (Str.split active_path "/") 2 = Ok user_name ->
  info_json f ("/home/" ++ user_name ++ "/course_data/info.json") = None ->
  generate_unique_names f content (active_path :: active_paths) backed_up_paths
  = Raise InfoFileError.
Proof.
  intros Hu Hi. unfold generate_unique_names. cbn [mapM].
  unfold active_name at 1. rewrite Hu. cbn [bind]. unfold load_info. rewrite Hi. reflexivity.
Qed.

Lemma unique_names_need_info_file_witness :
  generate_unique_names fs_titles ASSIGNMENTS
    ["/home/c-9/course_data/source/a1"; "/home/c-1/course_data/source/a1"] None
  = Raise InfoFileError.
Proof.
  apply (unique_names_need_info_file fs_titles ASSIGNMENTS _ _ None "c-9"); reflexivity.
Defined.

(** ** The listing *)

(** For a user that is given, the comprehension is the one of
    [get_active_paths]. *)
Lemma owned_groups_of_str (user_name : string) (groups : dict) :
  owned_groups_of (PStr user_name) groups = owned_groups user_name groups.
Proof.
  induction groups as [|[group members] groups IH]; [reflexivity |].
  cbn [owned_groups_of owned_groups]. now rewrite IH.
Qed.

Lemma get_active_paths_of_some (shake : string -> string) (f : fs) (user_name : string)
    (groups : dict) (content : Content) (subset : Subset) :
  get_active_paths_of shake f (Some user_name) groups content subset
  = get_active_paths shake f user_name groups content subset.
Proof.
  unfold get_active_paths_of, get_active_paths.
  destruct (Subset_eqb subset ALL || Subset_eqb subset ACTIVE); [| reflexivity].
  cbn [user_value]. now rewrite owned_groups_of_str.
Qed.

(** X13: [get_list] returns a listing for the subset [ACTIVE] only.  For
    every other subset, and so for the default [ALL], the call ends with
    a failure response or with an exception: the test that follows the
    check for active paths evaluates [Subset.CURRENT], which the
    enumeration does not have. *)
Theorem get_list_lists_active_only
    (shake : string -> string) (is_os_error : bool) (f : fs) (path : string)
    (user_name : option string) (content : Content) (subset : Subset) (w : world)
    (message : string) (names paths : list string) :
  Subset_eqb subset ACTIVE = false ->
  fst (get_list shake is_os_error f path user_name content subset w)
  <> Ok (Some (Listing message names paths)).
Proof.
  intros Hs. unfold get_list, mbind, try_except.
  destruct (read_autogenerated_config path w) as [[reg|e] w1]; cbn [mret].
  - unfold lift.
    destruct (get_active_paths_of shake f user_name (groups reg) content subset) as [ap|e];
      [| cbn; discriminate].
    destruct (no_paths ap); [cbn; discriminate |].
    rewrite Hs. cbn. discriminate.
  - destruct e; cbn; discriminate.
Qed.

Lemma get_list_lists_active_only_witness :
  fst (get_list digest_zero true fs_hidden reg_path (Some "alice") ASSIGNMENTS ALL
                (set_reg_file (Some (mk_file (config_code [] [] groups_alice) true true))
                              world_fresh))
  <> Ok (Some (Listing "List of assignments successfully retrieved."
                       ["a1"] ["/home/c-1/course_data/source/a1"])).
Proof. apply get_list_lists_active_only. reflexivity. Defined.

(** X14: the route of the assignment list calls [get_list] with the
    default subset.  When the registry is loaded and the user has
    active paths, the call ends with [AttributeError]; the clause for
    [ValueError] does not catch it, and no response is returned. *)
Theorem assignments_GET_raises
    (shake : string -> string) (is_os_error : bool) (f : fs) (path : string)
    (user_name : option string) (w w1 : world) (reg : registry)
    (active_path : string) (active_paths : list string) :
  read_autogenerated_config path w = (Ok reg, w1) ->
  get_active_paths_of shake f user_name (groups reg) ASSIGNMENTS ALL
  = Ok (Some (active_path :: active_paths)) ->
  assignments_GET shake is_os_error f path user_name w = (Raise AttributeError, w1).
Proof.
  intros Hr Ha. unfold assignments_GET, get_list, mbind, try_except.
  rewrite Hr. cbn [mret]. unfold lift. rewrite Ha. reflexivity.
Qed.

Lemma assignments_GET_raises_witness :
  assignments_GET digest_zero true fs_hidden reg_path (Some "alice") world_alice
  = (Raise AttributeError, world_alice).
Proof.
  apply (assignments_GET_raises digest_zero true fs_hidden reg_path (Some "alice")
           world_alice world_alice (mk_registry [] [] groups_alice)
           "/home/c-1/course_data/source/.hidden" ["/home/c-1/course_data/source/a1"]);
    reflexivity.
Defined.

(** X15: in a listing of the active content there are as many names as
    paths, and at least one path. *)
Theorem active_listing_is_aligned
    (shake : string -> string) (is_os_error : bool) (f : fs) (path : string)
    (user_name : option string) (content : Content) (w : world)
    (message : string) (names paths : list string) :
  fst (get_list shake is_os_error f path user_name content ACTIVE w)
  = Ok (Some (Listing message names paths)) ->
  List.length names = List.length paths
  /\ paths <> []
  /\ message = "List of " ++ Content_value content ++ " successfully retrieved.".
Proof.
  unfold get_list, mbind, try_except.
  destruct (read_autogenerated_config path w) as [[reg|e] w1]; cbn [mret].
  - unfold lift.
    destruct (get_active_paths_of shake f user_name (groups reg) content ACTIVE) as [ap|e];
      [| cbn; discriminate].
    destruct ap as [[|p ps]|]; cbn [no_paths paths_of]; try (cbn; discriminate).
    cbn [Subset_eqb].
    destruct (generate_unique_names f content (p :: ps) None) as [ns|e] eqn:E;
      cbn [names_or_failure].
    + cbn [fst]. intros H. injection H as <- <- <-.
      pose proof (generate_unique_names_length _ _ _ _ _ E) as L.
      cbn [backups List.length] in L. cbn [List.length].
      repeat split; [lia | discriminate].
    + destruct e, is_os_error; cbn; discriminate.
  - destruct e; cbn; discriminate.
Qed.

Lemma active_listing_is_aligned_witness :
  List.length ["Foo"] = List.length ["/home/c-1/course_data"]
  /\ ["/home/c-1/course_data"] <> []
  /\ "List of courses successfully retrieved."
     = "List of " ++ Content_value COURSES ++ " successfully retrieved.".
Proof.
  apply (active_listing_is_aligned digest_zero true fs_course reg_path (Some "alice") COURSES
           world_alice "List of courses successfully retrieved."
           ["Foo"] ["/home/c-1/course_data"]).
  reflexivity.
Defined.





(** X17: when the registry file is missing, is made by the load, and
    [chmod 600] on it fails, [get_list] answers the failure
    [AutogeneratedFileError] with status 500; the new file stays. *)
Theorem listing_reports_registry_failure
    (shake : string -> string) (is_os_error : bool) (f : fs) (path : string)
    (user_name : option string) (content : Content) (subset : Subset) (w : world) :
  reg_file w = None -> reg_creatable w = true -> run_ok w (chmod_600 path) = false ->
  get_list shake is_os_error f path user_name content subset w
  = (Ok (Some (Failure (mk_response "AutogeneratedFileError" 500))),
     set_trace (trace w ++ [chmod_600 path])%list
               (set_reg_file (Some (mk_file (config_code [] [] []) true true)) w)).
Proof.
  intros Hf Hc Hr.
  unfold get_list, mbind, try_except.
  unfold read_autogenerated_config, mbind, try_except, open_read. rewrite Hf.
  unfold write_autogenerated_config, try_except, mbind, open_write, can_write.
  rewrite Hf, Hc. unfold run. cbn [run_ok set_reg_file set_trace reg_file trace].
  rewrite Hr. reflexivity.
Qed.

Lemma listing_reports_registry_failure_witness :
  fst (get_list digest_zero true fs_course reg_path (Some "alice") COURSES ACTIVE
                world_fresh_chmod_fails)
  = Ok (Some (Failure (mk_response "AutogeneratedFileError" 500))).
Proof.
  rewrite (listing_reports_registry_failure digest_zero true fs_course reg_path (Some "alice")
             COURSES ACTIVE world_fresh_chmod_fails); reflexivity.
Defined.

(** ** Routes *)

Lemma effect_other (path : string) (argv : list string) (f : option file) :
  hd "" argv <> "chmod" -> effect_on_registry path argv f = f.
Proof.
  intros H. unfold effect_on_registry.
  destruct (list_eq_dec string_dec argv (chmod_600 path)) as [E|_]; [| reflexivity].
  exfalso. apply H. rewrite E. reflexivity.
Qed.

(** A checked subprocess other than [chmod]. *)
Lemma run_checked (path : string) (argv : list string) (w : world) :
  hd "" argv <> "chmod" ->
  run path true argv w
  = (if run_ok w argv then Ok tt else Raise CalledProcessError,
     set_trace (trace w ++ [argv])%list w).
Proof.
  intros H. unfold run. destruct (run_ok w argv); [| reflexivity].
  rewrite effect_other by assumption.
  destruct w; reflexivity.
Qed.

(** An unchecked subprocess other than [chmod]. *)
Lemma run_unchecked (path : string) (argv : list string) (w : world) :
  hd "" argv <> "chmod" ->
  run path false argv w = (Ok tt, set_trace (trace w ++ [argv])%list w).
Proof.
  intros H. unfold run. destruct (run_ok w argv); [| reflexivity].
  rewrite effect_other by assumption.
  destruct w; reflexivity.
Qed.

Lemma guarded_one (path : string) (argv : list string) (w : world) :
  hd "" argv <> "chmod" ->
  guarded path [argv] w
  = (if run_ok w argv then Ok (inr tt) else Ok (inl (mk_response "CalledProcessError" 500)),
     set_trace (trace w ++ [argv])%list w).
Proof.
  intros H. unfold guarded, try_except, mbind, run_. cbn [for_each].
  unfold mbind. rewrite run_checked by assumption.
  destruct (run_ok w argv); reflexivity.
Qed.

(** X18: a backup request without the key [user] or without the key
    [path] is answered with [KeyError] and status 500; nothing is
    copied. *)
Theorem backup_needs_user_and_path (path date_time : string) (json : dict) (w : world) :
  Py.get json "user" = None \/ Py.get json "path" = None ->
  courses_PUT path date_time json w = (Ok (mk_response "KeyError" 500), w).
Proof.
  intros [H|H]; unfold courses_PUT; rewrite H; [reflexivity |].
  destruct (Py.get json "user"); reflexivity.
Qed.

Lemma backup_needs_user_and_path_witness :
  courses_PUT reg_path "2024" [("user", PStr "alice"); ("name", PStr "c")] world_fresh
  = (Ok (mk_response "KeyError" 500), world_fresh).
Proof. apply backup_needs_user_and_path. right. reflexivity. Defined.

(** X19: in a backup the copy is run first; when it fails the route
    answers [CalledProcessError] with status 500 and the change of
    owner is not run. *)
Theorem backup_stops_at_copy (path date_time : string) (json : dict) (w : world)
    (user_name name : pyval) (src : string) :
  Py.get json "user" = Some user_name ->
  Py.get json "path" = Some (PStr src) ->
  Py.get json "name" = Some name ->
  run_ok w ["cp"; "-r"; Str.removesuffix src "/"; backup_dst date_time user_name name] = false ->
  courses_PUT path date_time json w
  = (Ok (mk_response "CalledProcessError" 500),
     set_trace (trace w ++ [["cp"; "-r"; Str.removesuffix src "/";
                             backup_dst date_time user_name name]])%list w).
Proof.
  intros Hu Hp Hn Hc. unfold courses_PUT. rewrite Hu, Hp. unfold mbind, lift.
  cbn [removesuffix_slash]. rewrite Hn.
  unfold andthen, guarded, try_except, mbind, run_. cbn [for_each]. unfold mbind.
  rewrite run_checked by discriminate. rewrite Hc. reflexivity.
Qed.

Lemma backup_stops_at_copy_witness :
  courses_PUT reg_path "2024" backup_request world_failing
  = (Ok (mk_response "CalledProcessError" 500),
     set_trace [["cp"; "-r"; "/home/c-1/course_data";
                 "/var/lib/private/alice/Course 1_2024/"]] world_failing).
Proof.
  apply (backup_stops_at_copy reg_path "2024" backup_request world_failing
           (PStr "alice") (PStr "Course 1") "/home/c-1/course_data/"); reflexivity.
Defined.

(** X20: when the copy and the change of owner succeed, the backup
    runs exactly these two commands, in this order, with the source path
    without its trailing slash and the destination
    [/var/lib/private/<user>/<name>_<time>/], and answers 200. *)
Theorem backup_succeeds (path date_time : string) (json : dict) (w : world)
    (user_name name : pyval) (src : string) :
  Py.get json "user" = Some user_name ->
  Py.get json "path" = Some (PStr src) ->
  Py.get json "name" = Some name ->
  run_ok w ["cp"; "-r"; Str.removesuffix src "/"; backup_dst date_time user_name name] = true ->
  run_ok w ["chown"; "-R"; Py.str user_name ++ ":" ++ Py.str user_name;
            backup_dst date_time user_name name] = true ->
  courses_PUT path date_time json w
  = (Ok (mk_response "Selected course backed up successfully!" 200),
     set_trace (trace w ++ [["cp"; "-r"; Str.removesuffix src "/";
                             backup_dst date_time user_name name];
                            ["chown"; "-R";
                             (Py.str user_name ++ ":" ++ Py.str user_name)%string;
                             backup_dst date_time user_name name]])%list w).
Proof.
  intros Hu Hp Hn Hc Ho. unfold courses_PUT. rewrite Hu, Hp. unfold mbind, lift.
  cbn [removesuffix_slash]. rewrite Hn.
  unfold andthen, guarded, try_except, mbind, run_. cbn [for_each]. unfold mbind.
  rewrite run_checked by discriminate. rewrite Hc.
  rewrite run_checked by discriminate. cbn [run_ok set_trace]. rewrite Ho.
  cbn [mret trace set_trace]. rewrite <- app_assoc. reflexivity.
Qed.

Lemma backup_succeeds_witness :
  courses_PUT reg_path "2024" backup_request world_fresh
  = (Ok (mk_response "Selected course backed up successfully!" 200),
     set_trace [["cp"; "-r"; "/home/c-1/course_data";
                 "/var/lib/private/alice/Course 1_2024/"];
                ["chown"; "-R"; "alice:alice"; "/var/lib/private/alice/Course 1_2024/"]]
               world_fresh).
Proof.
  apply (backup_succeeds reg_path "2024" backup_request world_fresh
           (PStr "alice") (PStr "Course 1") "/home/c-1/course_data/"); reflexivity.
Defined.

(** ** Equality of values *)

Lemma get_in_nodup (d : dict) (k : string) (v : pyval) :
  nodupb (map fst d) = true -> In (k, v) d -> Py.get d k = Some v.
Proof.
  induction d as [|[k' v'] d IH]; intros Hn Hin; [destruct Hin |].
  cbn [map fst] in Hn. apply nodupb_cons in Hn as [Hk Hn].
  cbn [Py.get]. destruct Hin as [E | Hin].
  - injection E as -> ->. now rewrite String.eqb_refl.
  - destruct (String.eqb_spec k k') as [-> | _]; [| now apply IH].
    exfalso. apply Hk. apply in_map_iff. now exists (k', v).
Qed.

(** A value is equal to itself. *)
Lemma eqb_refl (v : pyval) : wf v = true -> Py.eqb v v = true.
Proof.
  induction v as [| b | z | s | l IH | d IH] using pyval_induction; intros Hw.
  - reflexivity.
  - destruct b; reflexivity.
  - apply Z.eqb_refl.
  - apply String.eqb_refl.
  - cbn [wf] in Hw. cbn [Py.eqb].
    induction IH as [|x l Hx _ IHl]; [reflexivity |].
    cbn [forallb] in Hw. apply andb_true_iff in Hw as [Hwx Hwl].
    rewrite (Hx Hwx). cbn [andb]. now apply IHl.
  - cbn [wf] in Hw. apply andb_true_iff in Hw as [Hn Hw].
    cbn [Py.eqb]. rewrite Nat.eqb_refl. cbn [andb].
    assert (G : forall d1, (forall k v, In (k, v) d1 -> In (k, v) d) ->
                (fix go (d1 : list (string * pyval)) : bool :=
                   match d1 with
                   | [] => true
                   | (k, v) :: d1' =>
                       match Py.get d k with
                       | Some v' => Py.eqb v v'
                       | None => false
                       end && go d1'
                   end) d1 = true).
    { induction d1 as [|[k v] d1 IHd]; intros Hsub; [reflexivity |].
      rewrite (get_in_nodup d k v Hn) by (apply Hsub; now left).
      rewrite IHd by (intros k' v' H'; apply Hsub; now right).
      rewrite andb_true_r.
      rewrite Forall_forall in IH. apply (IH (k, v)).
      - apply Hsub. now left.
      - rewrite forallb_forall in Hw. apply (Hw (k, v)). apply Hsub. now left. }
    apply G. auto.
Qed.

Lemma append_inj_r (a b c : string) : a ++ c = b ++ c -> a = b.
Proof.
  intros H.
  assert (L : String.length a = String.length b).
  { apply (f_equal String.length) in H. rewrite !length_append in H. lia. }
  revert b H L. induction a as [|x a IH]; intros [|y b] H L; try discriminate L.
  - reflexivity.
  - cbn [append] in H. injection H as -> H. f_equal. apply IH; [exact H |].
    cbn [String.length] in L. lia.
Qed.

Lemma course_role_is_not_service_role (course_id : string) :
  course_id <> "service" ->
  String.eqb ("formgrader-" ++ course_id ++ "-role") "formgrader-service-role" = false.
Proof.
  intros H. apply String.eqb_neq. intros E. apply H.
  cbn [append] in E. injection E as E.
  apply (append_inj_r course_id "service" "-role"). exact E.
Qed.

(** ** Removal of a course: the loops over roles and services *)

(** X24: the loop over the roles deletes from the list it iterates
    over.  When the role of the course stands first, the loop goes on
    at index 1 of the shortened list: the role that followed the deleted
    one is passed over, and with it the removal of the course from the
    services of [formgrader-service-role] when that is the role that
    followed. *)
Theorem roles_loop_skips_next (course_id : string) (d : dict) (roles : list pyval) (n : nat) :
  wf (PDict d) = true ->
  Py.get d "name" = Some (PStr ("formgrader-" ++ course_id ++ "-role")) ->
  course_id <> "service" ->
  roles_loop (S n) 0 course_id (PDict d :: roles) = roles_loop n 1 course_id roles.
Proof.
  intros Hw Hn Hc. cbn [roles_loop nth_error Py.vget]. rewrite Hn. cbn [bind Py.eqb].
  rewrite String.eqb_refl. cbn [Py.list_index]. rewrite (eqb_refl (PDict d) Hw).
  cbn [Nat.eqb Py.remove_at]. rewrite (course_role_is_not_service_role course_id Hc).
  reflexivity.
Qed.

Lemma roles_loop_skips_next_witness :
  roles_loop 3 0 "c-1" roles_c1 = roles_loop 2 1 "c-1" (List.tl roles_c1)
  /\ roles_loop 2 1 "c-1" (List.tl roles_c1) = Ok (List.tl roles_c1).
Proof.
  split; [| reflexivity].
  apply (roles_loop_skips_next "c-1"
           [("name", PStr "formgrader-c-1-role");
            ("groups", PList [PStr "formgrade-c-1"]);
            ("scopes", PList [PStr "access:services!service=c-1"])]).
  - reflexivity.
  - reflexivity.
  - discriminate.
Defined.

Lemma list_index_lt (l : list pyval) (x : pyval) (j : nat) :
  Py.list_index l x = Some j -> j < List.length l.
Proof.
  revert j. induction l as [|y l IH]; intros j; cbn [Py.list_index]; [discriminate |].
  destruct (Py.eqb y x).
  - intros H. injection H as <-. cbn. lia.
  - destruct (Py.list_index l x) as [m|]; [| discriminate].
    intros H. injection H as <-. cbn. specialize (IH m eq_refl). lia.
Qed.

(** X25: the loop over the services ends at the first service that
    carries the name of the course: at most one service is taken out of
    the list, and the other services keep their order. *)
Theorem services_loop_removes_one (services rest out : list pyval) (course_id : string) :
  services_loop services rest course_id = Ok out ->
  out = services
  \/ exists j, j < List.length services /\ out = Py.remove_at j services.
Proof.
  induction rest as [|service rest IH]; cbn [services_loop].
  - intros H. injection H as <-. now left.
  - destruct (service_name service) as [name|]; [| discriminate]. cbn [bind].
    destruct (Py.eqb name (PStr course_id)); [| exact IH].
    destruct (Py.list_index services service) as [j|] eqn:E; intros H; injection H as <-.
    + right. exists j. split; [now apply (list_index_lt services service) | reflexivity].
    + now left.
Qed.

Lemma services_loop_removes_one_witness :
  List.tl services_twice = services_twice
  \/ exists j, j < List.length services_twice
               /\ List.tl services_twice = Py.remove_at j services_twice.
Proof.
  apply (services_loop_removes_one services_twice services_twice (List.tl services_twice) "c-1").
  reflexivity.
Defined.

(** ** Reset and removal of a course *)

(** X21: a reset or removal request without the key [user] is answered
    with [KeyError] and status 500, and nothing is read, run or
    removed. *)
Theorem reset_and_removal_need_user (path token : string) (json : dict)
    (reader : pyval -> string -> lti_file_reader) (w : world) :
  Py.get json "user" = None ->
  courses_PATCH path token json reader w = (Ok (mk_response "KeyError" 500), w)
  /\ courses_DELETE path json reader w = (Ok (mk_response "KeyError" 500), w).
Proof.
  intros H. unfold courses_PATCH, courses_DELETE, andthen, request_user, mbind.
  rewrite H. split; reflexivity.
Qed.

Lemma reset_and_removal_need_user_witness :
  courses_PATCH reg_path "secret" [("path", PStr "/home/c-1")] (fun _ _ => launch_c1)
                world_curl_fails
  = (Ok (mk_response "KeyError" 500), world_curl_fails)
  /\ courses_DELETE reg_path [("path", PStr "/home/c-1")] (fun _ _ => launch_c1)
                    world_curl_fails
     = (Ok (mk_response "KeyError" 500), world_curl_fails).
Proof. apply reset_and_removal_need_user. reflexivity. Defined.

(** X22: when the launch snapshot of the user cannot be read or
    parsed, the reset and the removal answer with the error response of
    the reader; the gradebook, the registry and the directories are left
    as they were. *)
Theorem reset_and_removal_need_launch_data (path token : string) (json : dict)
    (reader : pyval -> string -> lti_file_reader) (w : world) (user_name : pyval) :
  Py.get json "user" = Some user_name ->
  read_success (reader user_name ("runtime/lti_" ++ Py.str user_name ++ ".json"))
  && parse_success (reader user_name ("runtime/lti_" ++ Py.str user_name ++ ".json")) = false ->
  courses_PATCH path token json reader w
  = (Ok (error_response (reader user_name ("runtime/lti_" ++ Py.str user_name ++ ".json"))), w)
  /\ courses_DELETE path json reader w
     = (Ok (error_response (reader user_name ("runtime/lti_" ++ Py.str user_name ++ ".json"))),
        w).
Proof.
  intros Hu Hl. unfold courses_PATCH, courses_DELETE, andthen, request_user, read_lti, mbind.
  rewrite Hu. cbn [mret]. rewrite Hl. split; reflexivity.
Qed.

Lemma reset_and_removal_need_launch_data_witness :
  courses_PATCH reg_path "secret" request_alice (fun _ _ => launch_unparsed) world_curl_fails
  = (Ok (mk_response "LTIFileError" 500), world_curl_fails)
  /\ courses_DELETE reg_path request_alice (fun _ _ => launch_unparsed) world_curl_fails
     = (Ok (mk_response "LTIFileError" 500), world_curl_fails).
Proof.
  apply (reset_and_removal_need_launch_data reg_path "secret" request_alice
           (fun _ _ => launch_unparsed) world_curl_fails (PStr "alice")); reflexivity.
Defined.

(** X23: a reset is not undone when one of its steps fails.  When the
    removal of the exchange directory fails, the route answers
    [CalledProcessError] with status 500; by then the students are out
    of the gradebook and the membership call has been made. *)
Theorem reset_is_not_rolled_back (path token : string) (json : dict)
    (reader : pyval -> string -> lti_file_reader) (w : world) (user_name : pyval)
    (usernames : list string) (base_url : string) :
  let lti := reader user_name ("runtime/lti_" ++ Py.str user_name ++ ".json") in
  Py.get json "user" = Some user_name ->
  read_success lti && parse_success lti = true ->
  gradebook w = Some usernames ->
  get_hub_base_url (lti_state lti) = Ok base_url ->
  run_ok w ["rm"; "-rf"; "/opt/nbgrader_exchange/" ++ course_id lti ++ "/"] = false ->
  courses_PATCH path token json reader w
  = (Ok (mk_response "CalledProcessError" 500),
     set_trace (trace w ++ [curl_remove_members token base_url (course_id lti) usernames;
                            ["rm"; "-rf";
                             ("/opt/nbgrader_exchange/" ++ course_id lti ++ "/")%string]])%list
               (set_gradebook (Some []) w)).
Proof.
  intros lti Hu Hl Hg Hb Hx.
  unfold courses_PATCH, andthen, request_user, read_lti, mbind.
  rewrite Hu. cbn [mret]. fold lti. rewrite Hl. cbn [mret].
  unfold remove_students. rewrite Hg. unfold lift. rewrite Hb.
  unfold run_. rewrite run_unchecked by discriminate.
  rewrite guarded_one by discriminate.
  cbn [run_ok set_trace set_gradebook trace]. rewrite Hx.
  rewrite <- app_assoc. reflexivity.
Qed.

Lemma reset_is_not_rolled_back_witness :
  courses_PATCH reg_path "secret" request_alice (fun _ _ => launch_c1) world_failing
  = (Ok (mk_response "CalledProcessError" 500),
     set_trace [curl_c1; ["rm"; "-rf"; "/opt/nbgrader_exchange/c-1/"]]
               (set_gradebook (Some []) world_failing)).
Proof.
  apply (reset_is_not_rolled_back reg_path "secret" request_alice (fun _ _ => launch_c1)
           world_failing (PStr "alice") ["s1"; "s2"] "jhub/hub/lti13/launch/");
    reflexivity.
Defined.

(** X26: [handle_clean_up] never raises [CleanUpError].  It returns
    when the gradebook could be opened and each of its seven commands
    succeeded; in every other case the [except] clause, which names a
    list, raises [TypeError]. *)
Theorem clean_up_outcomes (path token dir base_url course_id : string) (w : world) :
  (fst (handle_clean_up path token dir base_url course_id w) = Ok tt
   /\ gradebook (snd (handle_clean_up path token dir base_url course_id w)) = Some []
   /\ List.length (trace (snd (handle_clean_up path token dir base_url course_id w)))
      = List.length (trace w) + 7)
  \/ fst (handle_clean_up path token dir base_url course_id w) = Raise TypeError.
Proof.
  unfold handle_clean_up, try_except, mbind, remove_students, run_, working_directories.
  destruct (gradebook w) as [usernames|]; [| right; reflexivity].
  cbn [for_each]. unfold mbind.
  repeat (rewrite run_checked by discriminate;
          cbn [run_ok set_trace set_gradebook trace];
          match goal with
          | |- context [run_ok w ?a] => destruct (run_ok w a)
          end; [| right; reflexivity]).
  left. cbn [mret fst snd gradebook set_gradebook set_trace trace].
  repeat split. rewrite !length_app. cbn [List.length]. lia.
Qed.

(** X27: a course whose group [formgrade-<course_id>] is in the
    registry but has no member is treated like a course without group:
    the removal answers [GroupNotFoundError] with status 500 and does
    nothing after the load. *)
Theorem removal_needs_group_members
    (path : string) (json : dict) (reader : pyval -> string -> lti_file_reader)
    (w w1 : world) (user_name group : pyval) (reg : registry) :
  let lti := reader user_name ("runtime/lti_" ++ Py.str user_name ++ ".json") in
  Py.get json "user" = Some user_name ->
  read_success lti && parse_success lti = true ->
  read_autogenerated_config path w = (Ok reg, w1) ->
  Py.get (groups reg) ("formgrade-" ++ course_id lti) = Some group ->
  Py.truthy group = false ->
  courses_DELETE path json reader w = (Ok (mk_response "GroupNotFoundError" 500), w1).
Proof.
  intros lti Hu Hl Hr Hg Ht.
  unfold courses_DELETE, andthen, request_user, read_lti, mbind, try_except.
  rewrite Hu. cbn [mret]. fold lti. rewrite Hl. cbn [mret]. rewrite Hr. cbn [mret].
  rewrite Hg, Ht. reflexivity.
Qed.

Lemma removal_needs_group_members_witness :
  courses_DELETE reg_path request_alice (fun _ _ => launch_c1) world_empty_group
  = (Ok (mk_response "GroupNotFoundError" 500), world_empty_group).
Proof.
  apply (removal_needs_group_members reg_path request_alice (fun _ _ => launch_c1)
           world_empty_group world_empty_group (PStr "alice") (PList [])
           (mk_registry services_c1 roles_c1 [("formgrade-c-1", PList [])]));
    reflexivity.
Defined.



(** ** Copy of an assignment *)

(** X29: the copy of an assignment reads the grader account from the
    [info.json] two levels above the source.  When that file cannot be
    opened, [InfoFileError] leaves the route: no response is returned and
    no command is run. *)
Theorem copy_needs_info_file (path date_time : string) (f : fs) (json : dict)
    (from_path to_path : string) (parent : Path.t) (w : world) :
  Py.get json "fromPath" = Some (PStr from_path) ->
  Py.get json "toPath" = Some (PStr to_path) ->
  absolute (Str.removesuffix from_path "/") = true ->
  parents_1 (Path.of_string (Str.removesuffix from_path "/")) = Ok parent ->
  info_json f (Path.to_string parent ++ "/info.json") = None ->
  option_map (fun route => route w) (assignments_POST path date_time f json)
  = Some (Raise InfoFileError, w).
Proof.
  intros Hf Ht Ha Hp Hi. unfold assignments_POST. rewrite Hf, Ht, Ha.
  cbn [option_map]. unfold mbind, lift. rewrite Hp. unfold load_info. rewrite Hi.
  reflexivity.
Qed.

Lemma copy_needs_info_file_witness :
  option_map (fun route => route world_fresh)
             (assignments_POST reg_path "2024" fs_titles copy_request)
  = Some (Raise InfoFileError, world_fresh).
Proof.
  apply (copy_needs_info_file reg_path "2024" fs_titles copy_request
           "/home/c-9/course_data/source/a1/" "/home/c-1/course_data/"
           ["home"; "c-9"; "course_data"]); reflexivity.
Defined.

(** X30: the copy is made in four commands: a copy of the source
    beside it under a name with the time, the destination directory, the
    move, the change of owner.  When the move fails the route answers
    [CalledProcessError] with status 500 after the first three: the
    temporary copy has been made and is not removed. *)
Theorem copy_leaves_temporary_copy (path date_time : string) (f : fs) (json : dict)
    (from_path to_path grader_user : string) (parent : Path.t)
    (info : list (string * string)) (w : world) :
  let src := Str.removesuffix from_path "/" in
  let dst := Str.removesuffix to_path "/" ++ "/source/" in
  let tmp := src ++ "_" ++ date_time in
  Py.get json "fromPath" = Some (PStr from_path) ->
  Py.get json "toPath" = Some (PStr to_path) ->
  absolute src = true ->
  parents_1 (Path.of_string src) = Ok parent ->
  info_json f (Path.to_string parent ++ "/info.json") = Some info ->
  assoc info "grader_user" = Some grader_user ->
  run_ok w ["cp"; "-r"; src; tmp] = true ->
  run_ok w ["mkdir"; "-p"; dst] = true ->
  run_ok w ["mv"; tmp; dst] = false ->
  option_map (fun route => route w) (assignments_POST path date_time f json)
  = Some (Ok (mk_response "CalledProcessError" 500),
          set_trace (trace w ++ [["cp"; "-r"; src; tmp];
                                 ["mkdir"; "-p"; dst];
                                 ["mv"; tmp; dst]])%list w).
Proof.
  intros src dst tmp Hf Ht Ha Hp Hi Hg Hc Hm Hv. unfold assignments_POST.
  rewrite Hf, Ht. fold src. rewrite Ha. cbn [option_map].
  unfold mbind, lift. rewrite Hp. unfold load_info. rewrite Hi, Hg.
  unfold andthen, guarded, try_except, mbind, run_, copy_commands.
  fold src dst tmp. cbn [for_each]. unfold mbind.
  rewrite run_checked by discriminate. rewrite Hc.
  rewrite run_checked by discriminate. cbn [run_ok set_trace]. rewrite Hm.
  rewrite run_checked by discriminate. cbn [run_ok set_trace]. rewrite Hv.
  cbn [mret trace set_trace]. rewrite <- !app_assoc. reflexivity.
Qed.

Lemma copy_leaves_temporary_copy_witness :
  option_map (fun route => route world_mv_fails)
             (assignments_POST reg_path "2024" fs_graders copy_request)
  = Some (Ok (mk_response "CalledProcessError" 500),
          set_trace [["cp"; "-r"; "/home/c-9/course_data/source/a1";
                      "/home/c-9/course_data/source/a1_2024"];
                     ["mkdir"; "-p"; "/home/c-1/course_data/source/"];
                     ["mv"; "/home/c-9/course_data/source/a1_2024";
                      "/home/c-1/course_data/source/"]] world_mv_fails).
Proof.
  apply (copy_leaves_temporary_copy reg_path "2024" fs_graders copy_request
           "/home/c-9/course_data/source/a1/" "/home/c-1/course_data/" "c-9"
           ["home"; "c-9"; "course_data"]
           [("title_short", "Nine"); ("grader_user", "c-9")]); reflexivity.
Defined.
